(** * AQI aggregation and conversion pipeline of the ISRO AQI backend

    A shallow embedding of [src/services/realAqiService.js],
    [src/services/aqiService.js], [src/services/databaseService.js],
    [src/utils/helpers.js], the constants module and the routes
    [src/routes/aqi.js] and [src/routes/forecast.js].

    Number model.  JavaScript numbers are IEEE doubles; here every finite
    number is a rational ([Q]), and [NaN] is kept apart as the missing
    case of [option Q].  Text is read to the nearest double
    ([parseFloat]) and the arithmetic of the distance query and of the
    pollutant fields is rounded to doubles ([Double]); the arithmetic
    that leads to an index or a confidence is exact.  Values that the
    code keeps integral (rounded indices, hours,
    timestamps in milliseconds) are [Z].  The transcendental functions
    of [Math] and of SQL and the results of [Math.random] are parameters
    of the development. *)

From Stdlib Require Import ZArith QArith Qround Qminmax Qabs List Ascii String DecimalString.
From Stdlib Require Import Sorted Bool Lia Lqa.
Import ListNotations.
Open Scope string_scope.
Open Scope list_scope.
Open Scope Z_scope.
Open Scope Q_scope.

(** ** JavaScript values and [Math] *)

Module JS.

(** The values that flow through the pipeline where a number is
    expected.  A field of a parsed JSON body is missing ([Undefined]),
    holds [null], or holds a finite number; [NaN] only arises from
    arithmetic on [undefined]. *)
Inductive jsval : Type :=
| Undefined
| Null
| NaN
| Num (q : Q).

(** [None] is [NaN]. *)
Definition number : Type := option Q.

(** ECMAScript [ToNumber]: [undefined] is [NaN], [null] is [+0]. *)
Definition ToNumber (v : jsval) : number :=
  match v with
  | Undefined => None
  | Null => Some 0
  | NaN => None
  | Num q => Some q
  end.

(** [v !== undefined] *)
Definition is_defined (v : jsval) : bool :=
  match v with
  | Undefined => false
  | _ => true
  end.

(** [Math.round]: the nearest integer, ties towards +infinity. *)
Definition Math_round (x : Q) : Z := Qfloor (x + (1 # 2)).

Definition Math_floor (x : Q) : Z := Qfloor x.

(** [Math.max(...xs, last)] on finite numbers. *)
Fixpoint Math_max (xs : list Q) (last : Q) : Q :=
  match xs with
  | [] => last
  | x :: rest => Qmax x (Math_max rest last)
  end.

(** The part of [Math] that has no rational model. *)
Class MathLib : Type := {
  Math_sin : Q -> Q;
  Math_cos : Q -> Q;
  Math_sqrt : Q -> Q;
  Math_atan2 : Q -> Q -> Q;
  Math_PI : Q
}.

End JS.
Import JS.

Definition Qlt_bool (a b : Q) : bool := negb (Qle_bool b a).

(** ** IEEE 754 binary64

    Rounding of a rational to the nearest double, a tie going to the
    value whose last bit is 0. *)

Module Double.

(** [floor (log2 x)] of a positive rational *)
Definition exponent (x : Q) : Z :=
  let e := (Z.log2 (Qnum x) - Z.log2 (Zpos (Qden x)))%Z in
  if Qle_bool (2 ^ e) x then e else (e - 1)%Z.

(** The nearest integer, a tie going to the even one *)
Definition round_half_even (x : Q) : Z :=
  let f := Qfloor x in
  let r := x - inject_Z f in
  if Qlt_bool r (1 # 2) then f
  else if Qlt_bool (1 # 2) r then (f + 1)%Z
  else if Z.even f then f else (f + 1)%Z.

(** The double nearest to a positive rational.  Doubles are spaced by
    [2 ^ (exponent - 52)], and by [2 ^ -1074] below [2 ^ -1022]; [None]
    is the overflow to infinity, from [2 ^ 1024 - 2 ^ 970] on. *)
Definition nearest_positive (x : Q) : option Q :=
  let unit := 2 ^ Z.max (exponent x - 52) (-1074) in
  let y := inject_Z (round_half_even (x / unit)) * unit in
  if Qle_bool (2 ^ 1024) y then None else Some (Qred y).

(** The double nearest to a rational; [None] is an infinity of the sign
    of [x].  The two zeros are one value here. *)
Definition nearest (x : Q) : option Q :=
  let x := Qred x in
  if Qeq_bool x 0 then Some 0
  else if Qlt_bool x 0 then option_map Qopp (nearest_positive (- x))
  else nearest_positive x.

(** The double a decimal literal of the source denotes *)
Definition literal (x : Q) : Q :=
  match nearest x with
  | Some y => y
  | None => 0
  end.

(** Arithmetic on doubles: the exact result, rounded.  [None] stands
    for [NaN] and for an infinite result alike; JSON writes [null] for
    both. *)
Definition add (x y : number) : number :=
  match x, y with
  | Some a, Some b => nearest (a + b)
  | _, _ => None
  end.

Definition mul (x y : number) : number :=
  match x, y with
  | Some a, Some b => nearest (a * b)
  | _, _ => None
  end.

Definition div (x y : number) : number :=
  match x, y with
  | Some a, Some b => if Qeq_bool b 0 then None else nearest (a / b)
  | _, _ => None
  end.

End Double.

(** ** [src/services/realAqiService.js]: the breakpoint converter *)

Record breakpoint : Type := mkBp {
  cLow : Q;
  cHigh : Q;
  iLow : Q;
  iHigh : Q
}.

(** [calculateSubIndex(concentration, breakpoints)].  A comparison with
    [NaN] is false, so a [NaN] concentration falls through every segment. *)
Fixpoint calculateSubIndex (concentration : jsval) (breakpoints : list breakpoint) : Q :=
  match breakpoints with
  | [] => 500
  | bp :: rest =>
      match ToNumber concentration with
      | Some c =>
          if Qle_bool (cLow bp) c && Qle_bool c (cHigh bp)
          then ((iHigh bp - iLow bp) / (cHigh bp - cLow bp)) * (c - cLow bp) + iLow bp
          else calculateSubIndex concentration rest
      | None => calculateSubIndex concentration rest
      end
  end.

Definition pm25_breakpoints : list breakpoint :=
  [ mkBp 0 30 0 50;
    mkBp 30 60 51 100;
    mkBp 60 90 101 200;
    mkBp 90 120 201 300;
    mkBp 120 250 301 400;
    mkBp 250 500 401 500 ].

Definition pm10_breakpoints : list breakpoint :=
  [ mkBp 0 50 0 50;
    mkBp 50 100 51 100;
    mkBp 100 250 101 200;
    mkBp 250 350 201 300;
    mkBp 350 430 301 400;
    mkBp 430 500 401 500 ].

Definition no2_breakpoints : list breakpoint :=
  [ mkBp 0 40 0 50;
    mkBp 40 80 51 100;
    mkBp 80 180 101 200;
    mkBp 180 280 201 300;
    mkBp 280 400 301 400;
    mkBp 400 500 401 500 ].

(** The tables the converter uses. *)
Definition converter_tables : list (list breakpoint) :=
  [ pm25_breakpoints; pm10_breakpoints; no2_breakpoints ].

(** The array [aqiValues] just before the [return] of
    [convertToIndianAQI]: one [push] per argument that is not
    [undefined], for the first three arguments only. *)
Definition aqiValues (pm25 pm10 no2 so2 co o3 : jsval) : list Q :=
  let aqiValues := [] in
  let aqiValues :=
    if is_defined pm25
    then aqiValues ++ [calculateSubIndex pm25 pm25_breakpoints]
    else aqiValues in
  let aqiValues :=
    if is_defined pm10
    then aqiValues ++ [calculateSubIndex pm10 pm10_breakpoints]
    else aqiValues in
  let aqiValues :=
    if is_defined no2
    then aqiValues ++ [calculateSubIndex no2 no2_breakpoints]
    else aqiValues in
  aqiValues.

(** [convertToIndianAQI(pm25, pm10, no2, so2, co, o3)] *)
Definition convertToIndianAQI (pm25 pm10 no2 so2 co o3 : jsval) : Z :=
  Math_round (Math_max (aqiValues pm25 pm10 no2 so2 co o3) 1).

(** [getAQICategory(aqi)] *)
Definition getAQICategory (aqi : Z) : string :=
  if (aqi <=? 50)%Z then "Good"
  else if (aqi <=? 100)%Z then "Satisfactory"
  else if (aqi <=? 200)%Z then "Moderate"
  else if (aqi <=? 300)%Z then "Poor"
  else if (aqi <=? 400)%Z then "Very Poor"
  else "Severe".

(** [convertUSAQIToIndian(usAQI)] *)
Definition convertUSAQIToIndian (usAQI : Z) : Z :=
  if (usAQI <=? 50)%Z then usAQI
  else if (usAQI <=? 100)%Z then usAQI
  else if (usAQI <=? 150)%Z then Math_round (inject_Z usAQI * 1.33)
  else if (usAQI <=? 200)%Z then Math_round (inject_Z usAQI * 1.5)
  else if (usAQI <=? 300)%Z then Math_round (inject_Z usAQI * 1.33)
  else Z.min usAQI 500.

(** ** Readings *)

(** Milliseconds since the epoch; [toISOString] and [new Date(string)]
    are inverse to each other and left out. *)
Definition timestamp : Type := Z.

Record Location : Type := mkLocation {
  loc_name : string;
  loc_latitude : Q;
  loc_longitude : Q;
  loc_state : string;
  loc_country : option string;
  loc_stationType : string
}.

Record AqiInfo : Type := mkAqiInfo {
  aqi_value : Z;
  aqi_category : string;
  aqi_lastUpdated : timestamp
}.

Record Pollutants : Type := mkPollutants {
  pm25 : jsval;
  pm10 : jsval;
  no2 : jsval;
  so2 : jsval;
  co : jsval;
  o3 : jsval;
  nh3 : jsval
}.

Record Weather : Type := mkWeather {
  temperature : jsval;
  humidity : jsval;
  pressure : jsval;
  windSpeed : jsval
}.

(** The object every [fetch*]/[format*]/[getMock*] function of the
    services returns. *)
Record Reading : Type := mkReading {
  location : Location;
  aqi : AqiInfo;
  pollutants : Pollutants;
  weather : option Weather;
  source : string;
  isRealData : bool
}.

(** ** Reference cities and the nearest-city loops *)

Record City : Type := mkCity {
  city_name : string;
  city_lat : Q;
  city_lng : Q;
  city_state : string
}.

Record MockCity : Type := mkMockCity {
  mc_name : string;
  mc_lat : Q;
  mc_lng : Q;
  mc_state : string;
  baseAQI : Z
}.

(** [calculateDistance(lat1, lng1, lat2, lng2)] *)
Definition calculateDistance `{MathLib} (lat1 lng1 lat2 lng2 : Q) : Q :=
  let R := 6371 in
  let dLat := (lat2 - lat1) * Math_PI / 180 in
  let dLng := (lng2 - lng1) * Math_PI / 180 in
  let a :=
    Math_sin (dLat / 2) * Math_sin (dLat / 2) +
    Math_cos (lat1 * Math_PI / 180) * Math_cos (lat2 * Math_PI / 180) *
    Math_sin (dLng / 2) * Math_sin (dLng / 2) in
  let c := 2 * Math_atan2 (Math_sqrt a) (Math_sqrt (1 - a)) in
  R * c.

(** [a < b] on finite numbers *)
Definition cities : list City :=
  [ mkCity "New Delhi" 28.6139 77.2090 "Delhi";
    mkCity "Mumbai" 19.0760 72.8777 "Maharashtra";
    mkCity "Bangalore" 12.9716 77.5946 "Karnataka";
    mkCity "Chennai" 13.0827 80.2707 "Tamil Nadu";
    mkCity "Kolkata" 22.5726 88.3639 "West Bengal";
    mkCity "Hyderabad" 17.3850 78.4867 "Telangana";
    mkCity "Pune" 18.5204 73.8567 "Maharashtra";
    mkCity "Ahmedabad" 23.0225 72.5714 "Gujarat";
    mkCity "Jaipur" 26.9124 75.7873 "Rajasthan";
    mkCity "Surat" 21.1702 72.8311 "Gujarat" ].

Definition cities_0 : City := mkCity "New Delhi" 28.6139 77.2090 "Delhi".

(** [getCityFromCoordinates(lat, lng)]: the loop keeps the pair
    [(closestCity, minDistance)]. *)
Definition getCityFromCoordinates `{MathLib} (lat lng : Q) : City :=
  let closestCity := cities_0 in
  let minDistance := calculateDistance lat lng (city_lat cities_0) (city_lng cities_0) in
  fst (fold_left
         (fun (st : City * Q) (city : City) =>
            let distance := calculateDistance lat lng (city_lat city) (city_lng city) in
            if Qlt_bool distance (snd st) then (city, distance) else st)
         cities (closestCity, minDistance)).

Definition mock_cities : list MockCity :=
  [ mkMockCity "New Delhi" 28.6139 77.2090 "Delhi" 180;
    mkMockCity "Mumbai" 19.0760 72.8777 "Maharashtra" 120;
    mkMockCity "Bangalore" 12.9716 77.5946 "Karnataka" 100;
    mkMockCity "Chennai" 13.0827 80.2707 "Tamil Nadu" 110;
    mkMockCity "Kolkata" 22.5726 88.3639 "West Bengal" 150;
    mkMockCity "Hyderabad" 17.3850 78.4867 "Telangana" 130;
    mkMockCity "Pune" 18.5204 73.8567 "Maharashtra" 115;
    mkMockCity "Ahmedabad" 23.0225 72.5714 "Gujarat" 125 ].

Definition mock_cities_0 : MockCity :=
  mkMockCity "New Delhi" 28.6139 77.2090 "Delhi" 180.

(** [getCityMockData(lat, lng)] *)
Definition getCityMockData `{MathLib} (lat lng : Q) : MockCity :=
  let closestCity := mock_cities_0 in
  let minDistance := calculateDistance lat lng (mc_lat mock_cities_0) (mc_lng mock_cities_0) in
  fst (fold_left
         (fun (st : MockCity * Q) (city : MockCity) =>
            let distance := calculateDistance lat lng (mc_lat city) (mc_lng city) in
            if Qlt_bool distance (snd st) then (city, distance) else st)
         mock_cities (closestCity, minDistance)).

(** ** The outside world *)

(** The sequence of results of [Math.random()] in call order, each in
    [0, 1). *)
Definition random_source : Type := nat -> Q.

Record OwmComponents : Type := mkOwmComponents {
  c_pm2_5 : jsval;
  c_pm10 : jsval;
  c_no2 : jsval;
  c_so2 : jsval;
  c_co : jsval;
  c_o3 : jsval;
  c_nh3 : jsval
}.

(** One element of [data.list] of an OpenWeatherMap body; a missing
    [components] makes every access to it throw. *)
Record OwmEntry : Type := mkOwmEntry {
  dt : jsval;
  components : option OwmComponents
}.

Record IqPollution : Type := mkIqPollution {
  aqius : Z;
  ts : timestamp;
  p2_v : jsval;   (* the value of [pollution.p2?.v] *)
  p1_v : jsval    (* the value of [pollution.p1?.v] *)
}.

Record IqCurrent : Type := mkIqCurrent {
  cur_pollution : option IqPollution;
  cur_weather : option Weather
}.

Record IqData : Type := mkIqData {
  iq_city : string;
  iq_state : string;
  iq_country : string;
  iq_current : option IqCurrent
}.

Record IqBody : Type := mkIqBody {
  iq_status : string;
  iq_data : option IqData
}.

(** What the two providers answer to a [GET].  The outer [None] is a
    rejected [axios.get] (network error, timeout, error status); for
    OpenWeatherMap the inner [None] is a body without [list]. *)
Record World : Type := mkWorld {
  owm_air_pollution : Q -> Q -> string -> option (option (list OwmEntry));
  owm_air_pollution_forecast : Q -> Q -> string -> option (option (list OwmEntry));
  iqair_nearest_city : Q -> Q -> string -> option IqBody
}.

(** The outbound requests a run makes, in order. *)
Inductive Call : Type :=
| GetAirPollution (lat lng : Q) (appid : string)
| GetAirPollutionForecast (lat lng : Q) (appid : string)
| GetNearestCity (lat lng : Q) (key : string).

(** The fields the constructor of [RealAQIService] reads from
    [process.env]; [useRealData] is [USE_REAL_DATA === 'true']. *)
Record Config : Type := mkConfig {
  openWeatherApiKey : option string;
  iqAirApiKey : option string;
  useRealData : bool
}.

(** [!key] for a value that is [undefined] or a string *)
Definition key_falsy (key : option string) : bool :=
  match key with
  | None => true
  | Some s => String.eqb s ""
  end.

(** [key === literal] *)
Definition key_is (key : option string) (literal : string) : bool :=
  match key with
  | None => false
  | Some s => String.eqb s literal
  end.

(** The key as it is sent in the query string. *)
Definition key_param (key : option string) : string :=
  match key with
  | None => ""
  | Some s => s
  end.

(** ** Synthetic readings *)

(** [Math.round(x * scale) / scale], in doubles *)
Definition round_to (scale : Q) (x : number) : jsval :=
  match Double.mul x (Some scale) with
  | Some y =>
      match Double.div (Some (inject_Z (Math_round y))) (Some scale) with
      | Some z => Num z
      | None => NaN
      end
  | None => NaN
  end.

(** [Math.round(x * 10) / 10] *)
Definition round1 (x : number) : jsval := round_to 10 x.

(** [Math.round(x * 100) / 100] *)
Definition round2 (x : number) : jsval := round_to 100 x.

(** [aqi * factor + Math.random() * spread], in doubles *)
Definition synthetic_level (aqi : Z) (factor noise spread : Q) : number :=
  Double.add (Double.mul (Some (inject_Z aqi)) (Some (Double.literal factor)))
             (Double.mul (Some noise) (Some (Double.literal spread))).

(** [getMockAQIData(lat, lng, isError = false)] *)
Definition getMockAQIData `{MathLib} (rnd : random_source) (now : timestamp)
    (lat lng : Q) (isError : bool) : Reading :=
  let cityData := getCityMockData lat lng in
  let baseAQI := (baseAQI cityData + Math_floor (rnd 0%nat * 40) - 20)%Z in
  let aqi := Z.max 1 (Z.min 500 baseAQI) in
  {| location :=
       {| loc_name := mc_name cityData;
          loc_latitude := lat;
          loc_longitude := lng;
          loc_state := mc_state cityData;
          loc_country := None;
          loc_stationType := if isError then "Mock-Fallback" else "Mock-Development" |};
     aqi :=
       {| aqi_value := aqi;
          aqi_category := getAQICategory aqi;
          aqi_lastUpdated := now |};
     pollutants :=
       {| pm25 := round1 (synthetic_level aqi 0.6 (rnd 1%nat) 10);
          pm10 := round1 (synthetic_level aqi 1.2 (rnd 2%nat) 15);
          no2 := round1 (synthetic_level aqi 0.4 (rnd 3%nat) 8);
          so2 := round1 (synthetic_level aqi 0.2 (rnd 4%nat) 5);
          co := round2 (synthetic_level aqi 0.01 (rnd 5%nat) 0.5);
          o3 := round1 (synthetic_level aqi 0.3 (rnd 6%nat) 6);
          nh3 := Undefined |};
     weather := None;
     source := if isError then "Mock-Fallback" else "Mock-Development";
     isRealData := false |}.

(** ** Provider adapters *)

(** [Math.round(v * 10) / 10] on a field of the provider's body *)
Definition round1_val (v : jsval) : jsval := round1 (ToNumber v).

(** [Math.round(v / 1000 * 100) / 100] *)
Definition round2_milli (v : jsval) : jsval :=
  round2 (Double.div (ToNumber v) (Some 1000)).

(** [v || 0] *)
Definition or_zero (v : jsval) : jsval :=
  match v with
  | Num q => if Qeq_bool q 0 then Num 0 else Num q
  | _ => Num 0
  end.

(** [new Date(seconds * 1000).toISOString()]: the instant the text
    denotes, in milliseconds.  [None] is the RangeError that
    [toISOString] throws on an invalid date, which the date is when the
    product is not a number, is infinite or is beyond 8.64e15 either
    way; the fraction of a millisecond is dropped. *)
Definition iso_of_seconds (seconds : jsval) : option timestamp :=
  match ToNumber seconds with
  | None => None
  | Some s =>
      match Double.nearest (s * 1000) with
      | None => None
      | Some ms =>
          if Qlt_bool 8640000000000000 (Qabs ms) then None
          else Some (Z.quot (Qnum ms) (Zpos (Qden ms)))
      end
  end.

(** [formatOpenWeatherMapResponse(pollution, lat, lng)]; [None] when it
    throws: the body has no [components], or its [dt] gives no valid
    date. *)
Definition formatOpenWeatherMapResponse `{MathLib} (pollution : OwmEntry) (lat lng : Q)
    : option Reading :=
  match components pollution with
  | None => None
  | Some components =>
      let indianAQI :=
        convertToIndianAQI (c_pm2_5 components) (c_pm10 components) (c_no2 components)
                           (c_so2 components) (c_co components) (c_o3 components) in
      let cityInfo := getCityFromCoordinates lat lng in
      match iso_of_seconds (dt pollution) with
      | None => None
      | Some lastUpdated =>
          Some
            {| location :=
                 {| loc_name := city_name cityInfo;
                    loc_latitude := lat;
                    loc_longitude := lng;
                    loc_state := city_state cityInfo;
                    loc_country := None;
                    loc_stationType := "OpenWeatherMap" |};
               aqi :=
                 {| aqi_value := indianAQI;
                    aqi_category := getAQICategory indianAQI;
                    aqi_lastUpdated := lastUpdated |};
               pollutants :=
                 {| pm25 := round1_val (c_pm2_5 components);
                    pm10 := round1_val (c_pm10 components);
                    no2 := round1_val (c_no2 components);
                    so2 := round1_val (c_so2 components);
                    co := round2_milli (c_co components);
                    o3 := round1_val (c_o3 components);
                    nh3 := round1_val (c_nh3 components) |};
               weather := None;
               source := "OpenWeatherMap";
               isRealData := true |}
      end
  end.

(** [formatIQAirResponse(data, lat, lng)]; [None] when [data.current],
    its [pollution] or its [weather] is missing and the access throws. *)
Definition formatIQAirResponse (data : IqData) (lat lng : Q) : option Reading :=
  match iq_current data with
  | Some (mkIqCurrent (Some pollution) (Some weather)) =>
      let usAQI := aqius pollution in
      let indianAQI := convertUSAQIToIndian usAQI in
      Some
        {| location :=
             {| loc_name := iq_city data;
                loc_latitude := lat;
                loc_longitude := lng;
                loc_state := iq_state data;
                loc_country := Some (iq_country data);
                loc_stationType := "IQAir" |};
           aqi :=
             {| aqi_value := indianAQI;
                aqi_category := getAQICategory indianAQI;
                aqi_lastUpdated := ts pollution |};
           pollutants :=
             {| pm25 := or_zero (p2_v pollution);
                pm10 := or_zero (p1_v pollution);
                no2 := Null;
                so2 := Null;
                co := Null;
                o3 := Null;
                nh3 := Undefined |};
           weather := Some weather;
           source := "IQAir";
           isRealData := true |}
  | _ => None
  end.

(** [fetchFromOpenWeatherMap(lat, lng)]: the reading or [null], and the
    request made.  Every exception inside is caught and turned into
    [null]. *)
Definition fetchFromOpenWeatherMap `{MathLib} (cfg : Config) (w : World) (lat lng : Q)
    : option Reading * list Call :=
  let appid := key_param (openWeatherApiKey cfg) in
  let calls := [GetAirPollution lat lng appid] in
  match owm_air_pollution w lat lng appid with
  | None => (None, calls)
  | Some data =>
      match data with
      | None => (None, calls)
      | Some [] => (None, calls)
      | Some (pollution :: _) => (formatOpenWeatherMapResponse pollution lat lng, calls)
      end
  end.

(** [fetchFromIQAir(lat, lng)] *)
Definition fetchFromIQAir (cfg : Config) (w : World) (lat lng : Q)
    : option Reading * list Call :=
  let key := key_param (iqAirApiKey cfg) in
  let calls := [GetNearestCity lat lng key] in
  match iqair_nearest_city w lat lng key with
  | None => (None, calls)
  | Some body =>
      if negb (String.eqb (iq_status body) "success") then (None, calls)
      else
        match iq_data body with
        | None => (None, calls)
        | Some data => (formatIQAirResponse data lat lng, calls)
        end
  end.

(** ** The aggregation service *)

(** [fetchRealTimeAQI(lat, lng, radius = 10)]: the reading returned and
    the requests made.  The adapters never throw, so the [catch] of the
    source is not reached. *)
Definition fetchRealTimeAQI `{MathLib} (cfg : Config) (w : World)
    (rnd : random_source) (now : timestamp) (lat lng radius : Q)
    : Reading * list Call :=
  if negb (useRealData cfg) || key_falsy (openWeatherApiKey cfg)
     || key_is (openWeatherApiKey cfg) "placeholder_openweather_key"
  then (getMockAQIData rnd now lat lng false, [])
  else
    let (owmData, calls1) := fetchFromOpenWeatherMap cfg w lat lng in
    match owmData with
    | Some owmData => (owmData, calls1)
    | None =>
        if negb (key_falsy (iqAirApiKey cfg))
           && negb (key_is (iqAirApiKey cfg) "placeholder_iqair_key")
        then
          let (iqAirData, calls2) := fetchFromIQAir cfg w lat lng in
          match iqAirData with
          | Some iqAirData => (iqAirData, calls1 ++ calls2)
          | None => (getMockAQIData rnd now lat lng true, calls1 ++ calls2)
          end
        else (getMockAQIData rnd now lat lng true, calls1)
    end.

(** ** The forecast generator *)

Record ForecastPoint : Type := mkForecastPoint {
  fp_timestamp : timestamp;
  hoursAhead : Z;
  predictedAqi : Z;
  confidence : Q;
  fp_category : string;
  fp_pollutants : option Pollutants
}.

Record Forecast : Type := mkForecast {
  f_location : City;
  forecast : list ForecastPoint;
  model : string;
  f_source : string;
  accuracy : string;
  f_isRealData : bool
}.

(** The values [1, 2, ..., n] that the counter of
    [for (let i = 1; i <= n; i++)] takes. *)
Definition loop_indices (n : Z) : list Z :=
  map Z.of_nat (seq 1 (Z.to_nat n)).

(** [getMockForecastData(lat, lng, hours)]: iteration [i] makes call
    number [i - 1] to [Math.random]. *)
Definition getMockForecastData `{MathLib} (rnd : random_source) (now : timestamp)
    (lat lng : Q) (hours : Z) : Forecast :=
  let cityInfo := getCityFromCoordinates lat lng in
  let baseAQI := baseAQI (getCityMockData lat lng) in
  let forecasts :=
    map (fun i : Z =>
           let timestamp := (now + i * 60 * 60 * 1000)%Z in
           let variation :=
             Math_sin (inject_Z i / 12) * 30 + rnd (Z.to_nat (i - 1)) * 20 - 10 in
           let predictedAqi :=
             Z.max 10 (Z.min 450 (Math_round (inject_Z baseAQI + variation))) in
           {| fp_timestamp := timestamp;
              hoursAhead := i;
              predictedAqi := predictedAqi;
              confidence := 0.75 - (inject_Z i / inject_Z hours) * 0.2;
              fp_category := getAQICategory predictedAqi;
              fp_pollutants := None |})
        (loop_indices hours) in
  {| f_location := cityInfo;
     forecast := forecasts;
     model := "Mock_LSTM";
     f_source := "mock_data";
     accuracy := "Mock data for development purposes";
     f_isRealData := false |}.

(** [list.slice(0, end)] *)
Definition slice0 {A : Type} (l : list A) (end_ : Z) : list A :=
  if (end_ <? 0)%Z
  then firstn (Z.to_nat (Z.of_nat (List.length l) + end_)) l
  else firstn (Z.to_nat end_) l.

(** The callback of [data.list.slice(0, maxEntries).map(...)]; [None]
    when it throws: [item.components] is missing, or [item.dt] gives no
    valid date. *)
Definition forecast_of_item (item : OwmEntry) (index : nat) : option ForecastPoint :=
  match components item with
  | None => None
  | Some c =>
      let indianAQI :=
        convertToIndianAQI (c_pm2_5 c) (c_pm10 c) (c_no2 c) (c_so2 c) (c_co c) (c_o3 c) in
      match iso_of_seconds (dt item) with
      | None => None
      | Some timestamp =>
          Some
            {| fp_timestamp := timestamp;
               hoursAhead := (Z.of_nat index + 1)%Z;
               predictedAqi := indianAQI;
               confidence := 0.85;
               fp_category := getAQICategory indianAQI;
               fp_pollutants :=
                 Some {| pm25 := round1_val (c_pm2_5 c);
                         pm10 := round1_val (c_pm10 c);
                         no2 := round1_val (c_no2 c);
                         so2 := round1_val (c_so2 c);
                         co := round2_milli (c_co c);
                         o3 := round1_val (c_o3 c);
                         nh3 := Undefined |} |}
      end
  end.

(** [items.map((item, index) => ...)] from position [index] on; [None]
    as soon as one callback throws. *)
Fixpoint map_items (items : list OwmEntry) (index : nat) : option (list ForecastPoint) :=
  match items with
  | [] => Some []
  | item :: rest =>
      match forecast_of_item item index with
      | None => None
      | Some p =>
          match map_items rest (S index) with
          | None => None
          | Some ps => Some (p :: ps)
          end
      end
  end.

(** [fetchForecastData(lat, lng, hours = 24)] *)
Definition fetchForecastData `{MathLib} (cfg : Config) (w : World)
    (rnd : random_source) (now : timestamp) (lat lng : Q) (hours : Z)
    : Forecast * list Call :=
  if negb (useRealData cfg) || key_falsy (openWeatherApiKey cfg)
  then (getMockForecastData rnd now lat lng hours, [])
  else
    let appid := key_param (openWeatherApiKey cfg) in
    let calls := [GetAirPollutionForecast lat lng appid] in
    match owm_air_pollution_forecast w lat lng appid with
    | None => (getMockForecastData rnd now lat lng hours, calls)
    | Some None => (getMockForecastData rnd now lat lng hours, calls)
    | Some (Some []) => (getMockForecastData rnd now lat lng hours, calls)
    | Some (Some data_list) =>
        let maxEntries := Z.min hours (Z.of_nat (List.length data_list)) in
        match map_items (slice0 data_list maxEntries) 0 with
        | None => (getMockForecastData rnd now lat lng hours, calls)
        | Some forecasts =>
            ({| f_location := getCityFromCoordinates lat lng;
                forecast := forecasts;
                model := "OpenWeatherMap";
                f_source := "real_api";
                accuracy := "Based on meteorological models and satellite data";
                f_isRealData := true |}, calls)
        end
    end.

(** ** [src/utils/helpers.js] and the constants module *)

Record Category : Type := mkCategory {
  cat_min : Z;
  cat_max : Z;
  cat_label : string;
  cat_color : string
}.

(** [Object.entries(AQI_CATEGORIES)], in insertion order *)
Definition AQI_CATEGORIES : list (string * Category) :=
  [ ("GOOD", mkCategory 0 50 "Good" "#00E400");
    ("SATISFACTORY", mkCategory 51 100 "Satisfactory" "#FFFF00");
    ("MODERATE", mkCategory 101 200 "Moderate" "#FF7E00");
    ("POOR", mkCategory 201 300 "Poor" "#FF0000");
    ("VERY_POOR", mkCategory 301 400 "Very Poor" "#8F3F97");
    ("SEVERE", mkCategory 401 500 "Severe" "#7E0023") ].

Record CategoryInfo : Type := mkCategoryInfo {
  ci_category : string;
  ci_label : string;
  ci_color : string;
  ci_value : Z
}.

(** The loop of [categorizeAQI] over the remaining entries *)
Fixpoint categorizeAQI_from (entries : list (string * Category)) (aqi : Z) : CategoryInfo :=
  match entries with
  | [] =>
      {| ci_category := "SEVERE"; ci_label := "Severe"; ci_color := "#7E0023";
         ci_value := aqi |}
  | (key, category) :: rest =>
      if ((cat_min category <=? aqi) && (aqi <=? cat_max category))%Z
      then {| ci_category := key; ci_label := cat_label category;
              ci_color := cat_color category; ci_value := aqi |}
      else categorizeAQI_from rest aqi
  end.

(** [categorizeAQI(aqi)] *)
Definition categorizeAQI (aqi : Z) : CategoryInfo :=
  categorizeAQI_from AQI_CATEGORIES aqi.

(** ** [src/services/aqiService.js]: the service behind [GET /api/aqi] *)

Module AQIService.

(** [getMockAQIData(lat, lng, isError = false)]; [getCityMockData],
    [calculateDistance] and [getAQICategory] of this class repeat the
    ones of [RealAQIService] word for word. *)
Definition getMockAQIData `{MathLib} (rnd : random_source) (now : timestamp)
    (lat lng : Q) (isError : bool) : Reading :=
  let cityData := getCityMockData lat lng in
  let baseAQI := (baseAQI cityData + Math_floor (rnd 0%nat * 40) - 20)%Z in
  let aqi := Z.max 1 (Z.min 500 baseAQI) in
  {| location :=
       {| loc_name := mc_name cityData;
          loc_latitude := lat;
          loc_longitude := lng;
          loc_state := mc_state cityData;
          loc_country := None;
          loc_stationType := if isError then "Mock-Fallback" else "Mock-CPCB" |};
     aqi :=
       {| aqi_value := aqi;
          aqi_category := getAQICategory aqi;
          aqi_lastUpdated := now |};
     pollutants :=
       {| pm25 := round1 (synthetic_level aqi 0.6 (rnd 1%nat) 10);
          pm10 := round1 (synthetic_level aqi 1.2 (rnd 2%nat) 15);
          no2 := round1 (synthetic_level aqi 0.4 (rnd 3%nat) 8);
          so2 := round1 (synthetic_level aqi 0.2 (rnd 4%nat) 5);
          co := round2 (synthetic_level aqi 0.01 (rnd 5%nat) 0.5);
          o3 := round1 (synthetic_level aqi 0.3 (rnd 6%nat) 6);
          nh3 := Undefined |};
     weather := None;
     source := if isError then "Mock-Fallback" else "Mock-CPCB";
     isRealData := false |}.

(** [fetchRealTimeAQI(lat, lng, radius = 10)]: the call to the CPCB
    API is commented out in the source, both branches return the
    synthetic reading and nothing in the [try] throws. *)
Definition fetchRealTimeAQI `{MathLib} (cpcbApiKey : option string)
    (rnd : random_source) (now : timestamp) (lat lng radius : Q) : Reading :=
  if key_is cpcbApiKey "placeholder_cpcb_key"
  then getMockAQIData rnd now lat lng false
  else getMockAQIData rnd now lat lng false.

End AQIService.

(** ** [src/services/databaseService.js] over a model of the two tables *)

(** The functions of PostgreSQL the raw query calls, on finite values of
    [double precision]; [sql_acos_value] is [acos] on [-1, 1]. *)
Class SqlLib : Type := {
  sql_radians : Q -> Q;
  sql_cos : Q -> Q;
  sql_sin : Q -> Q;
  sql_acos_value : Q -> Q
}.

(** A statement fails as soon as one of its operations raises an error:
    [None] is the error. *)
Definition and_then {A B : Type} (x : option A) (f : A -> option B) : option B :=
  match x with
  | Some a => f a
  | None => None
  end.

Notation "x <- e ;; k" := (and_then e (fun x => k))
  (at level 61, e at next level, right associativity).

(** [a * b] on [double precision]: the exact product rounded to the
    nearest double.  The error 'value out of range' is raised when the
    result overflows, and when it is zero although no factor is. *)
Definition sql_mul (a b : Q) : option Q :=
  r <- Double.nearest (a * b) ;;
  if Qeq_bool r 0 && negb (Qeq_bool a 0) && negb (Qeq_bool b 0) then None else Some r.

(** [a + b] and [a - b]: rounded, with the error on overflow only *)
Definition sql_add (a b : Q) : option Q := Double.nearest (a + b).

Definition sql_sub (a b : Q) : option Q := Double.nearest (a - b).

(** [acos(x)]: the error 'input is out of range' outside [-1, 1] *)
Definition sql_acos `{SqlLib} (x : Q) : option Q :=
  if Qlt_bool x (-1) || Qlt_bool 1 x then None else Some (sql_acos_value x).

(** A row of [locations]; ids are counters here, [cuid()] in the schema. *)
Record LocationRow : Type := mkLocationRow {
  row_id : nat;
  row_name : string;
  row_latitude : Q;
  row_longitude : Q;
  row_state : string;
  row_country : string;
  row_stationType : string;
  row_isActive : bool
}.

(** A row of [aqi_logs] *)
Record AQILog : Type := mkAQILog {
  log_id : nat;
  log_locationId : nat;
  log_aqi : Z;
  log_category : string;
  log_pm25 : jsval;
  log_pm10 : jsval;
  log_no2 : jsval;
  log_so2 : jsval;
  log_co : jsval;
  log_o3 : jsval;
  log_source : string;
  log_timestamp : timestamp
}.

Record Database : Type := mkDatabase {
  locations : list LocationRow;
  aqi_logs : list AQILog;
  next_id : nat
}.

(** A log with [include: { location: true }] *)
Record CachedData : Type := mkCachedData {
  cd_log : AQILog;
  cd_location : LocationRow
}.

(** A field left [undefined] in [create] is stored as SQL [NULL]. *)
Definition to_column (v : jsval) : jsval :=
  match v with
  | Undefined => Null
  | _ => v
  end.

Definition same_coordinates (lat lng : Q) (row : LocationRow) : bool :=
  Qeq_bool (row_latitude row) lat && Qeq_bool (row_longitude row) lng.

(** The statement of [prisma.location.upsert] on the unique key
    [(latitude, longitude)], when the database executes it: the row and
    the tables afterwards *)
Definition location_upsert (db : Database) (locationData : Location) : LocationRow * Database :=
  let lat := loc_latitude locationData in
  let lng := loc_longitude locationData in
  match find (same_coordinates lat lng) (locations db) with
  | Some row =>
      let updated :=
        {| row_id := row_id row;
           row_name := loc_name locationData;
           row_latitude := row_latitude row;
           row_longitude := row_longitude row;
           row_state := loc_state locationData;
           row_country := row_country row;
           row_stationType := loc_stationType locationData;
           row_isActive := row_isActive row |} in
      (updated,
       {| locations :=
            map (fun r => if Nat.eqb (row_id r) (row_id row) then updated else r)
                (locations db);
          aqi_logs := aqi_logs db;
          next_id := next_id db |})
  | None =>
      let created :=
        {| row_id := next_id db;
           row_name := loc_name locationData;
           row_latitude := lat;
           row_longitude := lng;
           row_state := loc_state locationData;
           row_country := "India";
           row_stationType := loc_stationType locationData;
           row_isActive := true |} in
      (created,
       {| locations := locations db ++ [created];
          aqi_logs := aqi_logs db;
          next_id := S (next_id db) |})
  end.

(** The statement of [prisma.aQILog.create] in [saveAQIData], when the
    database executes it: the log and the tables afterwards *)
Definition aQILog_create (db : Database) (location : LocationRow) (aqiData : Reading)
    : AQILog * Database :=
  let aqiLog :=
    {| log_id := next_id db;
       log_locationId := row_id location;
       log_aqi := aqi_value (aqi aqiData);
       log_category := aqi_category (aqi aqiData);
       log_pm25 := to_column (pm25 (pollutants aqiData));
       log_pm10 := to_column (pm10 (pollutants aqiData));
       log_no2 := to_column (no2 (pollutants aqiData));
       log_so2 := to_column (so2 (pollutants aqiData));
       log_co := to_column (co (pollutants aqiData));
       log_o3 := to_column (o3 (pollutants aqiData));
       log_source := source aqiData;
       log_timestamp := aqi_lastUpdated (aqi aqiData) |} in
  (aqiLog,
   {| locations := locations db;
      aqi_logs := aqi_logs db ++ [aqiLog];
      next_id := S (next_id db) |}).

(** What the database does with the two statements of one save: it
    executes both, refuses the upsert, or executes the upsert and
    refuses the insertion.  A refused statement changes nothing. *)
Inductive WriteOutcome : Type :=
| WritesSucceed
| UpsertFails
| CreateFails.

(** [upsertLocation(locationData)]; [None] is the error it throws,
    'Failed to save location data'. *)
Definition upsertLocation (writes : WriteOutcome) (db : Database) (locationData : Location)
    : option (LocationRow * Database) :=
  match writes with
  | UpsertFails => None
  | _ => Some (location_upsert db locationData)
  end.

(** [saveAQIData(aqiData)]: the stored log, [None] when it throws
    'Failed to save AQI data to database', and the tables afterwards *)
Definition saveAQIData (writes : WriteOutcome) (db : Database) (aqiData : Reading)
    : option AQILog * Database :=
  match upsertLocation writes db (location aqiData) with
  | None => (None, db)
  | Some (location, db1) =>
      match writes with
      | CreateFails => (None, db1)
      | _ =>
          let (aqiLog, db2) := aQILog_create db1 location aqiData in
          (Some aqiLog, db2)
      end
  end.

(** The distance expression of the raw query for one row:
    [6371 * acos(cos(radians(lat)) * cos(radians(latitude))
                 * cos(radians(longitude) - radians(lng))
                 + sin(radians(lat)) * sin(radians(latitude)))] *)
Definition sql_distance `{SqlLib} (lat lng : Q) (row : LocationRow) : option Q :=
  cos_cos <- sql_mul (sql_cos (sql_radians lat)) (sql_cos (sql_radians (row_latitude row))) ;;
  delta <- sql_sub (sql_radians (row_longitude row)) (sql_radians lng) ;;
  cosines <- sql_mul cos_cos (sql_cos delta) ;;
  sines <- sql_mul (sql_sin (sql_radians lat)) (sql_sin (sql_radians (row_latitude row))) ;;
  total <- sql_add cosines sines ;;
  angle <- sql_acos total ;;
  sql_mul 6371 angle.

(** Every row with its distance; [None] when the expression fails on a
    row, which fails the whole statement.  The expression is evaluated
    on every row here; whether the database evaluates it on a row that
    is not active is the choice of its planner, and the code creates
    active rows only. *)
Fixpoint with_distances `{SqlLib} (lat lng : Q) (rows : list LocationRow)
    : option (list (LocationRow * Q)) :=
  match rows with
  | [] => Some []
  | row :: rest =>
      match sql_distance lat lng row, with_distances lat lng rest with
      | Some d, Some ds => Some ((row, d) :: ds)
      | _, _ => None
      end
  end.

(** [ORDER BY distance ASC LIMIT 1]: the first row of least distance *)
Fixpoint nearest_row (rows : list (LocationRow * Q)) : option (LocationRow * Q) :=
  match rows with
  | [] => None
  | x :: rest =>
      match nearest_row rest with
      | None => Some x
      | Some y => if Qle_bool (snd x) (snd y) then Some x else Some y
      end
  end.

(** The raw query of [getLatestAQI]: [None] is an error of the
    statement, [Some None] an empty result. *)
Definition query_nearest_location `{SqlLib} (db : Database) (lat lng radius : Q)
    : option (option LocationRow) :=
  match with_distances lat lng (locations db) with
  | None => None
  | Some rows =>
      let matching :=
        filter (fun rd : LocationRow * Q =>
                  Qle_bool (snd rd) radius && row_isActive (fst rd)) rows in
      Some (option_map fst (nearest_row matching))
  end.

(** [orderBy: { timestamp: 'desc' }] and [findFirst]: the first log of
    greatest timestamp *)
Fixpoint latest_log (logs : list AQILog) : option AQILog :=
  match logs with
  | [] => None
  | x :: rest =>
      match latest_log rest with
      | None => Some x
      | Some y => if (log_timestamp y <=? log_timestamp x)%Z then Some x else Some y
      end
  end.

(** [getLatestAQI(lat, lng, radius = 10)]; an error of the statement is
    caught and gives [null].  The errors of the statement are those of
    the distance expression; the database answers every lookup. *)
Definition getLatestAQI `{SqlLib} (db : Database) (lat lng radius : Q) : option CachedData :=
  match query_nearest_location db lat lng radius with
  | None => None
  | Some None => None
  | Some (Some location) =>
      match
        latest_log (filter (fun l => Nat.eqb (log_locationId l) (row_id location))
                           (aqi_logs db))
      with
      | None => None
      | Some latestAQI => Some {| cd_log := latestAQI; cd_location := location |}
      end
  end.

(** ** [parseFloat] on query-string parameters *)

Inductive parsed : Type :=
| PNaN
| PInfinity (negative : bool)
| PNum (q : Q).

Definition is_whitespace (c : Ascii.ascii) : bool :=
  let n := Ascii.nat_of_ascii c in
  ((9 <=? n) && (n <=? 13))%nat || (n =? 32)%nat.

(** The white space outside ASCII, in the UTF-8 form strings have here:
    U+00A0 as two bytes; U+1680, U+2000 to U+200A, U+2028, U+2029,
    U+202F, U+205F, U+3000 and U+FEFF as three. *)
Definition is_whitespace2 (c1 c2 : Ascii.ascii) : bool :=
  ((Ascii.nat_of_ascii c1 =? 194) && (Ascii.nat_of_ascii c2 =? 160))%nat.

Definition is_whitespace3 (c1 c2 c3 : Ascii.ascii) : bool :=
  let n1 := Ascii.nat_of_ascii c1 in
  let n2 := Ascii.nat_of_ascii c2 in
  let n3 := Ascii.nat_of_ascii c3 in
  ((n1 =? 225) && (n2 =? 154) && (n3 =? 128)
   || (n1 =? 226) && (n2 =? 128)
      && ((128 <=? n3) && (n3 <=? 138) || (n3 =? 168) || (n3 =? 169) || (n3 =? 175))
   || (n1 =? 226) && (n2 =? 129) && (n3 =? 159)
   || (n1 =? 227) && (n2 =? 128) && (n3 =? 128)
   || (n1 =? 239) && (n2 =? 187) && (n3 =? 191))%nat.

(** The string without its leading white space and line terminators *)
Fixpoint trim_start (s : string) : string :=
  match s with
  | String c1 rest1 =>
      if is_whitespace c1 then trim_start rest1
      else
        match rest1 with
        | String c2 rest2 =>
            if is_whitespace2 c1 c2 then trim_start rest2
            else
              match rest2 with
              | String c3 rest3 =>
                  if is_whitespace3 c1 c2 c3 then trim_start rest3 else s
              | EmptyString => s
              end
        | EmptyString => s
        end
  | EmptyString => s
  end.

Definition digit (c : Ascii.ascii) : option Z :=
  let n := Ascii.nat_of_ascii c in
  if ((48 <=? n) && (n <=? 57))%nat then Some (Z.of_nat (n - 48)) else None.

(** The longest run of decimal digits at the head of [s]: its value
    after [value], the count of digits after [count], and the rest. *)
Fixpoint read_digits (s : string) (value : Z) (count : nat) : Z * nat * string :=
  match s with
  | String c rest =>
      match digit c with
      | Some d => read_digits rest (value * 10 + d)%Z (S count)
      | None => (value, count, s)
      end
  | EmptyString => (value, count, s)
  end.

Definition read_sign (s : string) : bool * string :=
  match s with
  | String "-"%char rest => (true, rest)
  | String "+"%char rest => (false, rest)
  | _ => (false, s)
  end.

(** The exponent part, [0] when there is none or it has no digit *)
Definition read_exponent (s : string) : Z :=
  match s with
  | String c rest =>
      if Ascii.eqb c "e"%char || Ascii.eqb c "E"%char
      then
        let (negative, rest) := read_sign rest in
        let '(value, count, _) := read_digits rest 0%Z 0%nat in
        if (count =? 0)%nat then 0%Z
        else if negative then (- value)%Z else value
      else 0%Z
  | EmptyString => 0%Z
  end.

(** [parseFloat(s)]: the longest prefix of the trimmed string that is a
    decimal literal, [NaN] when there is none; the value is the double
    nearest to the literal, an infinity when that overflows. *)
Definition parseFloat (s : string) : parsed :=
  let (negative, s) := read_sign (trim_start s) in
  if String.prefix "Infinity" s then PInfinity negative
  else
    let '(int_part, int_count, s) := read_digits s 0%Z 0%nat in
    let '(frac_part, frac_count, s) :=
      match s with
      | String "."%char rest => read_digits rest 0%Z 0%nat
      | _ => (0%Z, 0%nat, s)
      end in
    if (int_count + frac_count =? 0)%nat then PNaN
    else
      let mantissa :=
        inject_Z int_part + inject_Z frac_part / inject_Z (10 ^ Z.of_nat frac_count) in
      match Double.nearest (mantissa * 10 ^ read_exponent s) with
      | Some magnitude => PNum (if negative then - magnitude else magnitude)
      | None => PInfinity negative
      end.

(** ** [src/routes/aqi.js]: [GET /api/aqi] *)

(** The three parameters of the query string, each given once or left
    out; [parseFloat] reads the text of a parameter. *)
Record Query : Type := mkQuery {
  q_lat : option string;
  q_lng : option string;
  q_radius : option string
}.

Record BodyAqi : Type := mkBodyAqi {
  ba_value : Z;
  ba_category : string;
  ba_label : string;
  ba_color : string;
  ba_lastUpdated : timestamp
}.

Record AqiBody : Type := mkAqiBody {
  b_location : Location;
  b_aqi : BodyAqi;
  b_pollutants : Pollutants;
  b_source : string;
  b_lastUpdated : option timestamp
}.

(** The status code and the object [formatResponse] builds *)
Record Response : Type := mkResponse {
  status : Z;
  success : bool;
  data : option AqiBody;
  message : string;
  meta_source : option string;
  meta_dataAge : option Z;
  meta_isRealData : option bool
}.

(** What the handler asks of its two collaborators, in order *)
Inductive Event : Type :=
| EvGetLatestAQI (lat lng radius : Q)
| EvFetchRealTimeAQI (lat lng radius : Q)
| EvSaveAQIData (aqiData : Reading).

Definition bad_request (msg : string) : Response :=
  {| status := 400; success := false; data := None; message := msg;
     meta_source := None; meta_dataAge := None; meta_isRealData := None |}.

(** [isDataFresh(timestamp)] at the instant [now] *)
Definition isDataFresh (now : timestamp) (timestamp : timestamp) : bool :=
  let diffInMinutes := inject_Z (now - timestamp) / (1000 * 60) in
  Qle_bool diffInMinutes 60.

(** [getDataAge(timestamp)] *)
Definition getDataAge (now : timestamp) (timestamp : timestamp) : Z :=
  Math_round (inject_Z (now - timestamp) / (1000 * 60)).

(** [formatCachedAQIResponse(cachedData)] *)
Definition formatCachedAQIResponse (cachedData : CachedData) : AqiBody :=
  let log := cd_log cachedData in
  let aqiCategory := categorizeAQI (log_aqi log) in
  {| b_location :=
       {| loc_name := row_name (cd_location cachedData);
          loc_latitude := row_latitude (cd_location cachedData);
          loc_longitude := row_longitude (cd_location cachedData);
          loc_state := row_state (cd_location cachedData);
          loc_country := None;
          loc_stationType := row_stationType (cd_location cachedData) |};
     b_aqi :=
       {| ba_value := log_aqi log;
          ba_category := ci_category aqiCategory;
          ba_label := ci_label aqiCategory;
          ba_color := ci_color aqiCategory;
          ba_lastUpdated := log_timestamp log |};
     b_pollutants :=
       {| pm25 := log_pm25 log;
          pm10 := log_pm10 log;
          no2 := log_no2 log;
          so2 := log_so2 log;
          co := log_co log;
          o3 := log_o3 log;
          nh3 := Undefined |};
     b_source := log_source log;
     b_lastUpdated := None |}.

(** A parsed parameter that passes [isNaN(v) || bad(v)]: the finite
    value, [None] when the test rejects it.  Both infinities fail each
    of the three range tests of the handler. *)
Definition accepted (v : parsed) (bad : Q -> bool) : option Q :=
  match v with
  | PNum q => if bad q then None else Some q
  | _ => None
  end.

(** The handler of [router.get('/')] once the three parameters are
    validated (from [getLatestAQI] on): the response, the tables after
    it, and the calls to [dbService] and [aqiService] it made.  All
    [new Date()] of one run read the same instant [now].  An error of
    [saveAQIData] is caught and logged, and the handler goes on. *)
Definition serve_aqi `{MathLib} `{SqlLib} (cpcbApiKey : option string) (db : Database)
    (writes : WriteOutcome)
    (rnd : random_source) (now : timestamp) (latitude longitude searchRadius : Q)
    : Response * Database * list Event :=
  let lookup := [EvGetLatestAQI latitude longitude searchRadius] in
  let cachedData := getLatestAQI db latitude longitude searchRadius in
  let fresh_cached :=
    match cachedData with
    | Some cachedData =>
        if isDataFresh now (log_timestamp (cd_log cachedData)) then Some cachedData else None
    | None => None
    end in
  match fresh_cached with
  | Some cachedData =>
      ({| status := 200; success := true;
          data := Some (formatCachedAQIResponse cachedData);
          message := "AQI data retrieved from cache";
          meta_source := Some "cache";
          meta_dataAge := Some (getDataAge now (log_timestamp (cd_log cachedData)));
          meta_isRealData := None |},
       db, lookup)
  | None =>
      let freshData :=
        AQIService.fetchRealTimeAQI cpcbApiKey rnd now latitude longitude searchRadius in
      let (_, db') := saveAQIData writes db freshData in
      let aqiCategory := categorizeAQI (aqi_value (aqi freshData)) in
      let response :=
        {| b_location := location freshData;
           b_aqi :=
             {| ba_value := ci_value aqiCategory;
                ba_category := ci_category aqiCategory;
                ba_label := ci_label aqiCategory;
                ba_color := ci_color aqiCategory;
                ba_lastUpdated := aqi_lastUpdated (aqi freshData) |};
           b_pollutants := pollutants freshData;
           b_source := source freshData;
           b_lastUpdated := Some (aqi_lastUpdated (aqi freshData)) |} in
      ({| status := 200; success := true; data := Some response;
          message := "AQI data retrieved successfully";
          meta_source := Some "external_api";
          meta_dataAge := None;
          meta_isRealData := Some (isRealData freshData || false) |},
       db',
       lookup ++ [EvFetchRealTimeAQI latitude longitude searchRadius;
                  EvSaveAQIData freshData])
  end.

(** The handler of [router.get('/')] *)
Definition get_aqi `{MathLib} `{SqlLib} (cpcbApiKey : option string) (db : Database)
    (writes : WriteOutcome)
    (rnd : random_source) (now : timestamp) (query : Query)
    : Response * Database * list Event :=
  if key_falsy (q_lat query) || key_falsy (q_lng query)
  then (bad_request "Latitude and longitude are required parameters", db, [])
  else
    let latitude := parseFloat (key_param (q_lat query)) in
    let longitude := parseFloat (key_param (q_lng query)) in
    let searchRadius :=
      match q_radius query with
      | None => PNum 10
      | Some radius => parseFloat radius
      end in
    match accepted latitude (fun v => Qlt_bool v (-90) || Qlt_bool 90 v) with
    | None => (bad_request "Invalid latitude. Must be between -90 and 90", db, [])
    | Some latitude =>
    match accepted longitude (fun v => Qlt_bool v (-180) || Qlt_bool 180 v) with
    | None => (bad_request "Invalid longitude. Must be between -180 and 180", db, [])
    | Some longitude =>
    match accepted searchRadius (fun v => Qle_bool v 0 || Qlt_bool 100 v) with
    | None => (bad_request "Invalid radius. Must be between 0 and 100 km", db, [])
    | Some searchRadius =>
        serve_aqi cpcbApiKey db writes rnd now latitude longitude searchRadius
    end end end.

(** ** Predicates of the statements *)

(** Segments follow each other without gap, each rises, and the index
    ranges are ordered and stay at or below 500. *)
Fixpoint well_formed (table : list breakpoint) : Prop :=
  match table with
  | [] => True
  | bp :: rest =>
      cLow bp < cHigh bp /\ iLow bp <= iHigh bp /\ iHigh bp <= 500 /\
      match rest with
      | [] => True
      | next :: _ => cHigh bp == cLow next /\ iHigh bp <= iLow next
      end /\
      well_formed rest
  end.

(** The least concentration a table covers *)
Definition range_low (table : list breakpoint) : Q :=
  match table with
  | [] => 0
  | bp :: _ => cLow bp
  end.

(** The greatest concentration a table covers *)
Definition range_high (table : list breakpoint) : Q :=
  cHigh (last table (mkBp 0 0 0 0)).

Definition covered (table : list breakpoint) (c : Q) : Prop :=
  range_low table <= c /\ c <= range_high table.


(** The contribution of one argument of [convertToIndianAQI] to
    [aqiValues] *)
Definition sub_index_of (v : jsval) (table : list breakpoint) : list Q :=
  if is_defined v then [calculateSubIndex v table] else [].

(** A pollutant the provider did not report: the key is missing or
    holds [null]. *)
Definition unreported (v : jsval) : Prop := v = Undefined \/ v = Null.

(** The six buckets of the scale *)
Inductive bucket : Type :=
| GOOD
| SATISFACTORY
| MODERATE
| POOR
| VERY_POOR
| SEVERE.

(** The scale as the specification words it: GOOD 0-50, SATISFACTORY
    51-100, MODERATE 101-200, POOR 201-300, VERY_POOR 301-400, SEVERE
    401-500 and anything above 500. *)
Definition scale (aqi : Z) : bucket :=
  if ((0 <=? aqi) && (aqi <=? 50))%Z then GOOD
  else if ((51 <=? aqi) && (aqi <=? 100))%Z then SATISFACTORY
  else if ((101 <=? aqi) && (aqi <=? 200))%Z then MODERATE
  else if ((201 <=? aqi) && (aqi <=? 300))%Z then POOR
  else if ((301 <=? aqi) && (aqi <=? 400))%Z then VERY_POOR
  else SEVERE.

(** The key of a bucket in [AQI_CATEGORIES] *)
Definition bucket_key (b : bucket) : string :=
  match b with
  | GOOD => "GOOD"
  | SATISFACTORY => "SATISFACTORY"
  | MODERATE => "MODERATE"
  | POOR => "POOR"
  | VERY_POOR => "VERY_POOR"
  | SEVERE => "SEVERE"
  end.

(** The label of a bucket, which is what [getAQICategory] returns *)
Definition bucket_label (b : bucket) : string :=
  match b with
  | GOOD => "Good"
  | SATISFACTORY => "Satisfactory"
  | MODERATE => "Moderate"
  | POOR => "Poor"
  | VERY_POOR => "Very Poor"
  | SEVERE => "Severe"
  end.

(** ** Sample environments *)

(** A crude rational stand-in for [Math], for running the model on
    concrete inputs: truncated series for the sine and the cosine,
    355/113 for pi. *)
Definition rational_math : MathLib :=
  {| Math_sin := fun x => x - x * x * x / 6;
     Math_cos := fun x => 1 - x * x / 2;
     Math_sqrt := fun x => x;
     Math_atan2 := fun y x => y;
     Math_PI := 355 # 113 |}.

(** A noise source that always returns one half *)
Definition half_noise : random_source := fun _ => 1 # 2.

(** The first test of [fetchRealTimeAQI]: the real-data flag is unset,
    or the key of the primary provider is missing or the placeholder. *)
Definition offline (cfg : Config) : bool :=
  negb (useRealData cfg) || key_falsy (openWeatherApiKey cfg)
  || key_is (openWeatherApiKey cfg) "placeholder_openweather_key".

(** The secondary provider has a key of its own. *)
Definition secondary_enabled (cfg : Config) : bool :=
  negb (key_falsy (iqAirApiKey cfg))
  && negb (key_is (iqAirApiKey cfg) "placeholder_iqair_key").

Definition online_config : Config :=
  {| openWeatherApiKey := Some "owm-key";
     iqAirApiKey := Some "iqair-key";
     useRealData := true |}.

Definition unconfigured : Config :=
  {| openWeatherApiKey := Some "placeholder_openweather_key";
     iqAirApiKey := Some "placeholder_iqair_key";
     useRealData := false |}.

Definition iqair_sample : IqBody :=
  {| iq_status := "success";
     iq_data :=
       Some {| iq_city := "Mumbai"; iq_state := "Maharashtra"; iq_country := "India";
               iq_current :=
                 Some {| cur_pollution :=
                           Some {| aqius := 152; ts := 1700000000000%Z;
                                   p2_v := Num 57; p1_v := Undefined |};
                         cur_weather :=
                           Some {| temperature := Num 30; humidity := Num 70;
                                   pressure := Num 1009; windSpeed := Num 3 |} |} |} |}.

(** Every request fails. *)
Definition world_down : World :=
  {| owm_air_pollution := fun _ _ _ => None;
     owm_air_pollution_forecast := fun _ _ _ => None;
     iqair_nearest_city := fun _ _ _ => None |}.

(** OpenWeatherMap fails, IQAir answers. *)
Definition world_secondary_only : World :=
  {| owm_air_pollution := fun _ _ _ => None;
     owm_air_pollution_forecast := fun _ _ _ => None;
     iqair_nearest_city := fun _ _ _ => Some iqair_sample |}.

Definition owm_sample_entry : OwmEntry :=
  {| dt := Num 1700003600;
     components :=
       Some {| c_pm2_5 := Num 35; c_pm10 := Num 40; c_no2 := Num 12;
               c_so2 := Num 8; c_co := Num 300; c_o3 := Num 20; c_nh3 := Num 1 |} |}.

(** The forecast endpoint answers with a single entry. *)
Definition world_short_forecast : World :=
  {| owm_air_pollution := fun _ _ _ => None;
     owm_air_pollution_forecast := fun _ _ _ => Some (Some [owm_sample_entry]);
     iqair_nearest_city := fun _ _ _ => None |}.

(** A query parameter that reads as a number below [lo] or above [hi] *)
Definition outside (text : option string) (lo hi : Q) : Prop :=
  exists s v, text = Some s /\ parseFloat s = PNum v /\ (v < lo \/ hi < v).

(** A query parameter that is present, not empty, and reads as a finite
    number within [lo, hi] *)
Definition within (text : option string) (lo hi : Q) : bool :=
  match text with
  | None => false
  | Some s =>
      negb (String.eqb s "")
      && match parseFloat s with
         | PNum v => Qle_bool lo v && Qle_bool v hi
         | _ => false
         end
  end.

(** Both coordinates are given and in range. *)
Definition coordinates_valid (query : Query) : bool :=
  within (q_lat query) (-90) 90 && within (q_lng query) (-180) 180.

(** The radius is left out, or reads as a number in (0, 100]. *)
Definition radius_valid (query : Query) : bool :=
  match q_radius query with
  | None => true
  | Some s =>
      match parseFloat s with
      | PNum v => Qlt_bool 0 v && Qle_bool v 100
      | _ => false
      end
  end.

(** The log and the tables of a save whose two statements the database
    executes *)
Definition saved (db : Database) (aqiData : Reading) : AQILog * Database :=
  let (location, db1) := location_upsert db (location aqiData) in
  aQILog_create db1 location aqiData.

(** SQL functions for running the model on doubles: [radians]
    multiplies by the double nearest to pi / 180, [cos] and [sin] are
    the rounded sums of their power series up to [x ^ 24] and [x ^ 25],
    and [acos x] is [2 * asin (sqrt ((1 - x) / 2))] with six terms of
    the series of [asin] and a square root to 60 binary places. *)
Fixpoint alternating_series (terms : nat) (k : Z) (term square : Q) : Q :=
  match terms with
  | O => 0
  | S n =>
      term
      + alternating_series n (k + 2)
          (Qred (- term * square / inject_Z ((k + 1) * (k + 2)))) square
  end.

Definition square_root (x : Q) : Q :=
  inject_Z (Z.sqrt (Qfloor (x * 2 ^ 120))) / 2 ^ 60.

Definition series_sql : SqlLib :=
  {| sql_radians := fun x => Double.literal (x * Double.literal 0.017453292519943295);
     sql_cos := fun x => Double.literal (alternating_series 13 0 1 (x * x));
     sql_sin := fun x => Double.literal (alternating_series 13 1 (Qred x) (x * x));
     sql_acos_value := fun x =>
       let t := square_root ((1 - x) / 2) in
       let t2 := t * t in
       Double.literal
         (2 * t * (1 + t2 * ((1 # 6) + t2 * ((3 # 40) + t2 * ((15 # 336)
                  + t2 * ((105 # 3456) + t2 * (945 # 42240))))))) |}.

(** SQL functions for running the model: every point is at distance 0
    of every other. *)
Definition flat_sql : SqlLib :=
  {| sql_radians := fun x => x;
     sql_cos := fun _ => 1;
     sql_sin := fun _ => 0;
     sql_acos_value := fun x => 1 - x |}.

Definition empty_database : Database :=
  {| locations := []; aqi_logs := []; next_id := 0 |}.

(** The doubles that [cos] and [sin] return at [radians(12)] *)
Definition cos_radians_12 : Q := Double.literal 0.9781476007338057.

Definition sin_radians_12 : Q := Double.literal 0.20791169081775934.

(** A reading as the service of the route produces it at the instant
    [now] for coordinates given as decimal literals *)
Definition reading_at (now : timestamp) (lat lng : Q) : Reading :=
  @AQIService.getMockAQIData rational_math half_noise now
    (Double.literal lat) (Double.literal lng) false.

(** Tables with one log for Pune and two for Mumbai, the second an hour
    after the first: the rows, the logs and the tables after each save *)
Definition pune_row : LocationRow :=
  Eval vm_compute in
    fst (location_upsert empty_database
           (location (reading_at 1700000000000%Z 18.5204 73.8567))).

Definition pune_log : AQILog :=
  Eval vm_compute in
    fst (saved empty_database (reading_at 1700000000000%Z 18.5204 73.8567)).

Definition pune_tables : Database :=
  Eval vm_compute in
    snd (saveAQIData WritesSucceed empty_database
           (reading_at 1700000000000%Z 18.5204 73.8567)).

Definition mumbai_row : LocationRow :=
  Eval vm_compute in
    fst (location_upsert pune_tables
           (location (reading_at 1700000000000%Z 19.0760 72.8777))).

Definition mumbai_log : AQILog :=
  Eval vm_compute in
    fst (saved pune_tables (reading_at 1700000000000%Z 19.0760 72.8777)).

Definition mumbai_tables : Database :=
  Eval vm_compute in
    snd (saveAQIData WritesSucceed pune_tables
           (reading_at 1700000000000%Z 19.0760 72.8777)).

Definition mumbai_later_log : AQILog :=
  Eval vm_compute in
    fst (saved mumbai_tables (reading_at 1700003600000%Z 19.0760 72.8777)).

Definition two_city_tables : Database :=
  Eval vm_compute in
    snd (saveAQIData WritesSucceed mumbai_tables
           (reading_at 1700003600000%Z 19.0760 72.8777)).

(** The distance the query computes from Mumbai to the row of Pune with
    [series_sql], about 120.15 km *)
Definition distance_or_zero (d : option Q) : Q :=
  match d with
  | Some x => x
  | None => 0
  end.

Definition pune_distance : Q :=
  Eval vm_compute in
    distance_or_zero
      (@sql_distance series_sql (Double.literal 19.0760) (Double.literal 72.8777) pune_row).

(** A reading as the service of the route produces it, for Mumbai *)
Definition mumbai_reading : Reading :=
  @AQIService.getMockAQIData rational_math half_noise 1700000000000%Z
    19.0760 72.8777 false.


(** What the schema guarantees of the two tables: ids are distinct and
    below the counter, coordinates are a unique key of [locations], and
    every log belongs to a stored location. *)
Definition db_consistent (db : Database) : Prop :=
  NoDup (map row_id (locations db))
  /\ NoDup (map log_id (aqi_logs db))
  /\ (forall row, In row (locations db) -> (row_id row < next_id db)%nat)
  /\ (forall l, In l (aqi_logs db) -> (log_id l < next_id db)%nat)
  /\ (forall r1 r2, In r1 (locations db) -> In r2 (locations db) ->
        same_coordinates (row_latitude r1) (row_longitude r1) r2 = true -> r1 = r2)
  /\ (forall l, In l (aqi_logs db) ->
        exists row, In row (locations db) /\ row_id row = log_locationId l).

(** ** [getMostCommonCategory] of [databaseService.js] and [forecast.js] *)

(** The object [counts] as its own properties in insertion order.  This
    is how an object lists keys that are not array indices and are not
    inherited names, which holds of the labels [getAQICategory]
    produces. *)
Definition counts_object : Type := list (string * Z).

(** [counts[key]], [0] standing for [undefined] in [(acc[category] || 0)] *)
Fixpoint count_of (counts : counts_object) (key : string) : Z :=
  match counts with
  | [] => 0
  | (k, n) :: rest => if String.eqb k key then n else count_of rest key
  end.

(** [acc[category] = (acc[category] || 0) + 1] *)
Fixpoint increment (acc : counts_object) (category : string) : counts_object :=
  match acc with
  | [] => [(category, 1%Z)]
  | (k, n) :: rest =>
      if String.eqb k category then (k, (n + 1)%Z) :: rest
      else (k, n) :: increment rest category
  end.

(** [categories.reduce((acc, cat) => { ...; return acc; }, {})] *)
Definition count_categories (categories : list string) : counts_object :=
  fold_left increment categories [].

(** [Object.keys(counts).reduce((a, b) => counts[a] > counts[b] ? a : b)];
    [None] is the [TypeError] of [reduce] on an empty array without an
    initial value. *)
Definition most_counted (counts : counts_object) : option string :=
  match map fst counts with
  | [] => None
  | first :: keys =>
      Some (fold_left
              (fun a b => if (count_of counts b <? count_of counts a)%Z then a else b)
              keys first)
  end.

(** [getMostCommonCategory(categories)] of [forecast.js] *)
Definition getMostCommonCategory_forecast (categories : list string) : option string :=
  most_counted (count_categories categories).

(** [getMostCommonCategory(categories)] of [databaseService.js] *)
Definition getMostCommonCategory_database (categories : list string) : option string :=
  match categories with
  | [] => Some "Unknown"
  | _ => most_counted (count_categories categories)
  end.

(** The labels [getAQICategory] can return *)
Definition category_labels : list string :=
  ["Good"; "Satisfactory"; "Moderate"; "Poor"; "Very Poor"; "Severe"].

(** ** [calculateForecastSummary] of [src/routes/forecast.js] *)

Record Summary : Type := mkSummary {
  avgAqi : Z;
  maxAqi : Z;
  minAqi : Z;
  trend : string;
  trendChange : option Z;            (* [None] is [NaN] *)
  mostCommonCategory : option string;
  peakPollutionHours : list Z;
  avgConfidence : Z
}.

(** [values.reduce((sum, val) => sum + val, 0)] *)
Definition sum_values (values : list Z) : Z := fold_left Z.add values 0%Z.

(** [sum / values.length]; [0 / 0] is [NaN] *)
Definition average (values : list Z) : number :=
  match values with
  | [] => None
  | _ => Some (inject_Z (sum_values values) / inject_Z (Z.of_nat (List.length values)))
  end.

(** [values.slice(-n)]; [-0] is [0], so [slice(-0)] is the whole array *)
Definition slice_last {A : Type} (values : list A) (n : nat) : list A :=
  match n with
  | O => values
  | _ => skipn (List.length values - n) values
  end.

(** [Math.max(...values)] and [Math.min(...values)] on a non-empty array;
    the default is not reached by the caller. *)
Definition max_of (values : list Z) : Z :=
  match values with
  | [] => 0%Z
  | v :: rest => fold_left Z.max rest v
  end.

Definition min_of (values : list Z) : Z :=
  match values with
  | [] => 0%Z
  | v :: rest => fold_left Z.min rest v
  end.

(** [[...new Set(values)]]: the first occurrence of every value, in order *)
Fixpoint distinct (values : list Z) : list Z :=
  match values with
  | [] => []
  | v :: rest => v :: filter (fun x => negb (Z.eqb x v)) (distinct rest)
  end.

(** [String(n)] for an integer *)
Definition number_text (n : Z) : string := NilZero.string_of_int (Z.to_int n).

(** [values.sort()] without a comparator: ascending in the order of the
    decimal texts, written as an insertion sort. *)
Fixpoint insert_by_text (v : Z) (sorted : list Z) : list Z :=
  match sorted with
  | [] => [v]
  | x :: rest =>
      if String.leb (number_text v) (number_text x) then v :: sorted
      else x :: insert_by_text v rest
  end.

Definition sort_by_text (values : list Z) : list Z :=
  fold_right insert_by_text [] values.

(** [f.confidence || 0.8] *)
Definition confidence_or_default (c : Q) : Q := if Qeq_bool c 0 then 0.8 else c.

(** [calculateForecastSummary(forecasts)]; [None] is the empty object
    returned for an empty array.  [getHours] is the hour of the day of a
    timestamp in the time zone of the server. *)
Definition calculateForecastSummary (getHours : timestamp -> Z)
    (forecasts : list ForecastPoint) : option Summary :=
  match forecasts with
  | [] => None
  | _ =>
      let aqiValues := map predictedAqi forecasts in
      let categories := map fp_category forecasts in
      let quarter := Nat.div (List.length aqiValues) 4 in
      let firstQuarter := firstn quarter aqiValues in
      let lastQuarter := slice_last aqiValues quarter in
      let firstAvg := average firstQuarter in
      let lastAvg := average lastQuarter in
      let diff : number :=
        match lastAvg, firstAvg with
        | Some l, Some f => Some (l - f)
        | _, _ => None
        end in
      let trend :=
        match diff with
        | Some d =>
            if Qlt_bool 10 d then "worsening"
            else if Qlt_bool d (-10) then "improving"
            else "stable"
        | None => "stable"
        end in
      let peakHours :=
        map (fun f => getHours (fp_timestamp f))
            (filter (fun f => (150 <? predictedAqi f)%Z) forecasts) in
      Some
        {| avgAqi :=
             Math_round (inject_Z (sum_values aqiValues)
                         / inject_Z (Z.of_nat (List.length aqiValues)));
           maxAqi := max_of aqiValues;
           minAqi := min_of aqiValues;
           trend := trend;
           trendChange := option_map Math_round diff;
           mostCommonCategory := most_counted (count_categories categories);
           peakPollutionHours := sort_by_text (distinct peakHours);
           avgConfidence :=
             Math_round
               (fold_left (fun sum f => sum + confidence_or_default (confidence f))
                          forecasts 0
                / inject_Z (Z.of_nat (List.length forecasts)) * 100) |}
  end.

(** The order of [sort()] without a comparator: by decimal text *)
Definition text_le (a b : Z) : Prop :=
  String.leb (number_text a) (number_text b) = true.

(** The handler of [GET /api/forecast] once its parameters are
    validated: the forecast is fetched, an empty one is answered with
    503, any other is summarised. *)
Inductive ForecastAnswer : Type :=
| Unavailable
| Generated (data : Forecast) (summary : option Summary).

Definition forecast_after_validation `{MathLib} (getHours : timestamp -> Z)
    (cfg : Config) (w : World) (rnd : random_source) (now : timestamp)
    (latitude longitude : Q) (forecastHours : Z) : ForecastAnswer * list Call :=
  let (forecastData, calls) :=
    fetchForecastData cfg w rnd now latitude longitude forecastHours in
  match forecast forecastData with
  | [] => (Unavailable, calls)
  | _ :: _ =>
      (Generated forecastData
         (calculateForecastSummary getHours (forecast forecastData)), calls)
  end.
(** * Properties *)

(** ** Arithmetic of one segment *)

Lemma Qle_bool_false (x y : Q) : Qle_bool x y = false <-> y < x.
Proof.
  split; intro Hxy.
  - apply Qnot_le_lt. intro Hle. apply Qle_bool_iff in Hle. congruence.
  - destruct (Qle_bool x y) eqn:E; [|reflexivity].
    apply Qle_bool_iff in E. exfalso. exact (Qlt_not_le _ _ Hxy E).
Qed.

Lemma Qlt_bool_iff (x y : Q) : Qlt_bool x y = true <-> x < y.
Proof.
  unfold Qlt_bool. rewrite negb_true_iff. apply Qle_bool_false.
Qed.

Lemma slope_nonneg (a d : Q) : 0 <= a -> 0 < d -> 0 <= a / d.
Proof.
  intros Ha Hd. apply Qle_shift_div_l; [exact Hd|]. lra.
Qed.

Lemma segment_lower (a d x : Q) : 0 <= a -> 0 < d -> 0 <= x -> 0 <= (a / d) * x.
Proof.
  intros Ha Hd Hx. apply Qmult_le_0_compat; [apply slope_nonneg|]; assumption.
Qed.

Lemma segment_mono (a d x y : Q) :
  0 <= a -> 0 < d -> x <= y -> (a / d) * x <= (a / d) * y.
Proof.
  intros Ha Hd Hxy.
  rewrite (Qmult_comm (a / d) x), (Qmult_comm (a / d) y).
  apply Qmult_le_compat_r; [exact Hxy | apply slope_nonneg; assumption].
Qed.

Lemma segment_upper (a d x : Q) : 0 <= a -> 0 < d -> x <= d -> (a / d) * x <= a.
Proof.
  intros Ha Hd Hx.
  apply Qle_trans with ((a / d) * d).
  - apply segment_mono; assumption.
  - assert (E : (a / d) * d == a) by (field; lra). rewrite E. apply Qle_refl.
Qed.

(** ** Breakpoint tables *)

Lemma converter_tables_well_formed (table : list breakpoint) :
  In table converter_tables -> well_formed table.
Proof.
  intros [E | [E | [E | []]]]; subst table; simpl;
    repeat split; try reflexivity; try (unfold Qlt, Qle; simpl; lia).
Qed.

(** Unfolding of one step of the loop on a finite concentration *)
Lemma calculateSubIndex_cons (c : Q) (bp : breakpoint) (rest : list breakpoint) :
  calculateSubIndex (Num c) (bp :: rest) =
  if Qle_bool (cLow bp) c && Qle_bool c (cHigh bp)
  then ((iHigh bp - iLow bp) / (cHigh bp - cLow bp)) * (c - cLow bp) + iLow bp
  else calculateSubIndex (Num c) rest.
Proof. reflexivity. Qed.

Lemma calculateSubIndex_upper (table : list breakpoint) :
  well_formed table -> forall c : Q, calculateSubIndex (Num c) table <= 500.
Proof.
  induction table as [|bp rest IH]; intros Hwf c.
  - simpl. apply Qle_refl.
  - destruct Hwf as (Hc & Hi & H500 & _ & Hrest).
    rewrite calculateSubIndex_cons.
    destruct (Qle_bool (cLow bp) c && Qle_bool c (cHigh bp)) eqn:E.
    + apply andb_true_iff in E. destruct E as [E1 E2].
      apply Qle_bool_iff in E1. apply Qle_bool_iff in E2.
      assert (U : (iHigh bp - iLow bp) / (cHigh bp - cLow bp) * (c - cLow bp)
                  <= iHigh bp - iLow bp)
        by (apply segment_upper; lra).
      lra.
    + apply IH. exact Hrest.
Qed.

Lemma calculateSubIndex_lower (table : list breakpoint) :
  well_formed table ->
  forall c : Q, range_low table <= c ->
  match table with
  | [] => True
  | bp :: _ => iLow bp <= calculateSubIndex (Num c) table
  end.
Proof.
  induction table as [|bp rest IH]; intros Hwf c Hlow; [exact I|].
  destruct Hwf as (Hc & Hi & H500 & Hnext & Hrest).
  simpl in Hlow. rewrite calculateSubIndex_cons.
  destruct (Qle_bool (cLow bp) c && Qle_bool c (cHigh bp)) eqn:E.
  - assert (L : 0 <= (iHigh bp - iLow bp) / (cHigh bp - cLow bp) * (c - cLow bp))
      by (apply segment_lower; lra).
    lra.
  - apply andb_false_iff in E. destruct E as [E | E].
    + apply Qle_bool_false in E. lra.
    + apply Qle_bool_false in E.
      destruct rest as [|next rest'].
      * simpl. lra.
      * destruct Hnext as [Hjoin Hidx].
        specialize (IH Hrest c). simpl in IH.
        assert (iLow next <= calculateSubIndex (Num c) (next :: rest'))
          by (apply IH; lra).
        lra.
Qed.

Lemma calculateSubIndex_mono (table : list breakpoint) :
  well_formed table ->
  forall c1 c2 : Q, range_low table <= c1 -> c1 <= c2 ->
  calculateSubIndex (Num c1) table <= calculateSubIndex (Num c2) table.
Proof.
  induction table as [|bp rest IH]; intros Hwf c1 c2 Hlow H12.
  - simpl. apply Qle_refl.
  - pose proof Hwf as (Hc & Hi & H500 & Hnext & Hrest).
    simpl in Hlow. rewrite !calculateSubIndex_cons.
    destruct (Qle_bool (cLow bp) c1 && Qle_bool c1 (cHigh bp)) eqn:E1.
    + apply andb_true_iff in E1. destruct E1 as [E1a E1b].
      apply Qle_bool_iff in E1a. apply Qle_bool_iff in E1b.
      assert (U1 : (iHigh bp - iLow bp) / (cHigh bp - cLow bp) * (c1 - cLow bp)
                   <= iHigh bp - iLow bp)
        by (apply segment_upper; lra).
      destruct (Qle_bool (cLow bp) c2 && Qle_bool c2 (cHigh bp)) eqn:E2.
      * assert (M : (iHigh bp - iLow bp) / (cHigh bp - cLow bp) * (c1 - cLow bp)
                    <= (iHigh bp - iLow bp) / (cHigh bp - cLow bp) * (c2 - cLow bp))
          by (apply segment_mono; lra).
        lra.
      * apply andb_false_iff in E2. destruct E2 as [E2 | E2];
          apply Qle_bool_false in E2; [lra|].
        destruct rest as [|next rest'].
        -- simpl. lra.
        -- destruct Hnext as [Hjoin Hidx].
           pose proof (calculateSubIndex_lower (next :: rest') Hrest c2) as L.
           simpl in L.
           assert (iLow next <= calculateSubIndex (Num c2) (next :: rest'))
             by (apply L; lra).
           lra.
    + apply andb_false_iff in E1. destruct E1 as [E1 | E1];
        apply Qle_bool_false in E1; [lra|].
      assert (E2 : Qle_bool (cLow bp) c2 && Qle_bool c2 (cHigh bp) = false).
      { apply andb_false_iff. right. apply Qle_bool_false. lra. }
      rewrite E2.
      destruct rest as [|next rest'].
      * simpl. apply Qle_refl.
      * destruct Hnext as [Hjoin Hidx].
        apply IH; [exact Hrest | simpl; lra | exact H12].
Qed.

(** The worked scenario of the specification: PM2.5 = 35 gives
    59.17 (exactly 355/6), and with PM10 = 40 the index is 59. *)
Example subIndex_pm25_35 :
  calculateSubIndex (Num 35) pm25_breakpoints == 355 # 6.
Proof. vm_compute. reflexivity. Qed.

Example overall_pm25_35_pm10_40 :
  convertToIndianAQI (Num 35) (Num 40) Undefined Undefined Undefined Undefined = 59%Z
  /\ getAQICategory 59 = "Satisfactory".
Proof. split; vm_compute; reflexivity. Qed.

(** C7.  For each of the breakpoint tables the converter uses and for
    concentrations [c1 <= c2] inside the range the table covers (from
    the first segment's lower bound to the last segment's upper bound),
    the sub-index of [c1] is at most the sub-index of [c2]. *)
Theorem calculateSubIndex_monotone (table : list breakpoint) (c1 c2 : Q) :
  In table converter_tables ->
  covered table c1 -> covered table c2 -> c1 <= c2 ->
  calculateSubIndex (Num c1) table <= calculateSubIndex (Num c2) table.
Proof.
  intros Hin [Hlow1 _] _ H12.
  apply calculateSubIndex_mono;
    [apply converter_tables_well_formed; exact Hin | exact Hlow1 | exact H12].
Qed.

Lemma calculateSubIndex_monotone_witness :
  In pm25_breakpoints converter_tables
  /\ covered pm25_breakpoints 30 /\ covered pm25_breakpoints (301 # 10)
  /\ calculateSubIndex (Num 30) pm25_breakpoints
     <= calculateSubIndex (Num (301 # 10)) pm25_breakpoints.
Proof.
  assert (Hin : In pm25_breakpoints converter_tables) by (left; reflexivity).
  assert (H1 : covered pm25_breakpoints 30)
    by (split; unfold Qle; simpl; lia).
  assert (H2 : covered pm25_breakpoints (301 # 10))
    by (split; unfold Qle; simpl; lia).
  refine (conj Hin (conj H1 (conj H2 _))).
  apply (calculateSubIndex_monotone pm25_breakpoints 30 (301 # 10) Hin H1 H2).
  unfold Qle; simpl; lia.
Defined.

(** C8.  A concentration above the upper bound of every segment of a
    table matches no segment, and [calculateSubIndex] returns exactly
    500. *)
Theorem calculateSubIndex_above_every_segment (c : Q) (table : list breakpoint) :
  (forall bp, In bp table -> cHigh bp < c) ->
  calculateSubIndex (Num c) table = 500.
Proof.
  induction table as [|bp rest IH]; intro Habove; [reflexivity|].
  rewrite calculateSubIndex_cons.
  assert (E : Qle_bool c (cHigh bp) = false).
  { apply Qle_bool_false. apply Habove. left. reflexivity. }
  rewrite E, andb_false_r.
  apply IH. intros bp' Hin. apply Habove. right. exact Hin.
Qed.

Lemma calculateSubIndex_above_every_segment_witness :
  calculateSubIndex (Num 750) no2_breakpoints = 500.
Proof.
  apply (calculateSubIndex_above_every_segment 750 no2_breakpoints).
  intros bp Hin. simpl in Hin.
  repeat (destruct Hin as [Hin | Hin]; [subst bp; unfold Qlt; simpl; lia|]).
  destruct Hin.
Defined.

(** ** [Math.max] and [Math.round] *)

Lemma Math_max_ge_last (xs : list Q) (last : Q) : last <= Math_max xs last.
Proof.
  induction xs as [|x rest IH]; simpl.
  - apply Qle_refl.
  - eapply Qle_trans; [exact IH | apply Q.le_max_r].
Qed.

Lemma Math_max_ge_elem (xs : list Q) (last x : Q) : In x xs -> x <= Math_max xs last.
Proof.
  induction xs as [|y rest IH]; simpl; intro Hin; [contradiction|].
  destruct Hin as [E | Hin].
  - subst y. apply Q.le_max_l.
  - eapply Qle_trans; [apply IH; exact Hin | apply Q.le_max_r].
Qed.

Lemma Math_max_le (xs : list Q) (last bound : Q) :
  (forall x, In x xs -> x <= bound) -> last <= bound -> Math_max xs last <= bound.
Proof.
  induction xs as [|x rest IH]; simpl; intros Hall Hlast; [exact Hlast|].
  apply Q.max_lub.
  - apply Hall. left. reflexivity.
  - apply IH; [intros y Hy; apply Hall; right; exact Hy | exact Hlast].
Qed.

(** [Math.max] returns one of its arguments. *)
Lemma Math_max_attained (xs : list Q) (last : Q) :
  Math_max xs last == last \/ exists x, In x xs /\ Math_max xs last == x.
Proof.
  induction xs as [|x rest IH]; simpl.
  - left. reflexivity.
  - destruct (Q.max_dec x (Math_max rest last)) as [E | E].
    + right. exists x. split; [left; reflexivity | exact E].
    + destruct IH as [IH | (y & Hy & IH)].
      * left. rewrite E. exact IH.
      * right. exists y. split; [right; exact Hy | rewrite E; exact IH].
Qed.

Lemma Math_max_last_compat (xs : list Q) (l1 l2 : Q) :
  l1 == l2 -> Math_max xs l1 == Math_max xs l2.
Proof.
  intro E. induction xs as [|x rest IH]; simpl; [exact E|].
  rewrite IH. reflexivity.
Qed.

Lemma Math_max_app (xs ys : list Q) (last : Q) :
  Math_max (xs ++ ys) last == Math_max xs (Math_max ys last).
Proof.
  induction xs as [|x rest IH]; simpl; [reflexivity|].
  rewrite IH. reflexivity.
Qed.

(** An argument that does not exceed the last one changes nothing. *)
Lemma Math_max_drop (xs ys : list Q) (z last : Q) :
  z <= last -> Math_max (xs ++ z :: ys) last == Math_max (xs ++ ys) last.
Proof.
  intro Hz. rewrite !Math_max_app. apply Math_max_last_compat. simpl.
  apply Q.max_r. eapply Qle_trans; [exact Hz | apply Math_max_ge_last].
Qed.

Lemma Math_round_mono (x y : Q) : x <= y -> (Math_round x <= Math_round y)%Z.
Proof.
  intro Hxy. unfold Math_round. apply Qfloor_resp_le. lra.
Qed.

Lemma Math_round_compat (x y : Q) : x == y -> Math_round x = Math_round y.
Proof.
  intro E. unfold Math_round. apply Qfloor_comp. rewrite E. reflexivity.
Qed.

Lemma Math_round_integer (z : Z) : Math_round (inject_Z z) = z.
Proof.
  unfold Math_round.
  assert (L : (z <= Qfloor (inject_Z z + (1 # 2)))%Z).
  { rewrite <- (Qfloor_Z z) at 1. apply Qfloor_resp_le. lra. }
  assert (U : (Qfloor (inject_Z z + (1 # 2)) < z + 1)%Z).
  { rewrite Zlt_Qlt.
    eapply Qle_lt_trans; [apply Qfloor_le|].
    rewrite inject_Z_plus. change (inject_Z 1) with 1. lra. }
  lia.
Qed.

(** ** The sub-indices [convertToIndianAQI] collects *)

Lemma calculateSubIndex_ToNumber (v1 v2 : jsval) (table : list breakpoint) :
  ToNumber v1 = ToNumber v2 -> calculateSubIndex v1 table = calculateSubIndex v2 table.
Proof.
  intro E. induction table as [|bp rest IH]; simpl; [reflexivity|].
  rewrite E, IH. reflexivity.
Qed.

Lemma calculateSubIndex_NaN (v : jsval) (table : list breakpoint) :
  ToNumber v = None -> calculateSubIndex v table = 500.
Proof.
  intro E. induction table as [|bp rest IH]; simpl; [reflexivity|].
  rewrite E. exact IH.
Qed.

Lemma calculateSubIndex_le_500 (v : jsval) (table : list breakpoint) :
  well_formed table -> calculateSubIndex v table <= 500.
Proof.
  intro Hwf. destruct (ToNumber v) as [c|] eqn:E.
  - rewrite (calculateSubIndex_ToNumber v (Num c)) by exact E.
    apply calculateSubIndex_upper. exact Hwf.
  - rewrite calculateSubIndex_NaN by exact E. apply Qle_refl.
Qed.

(** [null] is read as the concentration 0, whose sub-index is 0. *)
Lemma calculateSubIndex_Null (table : list breakpoint) :
  In table converter_tables -> calculateSubIndex Null table == 0.
Proof.
  intros [E | [E | [E | []]]]; subst table; vm_compute; reflexivity.
Qed.

Lemma aqiValues_parts (pm25 pm10 no2 so2 co o3 : jsval) :
  aqiValues pm25 pm10 no2 so2 co o3 =
  sub_index_of pm25 pm25_breakpoints
  ++ sub_index_of pm10 pm10_breakpoints
  ++ sub_index_of no2 no2_breakpoints.
Proof.
  unfold aqiValues, sub_index_of.
  destruct (is_defined pm25), (is_defined pm10), (is_defined no2); reflexivity.
Qed.

Lemma sub_index_of_le_500 (v : jsval) (table : list breakpoint) (x : Q) :
  In table converter_tables -> In x (sub_index_of v table) -> x <= 500.
Proof.
  intros Htable. unfold sub_index_of.
  destruct (is_defined v); intros Hin; [|destruct Hin].
  destruct Hin as [E | []]. subst x.
  apply calculateSubIndex_le_500, converter_tables_well_formed, Htable.
Qed.

Lemma aqiValues_le_500 (pm25 pm10 no2 so2 co o3 : jsval) (x : Q) :
  In x (aqiValues pm25 pm10 no2 so2 co o3) -> x <= 500.
Proof.
  rewrite aqiValues_parts. intro Hin.
  apply in_app_or in Hin. destruct Hin as [Hin | Hin].
  - eapply sub_index_of_le_500; [|exact Hin]. cbn. auto.
  - apply in_app_or in Hin. destruct Hin as [Hin | Hin].
    + eapply sub_index_of_le_500; [|exact Hin]. cbn. auto.
    + eapply sub_index_of_le_500; [|exact Hin]. cbn. auto.
Qed.

(** The result is the rounded greatest sub-index, at least 1, and lies
    between 1 and 500 for every input. *)
Lemma convertToIndianAQI_range (pm25 pm10 no2 so2 co o3 : jsval) :
  (1 <= convertToIndianAQI pm25 pm10 no2 so2 co o3 <= 500)%Z.
Proof.
  unfold convertToIndianAQI.
  set (vs := aqiValues pm25 pm10 no2 so2 co o3).
  split.
  - rewrite <- (Math_round_integer 1) at 1. apply Math_round_mono.
    apply (Math_max_ge_last vs 1).
  - rewrite <- (Math_round_integer 500). apply Math_round_mono.
    apply Math_max_le.
    + intros x Hx. apply (aqiValues_le_500 pm25 pm10 no2 so2 co o3). exact Hx.
    + unfold Qle; simpl; lia.
Qed.

Lemma greatest_exists (xs : list Q) :
  xs <> [] -> exists m, In m xs /\ forall x, In x xs -> x <= m.
Proof.
  induction xs as [|y rest IH]; intro Hne; [congruence|].
  destruct rest as [|z rest'].
  - exists y. split; [left; reflexivity|].
    intros x [E | []]. subst x. apply Qle_refl.
  - destruct IH as (m & Hm & Hmax); [discriminate|].
    destruct (Qlt_le_dec m y) as [Hlt | Hle].
    + exists y. split; [left; reflexivity|].
      intros x [E | Hin]; [subst x; apply Qle_refl|].
      apply Qle_trans with m; [apply Hmax; exact Hin | apply Qlt_le_weak; exact Hlt].
    + exists m. split; [right; exact Hm|].
      intros x [E | Hin]; [subst x; exact Hle | apply Hmax; exact Hin].
Qed.

(** When PM2.5 is given, the result is the greatest collected sub-index,
    rounded to the nearest integer and raised to 1 when below. *)
Lemma convertToIndianAQI_rounded_max (pm25 pm10 no2 so2 co o3 : jsval) :
  is_defined pm25 = true ->
  exists m : Q,
    In m (aqiValues pm25 pm10 no2 so2 co o3)
    /\ (forall x, In x (aqiValues pm25 pm10 no2 so2 co o3) -> x <= m)
    /\ convertToIndianAQI pm25 pm10 no2 so2 co o3 = Z.max 1 (Math_round m).
Proof.
  intro Hdef. unfold convertToIndianAQI.
  set (vs := aqiValues pm25 pm10 no2 so2 co o3).
  assert (Hne : vs <> []).
  { unfold vs. rewrite aqiValues_parts. unfold sub_index_of at 1.
    rewrite Hdef. discriminate. }
  destruct (greatest_exists vs Hne) as (m & Hm & Hmax).
  exists m. split; [exact Hm|]. split; [exact Hmax|].
  assert (Hge : m <= Math_max vs 1) by (apply Math_max_ge_elem; exact Hm).
  assert (Hone : 1 <= Math_max vs 1) by apply Math_max_ge_last.
  destruct (Math_max_attained vs 1) as [E | (x & Hx & E)].
  - assert (Em : (Math_round m <= 1)%Z).
    { rewrite <- (Math_round_integer 1). apply Math_round_mono.
      rewrite <- E. exact Hge. }
    rewrite (Math_round_compat _ 1) by exact E.
    change 1 with (inject_Z 1). rewrite Math_round_integer. lia.
  - assert (Exm : Math_max vs 1 == m).
    { apply Qle_antisym; [rewrite E; apply Hmax; exact Hx | exact Hge]. }
    rewrite (Math_round_compat _ m) by exact Exm.
    assert (1 <= Math_round m)%Z.
    { rewrite <- (Math_round_integer 1) at 1. apply Math_round_mono.
      rewrite <- Exm. exact Hone. }
    lia.
Qed.

(** C1.  [convertToIndianAQI] receives six concentrations but collects a
    sub-index for PM2.5, PM10 and NO2 only.  With PM2.5 = 10 and
    SO2 = 2000 it collects the single sub-index of PM2.5 and returns 17;
    in general the result does not depend on the SO2, CO and O3
    arguments, so a sub-index is not computed for every pollutant
    present. *)
Theorem convertToIndianAQI_skips_so2_co_o3 :
  convertToIndianAQI (Num 10) Undefined Undefined (Num 2000) Undefined Undefined = 17%Z
  /\ aqiValues (Num 10) Undefined Undefined (Num 2000) Undefined Undefined
     = [calculateSubIndex (Num 10) pm25_breakpoints]
  /\ forall pm25 pm10 no2 so2 co o3 : jsval,
       convertToIndianAQI pm25 pm10 no2 so2 co o3
       = convertToIndianAQI pm25 pm10 no2 Undefined Undefined Undefined.
Proof.
  split; [vm_compute; reflexivity|].
  split; [reflexivity|].
  intros. reflexivity.
Qed.

(** ** Unreported pollutants *)

Lemma sub_index_of_unreported (v : jsval) (table : list breakpoint) :
  In table converter_tables -> unreported v ->
  sub_index_of v table = [] \/ exists z, sub_index_of v table = [z] /\ z <= 1.
Proof.
  intros Htable [E | E]; subst v.
  - left. reflexivity.
  - right. exists (calculateSubIndex Null table). split; [reflexivity|].
    rewrite (calculateSubIndex_Null table Htable). unfold Qle; simpl; lia.
Qed.

Lemma Math_max_unreported (xs ys : list Q) (v : jsval) (table : list breakpoint) :
  In table converter_tables -> unreported v ->
  Math_max (xs ++ sub_index_of v table ++ ys) 1 == Math_max (xs ++ ys) 1.
Proof.
  intros Htable Hv.
  destruct (sub_index_of_unreported v table Htable Hv) as [E | (z & E & Hz)];
    rewrite E; simpl.
  - reflexivity.
  - apply Math_max_drop. exact Hz.
Qed.

(** C2.  A pollutant that is absent ([undefined]) or [null] does not
    change the result of [convertToIndianAQI]: whichever of the six
    arguments it is, the result equals the one computed with that
    argument left out, that is from the remaining pollutants alone. *)
Theorem unreported_pollutant_excluded (v pm25 pm10 no2 so2 co o3 : jsval) :
  unreported v ->
  convertToIndianAQI v pm10 no2 so2 co o3
  = convertToIndianAQI Undefined pm10 no2 so2 co o3
  /\ convertToIndianAQI pm25 v no2 so2 co o3
     = convertToIndianAQI pm25 Undefined no2 so2 co o3
  /\ convertToIndianAQI pm25 pm10 v so2 co o3
     = convertToIndianAQI pm25 pm10 Undefined so2 co o3
  /\ convertToIndianAQI pm25 pm10 no2 v co o3
     = convertToIndianAQI pm25 pm10 no2 Undefined co o3
  /\ convertToIndianAQI pm25 pm10 no2 so2 v o3
     = convertToIndianAQI pm25 pm10 no2 so2 Undefined o3
  /\ convertToIndianAQI pm25 pm10 no2 so2 co v
     = convertToIndianAQI pm25 pm10 no2 so2 co Undefined.
Proof.
  intro Hv. unfold convertToIndianAQI. rewrite !aqiValues_parts.
  change (sub_index_of Undefined pm25_breakpoints) with (@nil Q).
  change (sub_index_of Undefined pm10_breakpoints) with (@nil Q).
  change (sub_index_of Undefined no2_breakpoints) with (@nil Q).
  repeat split; apply Math_round_compat.
  - apply (Math_max_unreported [] _ v pm25_breakpoints); [cbn; auto | exact Hv].
  - apply (Math_max_unreported _ _ v pm10_breakpoints); [cbn; auto | exact Hv].
  - set (A := sub_index_of pm25 pm25_breakpoints).
    set (B := sub_index_of pm10 pm10_breakpoints).
    assert (E1 : A ++ B ++ sub_index_of v no2_breakpoints
                 = (A ++ B) ++ sub_index_of v no2_breakpoints ++ [])
      by (rewrite app_nil_r, app_assoc; reflexivity).
    assert (E2 : A ++ B ++ [] = (A ++ B) ++ [])
      by (rewrite app_assoc; reflexivity).
    rewrite E1, E2.
    apply (Math_max_unreported _ [] v no2_breakpoints); [cbn; auto | exact Hv].
Qed.

Lemma unreported_pollutant_excluded_witness :
  unreported Null
  /\ convertToIndianAQI Null (Num 40) (Num 90) Undefined Undefined Undefined
     = convertToIndianAQI Undefined (Num 40) (Num 90) Undefined Undefined Undefined
  /\ convertToIndianAQI (Num 35) Null (Num 90) Undefined Undefined Undefined
     = convertToIndianAQI (Num 35) Undefined (Num 90) Undefined Undefined Undefined.
Proof.
  assert (Hv : unreported Null) by (right; reflexivity).
  split; [exact Hv|].
  pose proof (unreported_pollutant_excluded Null (Num 35) (Num 40) (Num 90)
                Undefined Undefined Undefined Hv) as (H1 & _).
  pose proof (unreported_pollutant_excluded Null (Num 35) (Num 40) (Num 90)
                Undefined Undefined Undefined Hv) as (_ & H2 & _).
  split; [exact H1 | exact H2].
Defined.

(** ** Categories *)

(** Settles every [<=?] of the goal whose outcome follows from the
    hypotheses. *)
Ltac settle_leb :=
  repeat match goal with
         | |- context [(?a <=? ?b)%Z] =>
             (rewrite (proj2 (Z.leb_le a b)) by lia)
             || (rewrite (proj2 (Z.leb_gt a b)) by lia)
         end.

(** C10.  For every AQI value (a non-negative integer), [getAQICategory]
    returns the label and [categorizeAQI] the key and the label of the
    bucket the fixed scale assigns: GOOD 0-50, SATISFACTORY 51-100,
    MODERATE 101-200, POOR 201-300, VERY_POOR 301-400, SEVERE 401-500
    and above 500; so the two implementations agree. *)
Theorem categories_follow_scale (aqi : Z) :
  (0 <= aqi)%Z ->
  getAQICategory aqi = bucket_label (scale aqi)
  /\ ci_category (categorizeAQI aqi) = bucket_key (scale aqi)
  /\ ci_label (categorizeAQI aqi) = getAQICategory aqi
  /\ ci_value (categorizeAQI aqi) = aqi
  /\ ((500 < aqi)%Z -> scale aqi = SEVERE).
Proof.
  intro Hpos.
  unfold getAQICategory, categorizeAQI, scale, AQI_CATEGORIES.
  cbn [categorizeAQI_from cat_min cat_max cat_label cat_color].
  assert (Hcase : (aqi <= 50 \/ 51 <= aqi <= 100 \/ 101 <= aqi <= 200
                   \/ 201 <= aqi <= 300 \/ 301 <= aqi <= 400 \/ 401 <= aqi <= 500
                   \/ 500 < aqi)%Z) by lia.
  destruct Hcase as [Hc | [Hc | [Hc | [Hc | [Hc | [Hc | Hc]]]]]];
    settle_leb; cbn;
    (split; [reflexivity|]); (split; [reflexivity|]); (split; [reflexivity|]);
    (split; [reflexivity|]); intro; try reflexivity; lia.
Qed.

Lemma categories_follow_scale_witness :
  getAQICategory 350 = "Very Poor"
  /\ ci_category (categorizeAQI 350) = "VERY_POOR"
  /\ ci_category (categorizeAQI 620) = "SEVERE"
  /\ getAQICategory 620 = "Severe".
Proof.
  assert (H350 : (0 <= 350)%Z) by lia.
  assert (H620 : (0 <= 620)%Z) by lia.
  pose proof (categories_follow_scale 350 H350) as (A1 & A2 & _).
  pose proof (categories_follow_scale 620 H620) as (B1 & B2 & _).
  exact (conj A1 (conj A2 (conj B2 B1))).
Defined.

(** ** The synthetic reading *)







(** ** The fallback chain *)

Lemma Some_eq_via {A B : Type} (f : A -> B) (x y : A) : Some x = Some y -> f x = f y.
Proof. intro E. injection E as E. rewrite E. reflexivity. Qed.

Lemma formatOpenWeatherMapResponse_source `{MathLib}
    (pollution : OwmEntry) (lat lng : Q) (r : Reading) :
  formatOpenWeatherMapResponse pollution lat lng = Some r ->
  source r = "OpenWeatherMap" /\ isRealData r = true.
Proof.
  unfold formatOpenWeatherMapResponse.
  destruct (components pollution); [|discriminate].
  destruct (iso_of_seconds (dt pollution)); [|discriminate].
  intro E.
  pose proof (Some_eq_via source _ _ E) as Hs.
  pose proof (Some_eq_via isRealData _ _ E) as Hr.
  cbn [source] in Hs. cbn [isRealData] in Hr.
  split; [symmetry; exact Hs | symmetry; exact Hr].
Qed.

Lemma fetchFromOpenWeatherMap_source `{MathLib}
    (cfg : Config) (w : World) (lat lng : Q) (r : Reading) :
  fst (fetchFromOpenWeatherMap cfg w lat lng) = Some r ->
  source r = "OpenWeatherMap" /\ isRealData r = true.
Proof.
  unfold fetchFromOpenWeatherMap.
  destruct (owm_air_pollution w lat lng _) as [[[|pollution rest]|]|];
    cbn [fst]; try discriminate.
  apply formatOpenWeatherMapResponse_source.
Qed.

Lemma fetchFromOpenWeatherMap_calls `{MathLib} (cfg : Config) (w : World) (lat lng : Q) :
  snd (fetchFromOpenWeatherMap cfg w lat lng)
  = [GetAirPollution lat lng (key_param (openWeatherApiKey cfg))].
Proof.
  unfold fetchFromOpenWeatherMap.
  destruct (owm_air_pollution w lat lng _) as [[[|pollution rest]|]|]; reflexivity.
Qed.

Lemma formatIQAirResponse_source (data : IqData) (lat lng : Q) (r : Reading) :
  formatIQAirResponse data lat lng = Some r ->
  source r = "IQAir" /\ isRealData r = true.
Proof.
  unfold formatIQAirResponse.
  destruct (iq_current data) as [[[pollution|] [weather|]]|]; try discriminate.
  intro E.
  pose proof (Some_eq_via source _ _ E) as Hs.
  pose proof (Some_eq_via isRealData _ _ E) as Hr.
  cbn [source] in Hs. cbn [isRealData] in Hr.
  split; [symmetry; exact Hs | symmetry; exact Hr].
Qed.

Lemma fetchFromIQAir_source (cfg : Config) (w : World) (lat lng : Q) (r : Reading) :
  fst (fetchFromIQAir cfg w lat lng) = Some r ->
  source r = "IQAir" /\ isRealData r = true.
Proof.
  unfold fetchFromIQAir.
  destruct (iqair_nearest_city w lat lng _) as [body|]; cbn [fst]; [|discriminate].
  destruct (negb (String.eqb (iq_status body) "success")); cbn [fst]; [discriminate|].
  destruct (iq_data body) as [data|]; cbn [fst]; [|discriminate].
  apply formatIQAirResponse_source.
Qed.

Lemma fetchFromIQAir_calls (cfg : Config) (w : World) (lat lng : Q) :
  snd (fetchFromIQAir cfg w lat lng)
  = [GetNearestCity lat lng (key_param (iqAirApiKey cfg))].
Proof.
  unfold fetchFromIQAir.
  destruct (iqair_nearest_city w lat lng _) as [body|]; [|reflexivity].
  destruct (negb (String.eqb (iq_status body) "success")); [reflexivity|].
  destruct (iq_data body); reflexivity.
Qed.

(** C3.  [fetchRealTimeAQI] tries the providers in a fixed order.  In
    offline mode it makes no request and returns the synthetic reading
    tagged 'Mock-Development', not real.  Otherwise OpenWeatherMap is
    asked first and its reading, if any, is returned; if it fails and
    IQAir, asked next, answers, the reading returned is IQAir's, with
    source 'IQAir'; if OpenWeatherMap fails and IQAir is not configured
    or fails too, the reading is the synthetic one tagged
    'Mock-Fallback', not real. *)
Theorem fetchRealTimeAQI_fallback_order `{MathLib}
    (cfg : Config) (w : World) (rnd : random_source) (now : timestamp)
    (lat lng radius : Q) :
  let out := fetchRealTimeAQI cfg w rnd now lat lng radius in
  let primary := fst (fetchFromOpenWeatherMap cfg w lat lng) in
  let secondary := fst (fetchFromIQAir cfg w lat lng) in
  let ask_primary := GetAirPollution lat lng (key_param (openWeatherApiKey cfg)) in
  let ask_secondary := GetNearestCity lat lng (key_param (iqAirApiKey cfg)) in
  (offline cfg = true ->
     snd out = []
     /\ fst out = getMockAQIData rnd now lat lng false
     /\ source (fst out) = "Mock-Development"
     /\ isRealData (fst out) = false)
  /\ (offline cfg = false ->
      forall r, primary = Some r ->
        fst out = r /\ source (fst out) = "OpenWeatherMap"
        /\ snd out = [ask_primary])
  /\ (offline cfg = false -> primary = None -> secondary_enabled cfg = true ->
      forall r, secondary = Some r ->
        fst out = r /\ source (fst out) = "IQAir"
        /\ snd out = [ask_primary; ask_secondary])
  /\ (offline cfg = false -> primary = None ->
      secondary_enabled cfg = false \/ secondary = None ->
        fst out = getMockAQIData rnd now lat lng true
        /\ source (fst out) = "Mock-Fallback"
        /\ loc_stationType (location (fst out)) = "Mock-Fallback"
        /\ isRealData (fst out) = false
        /\ snd out = ask_primary :: (if secondary_enabled cfg then [ask_secondary] else [])).
Proof.
  intros out primary secondary ask_primary ask_secondary.
  pose proof (fetchFromOpenWeatherMap_calls cfg w lat lng) as Hc1.
  pose proof (fetchFromIQAir_calls cfg w lat lng) as Hc2.
  pose proof (fetchFromOpenWeatherMap_source cfg w lat lng) as Hs1.
  pose proof (fetchFromIQAir_source cfg w lat lng) as Hs2.
  subst out primary secondary ask_primary ask_secondary.
  unfold fetchRealTimeAQI. fold (offline cfg). fold (secondary_enabled cfg).
  destruct (fetchFromOpenWeatherMap cfg w lat lng) as [owmData calls1].
  destruct (fetchFromIQAir cfg w lat lng) as [iqAirData calls2].
  cbn [fst snd] in *. subst calls1 calls2.
  split; [|split; [|split]].
  - intro Hoff. rewrite Hoff. cbn [fst snd]. repeat split; reflexivity.
  - intros Hoff r E. rewrite Hoff. subst owmData. cbn [fst snd].
    destruct (Hs1 r eq_refl) as [Hsrc _]. repeat split; [exact Hsrc].
  - intros Hoff E1 Hen r E2. rewrite Hoff, Hen. subst owmData iqAirData.
    cbn [fst snd]. destruct (Hs2 r eq_refl) as [Hsrc _].
    repeat split; [exact Hsrc].
  - intros Hoff E1 Hsec. rewrite Hoff. subst owmData.
    destruct (secondary_enabled cfg) eqn:Hen.
    + destruct Hsec as [Hsec | Hsec]; [discriminate|]. subst iqAirData.
      cbn [fst snd]. repeat split; reflexivity.
    + cbn [fst snd]. repeat split; reflexivity.
Qed.

Lemma fetchRealTimeAQI_fallback_order_witness :
  snd (@fetchRealTimeAQI rational_math unconfigured world_secondary_only
         half_noise 1700000000000%Z 19.0760 72.8777 10) = []
  /\ source (fst (@fetchRealTimeAQI rational_math online_config world_secondary_only
                    half_noise 1700000000000%Z 19.0760 72.8777 10)) = "IQAir"
  /\ source (fst (@fetchRealTimeAQI rational_math online_config world_down
                    half_noise 1700000000000%Z 19.0760 72.8777 10)) = "Mock-Fallback".
Proof.
  pose proof (@fetchRealTimeAQI_fallback_order rational_math unconfigured
                world_secondary_only half_noise 1700000000000%Z 19.0760 72.8777 10)
    as (A & _).
  pose proof (@fetchRealTimeAQI_fallback_order rational_math online_config
                world_secondary_only half_noise 1700000000000%Z 19.0760 72.8777 10)
    as (_ & _ & B & _).
  pose proof (@fetchRealTimeAQI_fallback_order rational_math online_config
                world_down half_noise 1700000000000%Z 19.0760 72.8777 10)
    as (_ & _ & _ & C).
  split; [exact (proj1 (A eq_refl))|].
  split.
  - destruct (fst (@fetchFromIQAir online_config world_secondary_only 19.0760 72.8777))
      as [r|] eqn:E; [|discriminate E].
    exact (proj1 (proj2 (B eq_refl eq_refl eq_refl r eq_refl))).
  - exact (proj1 (proj2 (C eq_refl eq_refl (or_intror eq_refl)))).
Defined.

(** ** The forecast series *)

Lemma loop_indices_nth (n : Z) (k : nat) (i : Z) :
  nth_error (loop_indices n) k = Some i -> i = (Z.of_nat k + 1)%Z.
Proof.
  unfold loop_indices. rewrite nth_error_map, nth_error_seq.
  destruct (k <? Z.to_nat n)%nat; simpl; intro E; inversion E. lia.
Qed.

Lemma loop_indices_length (n : Z) : List.length (loop_indices n) = Z.to_nat n.
Proof.
  unfold loop_indices. rewrite length_map, length_seq. reflexivity.
Qed.

(** The synthetic series has one point per hour of the horizon, numbered
    from 1, with confidence [0.75 - (hoursAhead / hours) * 0.2]. *)
Lemma getMockForecastData_points `{MathLib}
    (rnd : random_source) (now : timestamp) (lat lng : Q) (hours : Z) :
  let points := forecast (getMockForecastData rnd now lat lng hours) in
  List.length points = Z.to_nat hours
  /\ forall k p, nth_error points k = Some p ->
       hoursAhead p = (Z.of_nat k + 1)%Z
       /\ confidence p = 0.75 - (inject_Z (hoursAhead p) / inject_Z hours) * 0.2.
Proof.
  unfold getMockForecastData. cbn [forecast].
  match goal with
  | |- context [map ?f (loop_indices hours)] => set (mk := f)
  end.
  assert (Hmk : forall i : Z,
             hoursAhead (mk i) = i
             /\ confidence (mk i) = 0.75 - (inject_Z i / inject_Z hours) * 0.2)
    by (intro i; split; reflexivity).
  clearbody mk. split.
  - rewrite length_map. apply loop_indices_length.
  - intros k p. rewrite nth_error_map.
    destruct (nth_error (loop_indices hours) k) as [i|] eqn:E;
      cbn [option_map]; [|discriminate].
    intro Ep. injection Ep as <-.
    destruct (Hmk i) as [Hh Hc]. rewrite Hh, Hc.
    split; [apply (loop_indices_nth hours k i E) | reflexivity].
Qed.

Lemma forecast_of_item_point (item : OwmEntry) (index : nat) (p : ForecastPoint) :
  forecast_of_item item index = Some p ->
  hoursAhead p = (Z.of_nat index + 1)%Z /\ confidence p = 0.85.
Proof.
  unfold forecast_of_item. destruct (components item); [|discriminate].
  destruct (iso_of_seconds (dt item)); [|discriminate].
  intro E.
  pose proof (Some_eq_via hoursAhead _ _ E) as Hh.
  pose proof (Some_eq_via confidence _ _ E) as Hc.
  cbn [hoursAhead] in Hh. cbn [confidence] in Hc.
  split; [symmetry; exact Hh | symmetry; exact Hc].
Qed.

Lemma map_items_points (items : list OwmEntry) (index : nat) (points : list ForecastPoint) :
  map_items items index = Some points ->
  List.length points = List.length items
  /\ forall k p, nth_error points k = Some p ->
       hoursAhead p = (Z.of_nat (index + k) + 1)%Z /\ confidence p = 0.85.
Proof.
  revert index points. induction items as [|item rest IH]; intros index points;
    cbn [map_items].
  - intro E. injection E as <-. split; [reflexivity|]. intros [|k] p; discriminate.
  - destruct (forecast_of_item item index) as [p0|] eqn:E0; [|discriminate].
    destruct (map_items rest (S index)) as [ps|] eqn:E1; [|discriminate].
    intro E. injection E as <-.
    destruct (IH (S index) ps E1) as [Hlen Hnth].
    destruct (forecast_of_item_point item index p0 E0) as [Hh0 Hc0].
    split; [cbn [List.length]; congruence|].
    intros [|k] p; cbn [nth_error]; intro Ep.
    + injection Ep as <-. rewrite Hh0. split; [f_equal; f_equal; lia | exact Hc0].
    + destruct (Hnth k p Ep) as [Hh Hc]. split; [rewrite Hh; lia | exact Hc].
Qed.

Lemma slice0_length {A : Type} (l : list A) (n : Z) :
  (0 <= n <= Z.of_nat (List.length l))%Z ->
  List.length (slice0 l n) = Z.to_nat n.
Proof.
  intro Hn. unfold slice0.
  destruct (Z.ltb_spec n 0); [lia|].
  apply firstn_length_le. lia.
Qed.

Lemma confidence_decreasing (hours i j : Z) :
  (0 < hours)%Z -> (i <= j)%Z ->
  0.75 - (inject_Z j / inject_Z hours) * 0.2 <= 0.75 - (inject_Z i / inject_Z hours) * 0.2.
Proof.
  intros Hh Hij.
  assert (Hpos : 0 < inject_Z hours).
  { change 0 with (inject_Z 0). rewrite <- Zlt_Qlt. exact Hh. }
  assert (Hinv : 0 <= / inject_Z hours)
    by (apply Qinv_le_0_compat, Qlt_le_weak; exact Hpos).
  assert (Hle : inject_Z i <= inject_Z j) by (rewrite <- Zle_Qle; exact Hij).
  assert (Hdiv : inject_Z i / inject_Z hours <= inject_Z j / inject_Z hours).
  { unfold Qdiv. apply Qmult_le_compat_r; assumption. }
  lra.
Qed.

(** The two ways [fetchForecastData] ends *)
Lemma fetchForecastData_cases `{MathLib}
    (cfg : Config) (w : World) (rnd : random_source) (now : timestamp)
    (lat lng : Q) (hours : Z) :
  let out := fst (fetchForecastData cfg w rnd now lat lng hours) in
  out = getMockForecastData rnd now lat lng hours
  \/ exists entries points,
       owm_air_pollution_forecast w lat lng (key_param (openWeatherApiKey cfg))
       = Some (Some entries)
       /\ entries <> []
       /\ map_items (slice0 entries (Z.min hours (Z.of_nat (List.length entries)))) 0
          = Some points
       /\ forecast out = points
       /\ f_isRealData out = true.
Proof.
  unfold fetchForecastData.
  destruct (negb (useRealData cfg) || key_falsy (openWeatherApiKey cfg));
    [left; reflexivity|].
  destruct (owm_air_pollution_forecast w lat lng _) as [[entries|]|] eqn:Ew;
    [|left; reflexivity|left; reflexivity].
  destruct entries as [|e rest]; [left; reflexivity|].
  destruct (map_items _ 0%nat) as [points|] eqn:Em; [|left; reflexivity].
  right. exists (e :: rest), points.
  repeat split; [discriminate | exact Em].
Qed.

(** For a horizon of 48 hours, a provider that answers with a single
    entry yields a forecast of one point, not 48. *)
Lemma forecast_shorter_than_horizon :
  let out :=
    fst (@fetchForecastData rational_math online_config world_short_forecast
           half_noise 1700000000000%Z 19.0760 72.8777 48) in
  (1 <= 48 <= 96)%Z
  /\ f_isRealData out = true
  /\ List.length (forecast out) = 1%nat
  /\ List.length (forecast out) <> 48%nat.
Proof.
  cbv zeta. split; [lia|].
  split; [vm_compute; reflexivity|].
  split; [vm_compute; reflexivity|].
  vm_compute. discriminate.
Qed.

(** C4 (as the code has it).  For every horizon [h] in 1..96 the
    forecast has [n] points with [1 <= n <= h]: exactly [h] on the
    synthetic path, and [min h (number of entries the provider sent)] on
    the provider path.  The [hoursAhead] of the points are 1, 2, ..., n;
    the confidence never increases along the series: it is
    [0.75 - (hoursAhead / h) * 0.2] on the synthetic path and the
    constant 0.85 on the provider path. *)
Theorem fetchForecastData_series `{MathLib}
    (cfg : Config) (w : World) (rnd : random_source) (now : timestamp)
    (lat lng : Q) (h : Z) :
  (1 <= h <= 96)%Z ->
  let out := fst (fetchForecastData cfg w rnd now lat lng h) in
  let points := forecast out in
  let n := Z.of_nat (List.length points) in
  (1 <= n <= h)%Z
  /\ (f_isRealData out = false ->
      n = h
      /\ forall k p, nth_error points k = Some p ->
           confidence p = 0.75 - (inject_Z (hoursAhead p) / inject_Z h) * 0.2)
  /\ (f_isRealData out = true ->
      exists entries,
        owm_air_pollution_forecast w lat lng (key_param (openWeatherApiKey cfg))
        = Some (Some entries)
        /\ n = Z.min h (Z.of_nat (List.length entries))
        /\ forall k p, nth_error points k = Some p -> confidence p = 0.85)
  /\ (forall k p, nth_error points k = Some p -> hoursAhead p = (Z.of_nat k + 1)%Z)
  /\ (forall j k pj pk, (j <= k)%nat ->
        nth_error points j = Some pj -> nth_error points k = Some pk ->
        confidence pk <= confidence pj).
Proof.
  intros Hh out points n.
  destruct (fetchForecastData_cases cfg w rnd now lat lng h)
    as [Emock | (entries & ps & Ew & Hne & Em & Eps & Ereal)];
    fold out in Emock || fold out in Eps, Ereal.
  - destruct (getMockForecastData_points rnd now lat lng h) as [Hlen Hnth].
    rewrite <- Emock in Hlen, Hnth. fold points in Hlen, Hnth.
    assert (Hn : n = h) by (unfold n; rewrite Hlen; lia).
    split; [lia|].
    split; [intros _; split; [exact Hn | intros k p Ep; apply (Hnth k p Ep)]|].
    split; [intro Hreal; rewrite Emock in Hreal; discriminate Hreal|].
    split; [intros k p Ep; apply (Hnth k p Ep)|].
    intros j k pj pk Hjk Ej Ek.
    destruct (Hnth j pj Ej) as [Hj Cj]. destruct (Hnth k pk Ek) as [Hk Ck].
    rewrite Cj, Ck, Hj, Hk. apply confidence_decreasing; lia.
  - destruct (map_items_points _ 0%nat ps Em) as [Hlen Hnth].
    assert (Hentries : (1 <= Z.of_nat (List.length entries))%Z).
    { destruct entries; [congruence | simpl List.length; lia]. }
    rewrite slice0_length in Hlen by lia.
    assert (Hn : n = Z.min h (Z.of_nat (List.length entries))).
    { unfold n, points. rewrite Eps, Hlen. lia. }
    split; [lia|].
    split; [intro Hmock; rewrite Ereal in Hmock; discriminate Hmock|].
    split.
    { intros _. exists entries. split; [exact Ew|]. split; [exact Hn|].
      intros k p Ep. unfold points in Ep. rewrite Eps in Ep.
      apply (Hnth k p Ep). }
    split.
    { intros k p Ep. unfold points in Ep. rewrite Eps in Ep.
      destruct (Hnth k p Ep) as [Hk _]. rewrite Hk. f_equal. }
    intros j k pj pk _ Ej Ek. unfold points in Ej, Ek. rewrite Eps in Ej, Ek.
    destruct (Hnth j pj Ej) as [_ Cj]. destruct (Hnth k pk Ek) as [_ Ck].
    rewrite Cj, Ck. apply Qle_refl.
Qed.

Lemma fetchForecastData_series_witness :
  let points :=
    forecast (fst (@fetchForecastData rational_math unconfigured world_down
                     half_noise 1700000000000%Z 19.0760 72.8777 48)) in
  (1 <= 48 <= 96)%Z
  /\ Z.of_nat (List.length points) = 48%Z
  /\ forall k p, nth_error points k = Some p -> hoursAhead p = (Z.of_nat k + 1)%Z.
Proof.
  assert (Hh : (1 <= 48 <= 96)%Z) by lia.
  pose proof (@fetchForecastData_series rational_math unconfigured world_down
                half_noise 1700000000000%Z 19.0760 72.8777 48 Hh)
    as (_ & A & _ & B & _).
  split; [exact Hh|].
  split; [exact (proj1 (A eq_refl)) | exact B].
Defined.

(** ** Validation in [GET /api/aqi] *)

Lemma accepted_range (v : parsed) (lo hi x : Q) :
  accepted v (fun q => Qlt_bool q lo || Qlt_bool hi q) = Some x
  <-> v = PNum x /\ lo <= x /\ x <= hi.
Proof.
  unfold accepted. destruct v as [| neg | q].
  - split; [discriminate | intros [E _]; discriminate].
  - split; [discriminate | intros [E _]; discriminate].
  - destruct (Qlt_bool q lo) eqn:E1; simpl.
    + apply Qlt_bool_iff in E1. split; [discriminate|].
      intros (E & Hlo & _). inversion E. subst x. lra.
    + unfold Qlt_bool in E1. apply negb_false_iff, Qle_bool_iff in E1.
      destruct (Qlt_bool hi q) eqn:E2.
      * apply Qlt_bool_iff in E2. split; [discriminate|].
        intros (E & _ & Hhi). inversion E. subst x. lra.
      * unfold Qlt_bool in E2. apply negb_false_iff, Qle_bool_iff in E2.
        split; intro E.
        -- inversion E. subst x. auto.
        -- destruct E as (E & _). inversion E. reflexivity.
Qed.

Lemma accepted_within (text : option string) (lo hi : Q) :
  key_falsy text = false ->
  (exists x, accepted (parseFloat (key_param text))
               (fun q => Qlt_bool q lo || Qlt_bool hi q) = Some x)
  <-> within text lo hi = true.
Proof.
  destruct text as [s|]; simpl; [|discriminate].
  intro Hs. rewrite Hs. simpl. split.
  - intros (x & Hx). apply accepted_range in Hx. destruct Hx as (E & Hlo & Hhi).
    rewrite E. apply andb_true_iff. split; apply Qle_bool_iff; assumption.
  - destruct (parseFloat s) as [| neg | v] eqn:E; try discriminate.
    intro Hb. apply andb_true_iff in Hb. destruct Hb as [H1 H2].
    apply Qle_bool_iff in H1. apply Qle_bool_iff in H2.
    exists v. apply accepted_range. auto.
Qed.

Lemma within_false_of_falsy (text : option string) (lo hi : Q) :
  key_falsy text = true -> within text lo hi = false.
Proof.
  destruct text as [s|]; simpl; [|reflexivity].
  intro E. rewrite E. reflexivity.
Qed.

Lemma outside_not_within (text : option string) (lo hi : Q) :
  outside text lo hi -> within text lo hi = false.
Proof.
  intros (s & v & Et & Ep & Hv). subst text. simpl. rewrite Ep.
  apply andb_false_iff. right.
  apply andb_false_iff. destruct Hv as [Hv | Hv]; [left | right];
    apply Qle_bool_false; exact Hv.
Qed.

Lemma accepted_radius (query : Query) :
  (exists r,
     accepted match q_radius query with
              | None => PNum 10
              | Some radius => parseFloat radius
              end
              (fun v => Qle_bool v 0 || Qlt_bool 100 v) = Some r)
  <-> radius_valid query = true.
Proof.
  unfold radius_valid, accepted.
  destruct (q_radius query) as [s|].
  - destruct (parseFloat s) as [| neg | v].
    + split; [intros (r & E); discriminate | discriminate].
    + split; [intros (r & E); discriminate | discriminate].
    + unfold Qlt_bool.
      destruct (Qle_bool v 0), (Qle_bool v 100); cbn [negb orb andb]; split;
        try discriminate; try (intros (r & E); discriminate);
        try (intros _; eexists; reflexivity); try (intros _; reflexivity).
  - split; [reflexivity | intros _; exists 10; reflexivity].
Qed.

Lemma serve_aqi_ok `{MathLib} `{SqlLib} (cpcbApiKey : option string) (db : Database) (writes : WriteOutcome)
    (rnd : random_source) (now : timestamp) (latitude longitude searchRadius : Q) :
  let '(response, _, events) :=
    serve_aqi cpcbApiKey db writes rnd now latitude longitude searchRadius in
  status response = 200%Z /\ success response = true /\ data response <> None
  /\ events <> [].
Proof.
  unfold serve_aqi.
  destruct (match getLatestAQI db latitude longitude searchRadius with
            | Some c => if isDataFresh now (log_timestamp (cd_log c)) then Some c else None
            | None => None
            end) as [c|].
  - repeat split; discriminate.
  - destruct (saveAQIData writes db _) as [log db']. repeat split; discriminate.
Qed.

Lemma not_accepted_not_within (text : option string) (lo hi : Q) :
  key_falsy text = false ->
  accepted (parseFloat (key_param text)) (fun q => Qlt_bool q lo || Qlt_bool hi q) = None ->
  within text lo hi = false.
Proof.
  intros Hs Hacc. destruct (within text lo hi) eqn:E; [|reflexivity].
  apply (accepted_within text lo hi Hs) in E. destruct E as (x & Hx). congruence.
Qed.

Lemma accepted_is_within (text : option string) (lo hi x : Q) :
  key_falsy text = false ->
  accepted (parseFloat (key_param text)) (fun q => Qlt_bool q lo || Qlt_bool hi q) = Some x ->
  within text lo hi = true.
Proof.
  intros Hs Hacc. apply (accepted_within text lo hi Hs). exists x. exact Hacc.
Qed.

(** A request is answered 400, untouched tables and no call, exactly
    when a coordinate or the radius is invalid, and 200 otherwise. *)
Lemma get_aqi_status `{MathLib} `{SqlLib} (cpcbApiKey : option string) (db : Database) (writes : WriteOutcome)
    (rnd : random_source) (now : timestamp) (query : Query) :
  let '(response, db', events) := get_aqi cpcbApiKey db writes rnd now query in
  (coordinates_valid query && radius_valid query = false ->
     status response = 400%Z /\ success response = false /\ data response = None
     /\ db' = db /\ events = [])
  /\ (coordinates_valid query && radius_valid query = true ->
      status response = 200%Z /\ success response = true /\ data response <> None
      /\ events <> []).
Proof.
  unfold get_aqi, coordinates_valid.
  destruct (key_falsy (q_lat query)) eqn:Flat; simpl.
  { rewrite (within_false_of_falsy _ _ _ Flat). simpl.
    split; [intros _; repeat split | discriminate]. }
  destruct (key_falsy (q_lng query)) eqn:Flng; simpl.
  { rewrite (within_false_of_falsy _ _ _ Flng), andb_false_r. simpl.
    split; [intros _; repeat split | discriminate]. }
  destruct (accepted (parseFloat (key_param (q_lat query))) _) as [latitude|] eqn:Alat.
  2:{ rewrite (not_accepted_not_within _ _ _ Flat Alat). simpl.
      split; [intros _; repeat split | discriminate]. }
  rewrite (accepted_is_within _ _ _ _ Flat Alat).
  destruct (accepted (parseFloat (key_param (q_lng query))) _) as [longitude|] eqn:Alng.
  2:{ rewrite (not_accepted_not_within _ _ _ Flng Alng). simpl.
      split; [intros _; repeat split | discriminate]. }
  rewrite (accepted_is_within _ _ _ _ Flng Alng). simpl.
  destruct (accepted _ (fun v => Qle_bool v 0 || Qlt_bool 100 v)) as [searchRadius|] eqn:Arad.
  - assert (Hr : radius_valid query = true)
      by (apply accepted_radius; exists searchRadius; exact Arad).
    rewrite Hr.
    pose proof (serve_aqi_ok cpcbApiKey db writes rnd now latitude longitude searchRadius) as Hok.
    destruct (serve_aqi cpcbApiKey db writes rnd now latitude longitude searchRadius)
      as [[response db'] events].
    split; [discriminate | intros _; exact Hok].
  - assert (Hr : radius_valid query = false).
    { destruct (radius_valid query) eqn:E; [|reflexivity].
      apply accepted_radius in E. destruct E as (r & Er). congruence. }
    rewrite Hr. split; [intros _; repeat split | discriminate].
Qed.

(** Valid coordinates with a radius of 150 km are answered 400. *)
Lemma valid_coordinates_rejected :
  let query :=
    {| q_lat := Some "28.6139"; q_lng := Some "77.2090"; q_radius := Some "150" |} in
  let '(response, _, _) :=
    @get_aqi rational_math flat_sql None empty_database WritesSucceed half_noise 1700000000000%Z query in
  coordinates_valid query = true
  /\ status response = 400%Z
  /\ success response = false
  /\ message response = "Invalid radius. Must be between 0 and 100 km".
Proof.
  vm_compute. repeat split; reflexivity.
Qed.

(** C6 (as the code has it).  A request whose latitude reads as a number
    outside [-90, 90] or whose longitude reads as a number outside
    [-180, 180] is answered 400 before the tables are looked up or the
    service is called.  The same client error answers every request in
    which a coordinate is missing or invalid or the radius is not in
    (0, 100]; every other request is answered 200 with a reading. *)
Theorem get_aqi_rejects_invalid `{MathLib} `{SqlLib} (cpcbApiKey : option string)
    (db : Database) (writes : WriteOutcome) (rnd : random_source) (now : timestamp) (query : Query) :
  let '(response, db', events) := get_aqi cpcbApiKey db writes rnd now query in
  (outside (q_lat query) (-90) 90 \/ outside (q_lng query) (-180) 180 ->
     status response = 400%Z /\ success response = false /\ db' = db /\ events = [])
  /\ (status response = 400%Z <->
      coordinates_valid query = false \/ radius_valid query = false)
  /\ (status response = 400%Z -> data response = None /\ db' = db /\ events = [])
  /\ (status response = 200%Z <->
      coordinates_valid query = true /\ radius_valid query = true)
  /\ (status response = 200%Z -> success response = true /\ data response <> None).
Proof.
  pose proof (get_aqi_status cpcbApiKey db writes rnd now query) as Hst.
  destruct (get_aqi cpcbApiKey db writes rnd now query) as [[response db'] events].
  destruct Hst as [Hbad Hok].
  destruct (coordinates_valid query && radius_valid query) eqn:V.
  - destruct (Hok eq_refl) as (S1 & S2 & S3 & S4).
    apply andb_true_iff in V. destruct V as [V1 V2].
    split.
    { intros [Hout | Hout]; apply outside_not_within in Hout;
        unfold coordinates_valid in V1; rewrite Hout in V1;
        [|rewrite andb_false_r in V1]; discriminate. }
    split; [split; [intro E; rewrite S1 in E; discriminate
                   | intros [E | E]; congruence]|].
    split; [intro E; rewrite S1 in E; discriminate|].
    split; [split; [auto | intros _; exact S1]|].
    intros _. split; assumption.
  - destruct (Hbad eq_refl) as (S1 & S2 & S3 & S4 & S5).
    apply andb_false_iff in V.
    split; [intros _; repeat split; assumption|].
    split; [split; [intros _; exact V | intros _; exact S1]|].
    split; [intros _; repeat split; assumption|].
    split; [split; [intro E; rewrite S1 in E; discriminate
                   | intros [E1 E2]; destruct V; congruence]|].
    intro E. rewrite S1 in E. discriminate.
Qed.

Lemma get_aqi_rejects_invalid_witness :
  let query := {| q_lat := Some "95"; q_lng := Some "77.2090"; q_radius := None |} in
  let '(response, db', events) :=
    @get_aqi rational_math flat_sql None empty_database WritesSucceed half_noise
      1700000000000%Z query in
  status response = 400%Z /\ db' = empty_database /\ events = [].
Proof.
  set (query := {| q_lat := Some "95"; q_lng := Some "77.2090"; q_radius := None |}).
  assert (Hout : outside (q_lat query) (-90) 90 \/ outside (q_lng query) (-180) 180).
  { left. exists "95", 95. repeat split. right. unfold Qlt; simpl; lia. }
  pose proof (@get_aqi_rejects_invalid rational_math flat_sql None empty_database
                WritesSucceed half_noise 1700000000000%Z query) as Hthm.
  cbv zeta.
  destruct (@get_aqi rational_math flat_sql None empty_database WritesSucceed half_noise
              1700000000000%Z query) as [[response db'] events].
  destruct Hthm as (Hrej & _).
  destruct (Hrej Hout) as (S1 & _ & S3 & S4).
  exact (conj S1 (conj S3 S4)).
Defined.

(** The parameters are read as the builtin reads them, to the nearest
    double: a latitude written 90.00000000000000001 is 90 and passes, a
    radius written 100.00000000000000001 is 100 and passes, a radius
    written 1e-400 is 0 and is rejected, and 1e400 is infinite and is
    rejected. *)
Lemma get_aqi_reads_doubles :
  let status_of (lat lng : string) (radius : option string) :=
    status (fst (fst (@get_aqi rational_math flat_sql None empty_database WritesSucceed
                        half_noise 1700000000000%Z
                        {| q_lat := Some lat; q_lng := Some lng; q_radius := radius |}))) in
  parseFloat "90.00000000000000001" = PNum 90
  /\ status_of "90.00000000000000001" "77.2090" None = 200%Z
  /\ status_of "90.1" "77.2090" None = 400%Z
  /\ status_of "28.6139" "77.2090" (Some "100.00000000000000001") = 200%Z
  /\ parseFloat "1e-400" = PNum 0
  /\ status_of "28.6139" "77.2090" (Some "1e-400") = 400%Z
  /\ parseFloat "1e400" = PInfinity false
  /\ status_of "1e400" "77.2090" None = 400%Z.
Proof.
  cbv zeta. repeat (split; [vm_compute; reflexivity|]). vm_compute. reflexivity.
Qed.

(** ** The freshness window and the stored readings *)

Lemma isDataFresh_iff (now ts : timestamp) :
  isDataFresh now ts = true <-> (now - ts <= 60 * 60 * 1000)%Z.
Proof.
  unfold isDataFresh. rewrite Qle_bool_iff.
  assert (Ex : inject_Z (now - ts) / (1000 * 60) == inject_Z (now - ts) * (1 # 60000))
    by (field; discriminate).
  rewrite Ex, Zle_Qle.
  change (inject_Z (60 * 60 * 1000)) with 3600000.
  split; intro Hle; lra.
Qed.

Lemma latest_log_snoc (logs : list AQILog) (x : AQILog) :
  (forall l, In l logs -> (log_timestamp l < log_timestamp x)%Z) ->
  latest_log (logs ++ [x]) = Some x.
Proof.
  induction logs as [|a rest IH]; intro Hall; simpl; [reflexivity|].
  rewrite IH by (intros l Hl; apply Hall; right; exact Hl).
  assert (Ha : (log_timestamp a < log_timestamp x)%Z) by (apply Hall; left; reflexivity).
  destruct (Z.leb_spec (log_timestamp x) (log_timestamp a)); [lia | reflexivity].
Qed.

Lemma location_upsert_logs (db : Database) (locationData : Location) :
  aqi_logs (snd (location_upsert db locationData)) = aqi_logs db.
Proof.
  unfold location_upsert. destruct (find _ (locations db)); reflexivity.
Qed.

(** The row [location_upsert] returns carries the name, state and station
    type of the reading and lies at its coordinates. *)
Lemma location_upsert_row (db : Database) (locationData : Location) :
  let row := fst (location_upsert db locationData) in
  row_name row = loc_name locationData
  /\ row_state row = loc_state locationData
  /\ row_stationType row = loc_stationType locationData
  /\ row_latitude row == loc_latitude locationData
  /\ row_longitude row == loc_longitude locationData.
Proof.
  unfold location_upsert.
  destruct (find _ (locations db)) as [row|] eqn:E; cbn [fst].
  - apply find_some in E. destruct E as [_ E]. unfold same_coordinates in E.
    apply andb_true_iff in E. destruct E as [E1 E2].
    apply Qeq_bool_iff in E1. apply Qeq_bool_iff in E2.
    cbn. repeat split; assumption.
  - cbn. repeat split; reflexivity.
Qed.

Lemma saved_log (db : Database) (r : Reading) :
  let log := fst (saved db r) in
  let db1 := snd (saved db r) in
  aqi_logs db1 = aqi_logs db ++ [log]
  /\ locations db1 = locations (snd (location_upsert db (location r)))
  /\ log_locationId log = row_id (fst (location_upsert db (location r)))
  /\ log_aqi log = aqi_value (aqi r)
  /\ log_timestamp log = aqi_lastUpdated (aqi r)
  /\ log_source log = source r
  /\ log_pm25 log = to_column (pm25 (pollutants r))
  /\ log_pm10 log = to_column (pm10 (pollutants r))
  /\ log_no2 log = to_column (no2 (pollutants r))
  /\ log_so2 log = to_column (so2 (pollutants r))
  /\ log_co log = to_column (co (pollutants r))
  /\ log_o3 log = to_column (o3 (pollutants r)).
Proof.
  unfold saved, aQILog_create.
  pose proof (location_upsert_logs db (location r)) as Hlogs.
  destruct (location_upsert db (location r)) as [row db0]. cbn [fst snd] in *.
  rewrite Hlogs. repeat split; reflexivity.
Qed.

(** Saving only appends: every stored log is still there afterwards. *)
Lemma saved_keeps (db : Database) (r : Reading) (l : AQILog) :
  In l (aqi_logs db) -> In l (aqi_logs (snd (saved db r))).
Proof.
  intro Hin. destruct (saved_log db r) as (E & _).
  rewrite E. apply in_or_app. left. exact Hin.
Qed.

(** What [saveAQIData] returns for each outcome of its two statements *)
Lemma saveAQIData_outcomes (writes : WriteOutcome) (db : Database) (r : Reading) :
  saveAQIData writes db r
  = match writes with
    | WritesSucceed => (Some (fst (saved db r)), snd (saved db r))
    | UpsertFails => (None, db)
    | CreateFails => (None, snd (location_upsert db (location r)))
    end.
Proof.
  unfold saveAQIData, upsertLocation, saved.
  destruct writes; [|reflexivity|];
    destruct (location_upsert db (location r)) as [row db1]; [|reflexivity].
  destruct (aQILog_create db1 row r) as [log db2]. reflexivity.
Qed.

(** The row an upsert returns is stored. *)
Lemma location_upsert_stored (db : Database) (locationData : Location) :
  In (fst (location_upsert db locationData))
     (locations (snd (location_upsert db locationData))).
Proof.
  unfold location_upsert.
  destruct (find _ (locations db)) as [row0|] eqn:Efind; cbn [fst snd locations].
  - apply find_some in Efind. destruct Efind as [Hin0 _].
    apply in_map_iff. exists row0. split; [|exact Hin0].
    rewrite Nat.eqb_refl. reflexivity.
  - apply in_or_app. right. left. reflexivity.
Qed.

(** Looking up a location whose newest log is [log] *)
Lemma getLatestAQI_after_save `{SqlLib} (db : Database) (r : Reading) (radius : Q) :
  let lat := loc_latitude (location r) in
  let lng := loc_longitude (location r) in
  let log := fst (saved db r) in
  let db1 := snd (saved db r) in
  let row := fst (location_upsert db (location r)) in
  query_nearest_location db1 lat lng radius = Some (Some row) ->
  (forall l, In l (aqi_logs db) -> log_locationId l = row_id row ->
             (log_timestamp l < aqi_lastUpdated (aqi r))%Z) ->
  getLatestAQI db1 lat lng radius = Some {| cd_log := log; cd_location := row |}.
Proof.
  intros lat lng log db1 row Hq Hnew.
  destruct (saved_log db r) as (Elogs & _ & Eid & _ & Ets & _).
  fold log db1 row in Elogs, Eid, Ets.
  unfold getLatestAQI. rewrite Hq, Elogs, filter_app. cbn [filter].
  rewrite Eid, Nat.eqb_refl.
  rewrite latest_log_snoc; [reflexivity|].
  intros l Hl. apply filter_In in Hl. destruct Hl as [Hl Hid].
  apply Nat.eqb_eq in Hid. rewrite Ets. apply Hnew; assumption.
Qed.


(** * Further properties of the code *)

(** ** The converter *)

Lemma Math_max_mono_at (xs ys : list Q) (x y last : Q) :
  x <= y -> Math_max (xs ++ x :: ys) last <= Math_max (xs ++ y :: ys) last.
Proof.
  intro Hxy. induction xs as [|z rest IH]; cbn [app Math_max].
  - apply Q.max_le_compat_r. exact Hxy.
  - apply Q.max_le_compat_l. exact IH.
Qed.

Lemma Math_max_insert_ge (xs ys : list Q) (z last : Q) :
  Math_max (xs ++ ys) last <= Math_max (xs ++ z :: ys) last.
Proof.
  induction xs as [|x rest IH]; cbn [app Math_max].
  - apply Q.le_max_r.
  - apply Q.max_le_compat_l. exact IH.
Qed.

Lemma Math_max_insert_le (xs ys : list Q) (z last : Q) :
  z <= Math_max (xs ++ ys) last ->
  Math_max (xs ++ z :: ys) last == Math_max (xs ++ ys) last.
Proof.
  intro Hz. apply Qle_antisym; [|apply Math_max_insert_ge].
  apply Math_max_le.
  - intros x Hx. apply in_app_or in Hx. destruct Hx as [Hx | [Hx | Hx]].
    + apply Math_max_ge_elem, in_or_app. left. exact Hx.
    + subst x. exact Hz.
    + apply Math_max_ge_elem, in_or_app. right. exact Hx.
  - apply Math_max_ge_last.
Qed.

Lemma sub_index_of_defined (v : jsval) (table : list breakpoint) :
  is_defined v = true -> sub_index_of v table = [calculateSubIndex v table].
Proof. intro E. unfold sub_index_of. rewrite E. reflexivity. Qed.

Lemma convertToIndianAQI_greatest (pm25 pm10 no2 so2 co o3 : jsval) :
  aqiValues pm25 pm10 no2 so2 co o3 <> [] ->
  exists m : Q,
    In m (aqiValues pm25 pm10 no2 so2 co o3)
    /\ (forall x, In x (aqiValues pm25 pm10 no2 so2 co o3) -> x <= m)
    /\ convertToIndianAQI pm25 pm10 no2 so2 co o3 = Z.max 1 (Math_round m).
Proof.
  intro Hne. unfold convertToIndianAQI.
  set (vs := aqiValues pm25 pm10 no2 so2 co o3) in *.
  destruct (greatest_exists vs Hne) as (m & Hm & Hmax).
  exists m. split; [exact Hm|]. split; [exact Hmax|].
  assert (Hge : m <= Math_max vs 1) by (apply Math_max_ge_elem; exact Hm).
  assert (Hone : 1 <= Math_max vs 1) by apply Math_max_ge_last.
  destruct (Math_max_attained vs 1) as [E | (x & Hx & E)].
  - assert (Em : (Math_round m <= 1)%Z).
    { rewrite <- (Math_round_integer 1). apply Math_round_mono.
      rewrite <- E. exact Hge. }
    rewrite (Math_round_compat _ 1) by exact E.
    change 1 with (inject_Z 1). rewrite Math_round_integer. lia.
  - assert (Exm : Math_max vs 1 == m).
    { apply Qle_antisym; [rewrite E; apply Hmax; exact Hx | exact Hge]. }
    rewrite (Math_round_compat _ m) by exact Exm.
    assert (1 <= Math_round m)%Z.
    { rewrite <- (Math_round_integer 1) at 1. apply Math_round_mono.
      rewrite <- Exm. exact Hone. }
    lia.
Qed.

(** X1.  Whatever the six arguments are, [convertToIndianAQI] returns an
    integer between 1 and 500.  When no sub-index is collected (PM2.5,
    PM10 and NO2 all [undefined]) it returns 1; otherwise it returns the
    greatest collected sub-index rounded to the nearest integer, or 1 if
    that is smaller. *)
Theorem convertToIndianAQI_result (pm25 pm10 no2 so2 co o3 : jsval) :
  (1 <= convertToIndianAQI pm25 pm10 no2 so2 co o3 <= 500)%Z
  /\ (aqiValues pm25 pm10 no2 so2 co o3 = [] ->
      convertToIndianAQI pm25 pm10 no2 so2 co o3 = 1%Z)
  /\ (aqiValues pm25 pm10 no2 so2 co o3 <> [] ->
      exists m : Q,
        In m (aqiValues pm25 pm10 no2 so2 co o3)
        /\ (forall x, In x (aqiValues pm25 pm10 no2 so2 co o3) -> x <= m)
        /\ convertToIndianAQI pm25 pm10 no2 so2 co o3 = Z.max 1 (Math_round m)).
Proof.
  split; [apply convertToIndianAQI_range|].
  split; [|apply convertToIndianAQI_greatest].
  intro E. unfold convertToIndianAQI. rewrite E. reflexivity.
Qed.

(** X2.  A higher concentration never gives a lower index: for
    concentrations [0 <= c1 <= c2] of PM2.5, of PM10 or of NO2, the
    other arguments being the same, the result for [c1] is at most the
    result for [c2]. *)
Theorem convertToIndianAQI_monotone (c1 c2 : Q) (pm25 pm10 no2 so2 co o3 : jsval) :
  0 <= c1 -> c1 <= c2 ->
  (convertToIndianAQI (Num c1) pm10 no2 so2 co o3
   <= convertToIndianAQI (Num c2) pm10 no2 so2 co o3)%Z
  /\ (convertToIndianAQI pm25 (Num c1) no2 so2 co o3
      <= convertToIndianAQI pm25 (Num c2) no2 so2 co o3)%Z
  /\ (convertToIndianAQI pm25 pm10 (Num c1) so2 co o3
      <= convertToIndianAQI pm25 pm10 (Num c2) so2 co o3)%Z.
Proof.
  intros H0 H12. unfold convertToIndianAQI. rewrite !aqiValues_parts.
  rewrite !(sub_index_of_defined (Num c1)), !(sub_index_of_defined (Num c2))
    by reflexivity.
  assert (M25 : calculateSubIndex (Num c1) pm25_breakpoints
                <= calculateSubIndex (Num c2) pm25_breakpoints).
  { apply calculateSubIndex_mono;
      [apply converter_tables_well_formed; cbn; auto | exact H0 | exact H12]. }
  assert (M10 : calculateSubIndex (Num c1) pm10_breakpoints
                <= calculateSubIndex (Num c2) pm10_breakpoints).
  { apply calculateSubIndex_mono;
      [apply converter_tables_well_formed; cbn; auto | exact H0 | exact H12]. }
  assert (Mno2 : calculateSubIndex (Num c1) no2_breakpoints
                 <= calculateSubIndex (Num c2) no2_breakpoints).
  { apply calculateSubIndex_mono;
      [apply converter_tables_well_formed; cbn; auto | exact H0 | exact H12]. }
  split; [|split]; apply Math_round_mono.
  - apply (Math_max_mono_at [] _ _ _ 1 M25).
  - apply (Math_max_mono_at _ _ _ _ 1 M10).
  - rewrite !app_assoc. apply (Math_max_mono_at _ [] _ _ 1 Mno2).
Qed.

Lemma convertToIndianAQI_monotone_witness :
  (convertToIndianAQI (Num 35) (Num 40) Undefined Undefined Undefined Undefined
   <= convertToIndianAQI (Num 95) (Num 40) Undefined Undefined Undefined Undefined)%Z.
Proof.
  assert (H0 : 0 <= 35) by (unfold Qle; simpl; lia).
  assert (H12 : 35 <= 95) by (unfold Qle; simpl; lia).
  exact (proj1 (convertToIndianAQI_monotone 35 95 Undefined (Num 40) Undefined
                  Undefined Undefined Undefined H0 H12)).
Defined.

(** X3.  Reporting one more pollutant never lowers the index, and leaves
    it unchanged when the sub-index of that pollutant does not exceed
    the greatest of the others (or 1): this holds for PM2.5, PM10 and
    NO2 alike. *)
Theorem convertToIndianAQI_added_pollutant (v pm25 pm10 no2 so2 co o3 : jsval) :
  is_defined v = true ->
  ((convertToIndianAQI Undefined pm10 no2 so2 co o3
    <= convertToIndianAQI v pm10 no2 so2 co o3)%Z
   /\ (calculateSubIndex v pm25_breakpoints
       <= Math_max (aqiValues Undefined pm10 no2 so2 co o3) 1 ->
       convertToIndianAQI v pm10 no2 so2 co o3
       = convertToIndianAQI Undefined pm10 no2 so2 co o3))
  /\ ((convertToIndianAQI pm25 Undefined no2 so2 co o3
       <= convertToIndianAQI pm25 v no2 so2 co o3)%Z
      /\ (calculateSubIndex v pm10_breakpoints
          <= Math_max (aqiValues pm25 Undefined no2 so2 co o3) 1 ->
          convertToIndianAQI pm25 v no2 so2 co o3
          = convertToIndianAQI pm25 Undefined no2 so2 co o3))
  /\ ((convertToIndianAQI pm25 pm10 Undefined so2 co o3
       <= convertToIndianAQI pm25 pm10 v so2 co o3)%Z
      /\ (calculateSubIndex v no2_breakpoints
          <= Math_max (aqiValues pm25 pm10 Undefined so2 co o3) 1 ->
          convertToIndianAQI pm25 pm10 v so2 co o3
          = convertToIndianAQI pm25 pm10 Undefined so2 co o3)).
Proof.
  intro Hv. unfold convertToIndianAQI. rewrite !aqiValues_parts.
  rewrite !(sub_index_of_defined v) by exact Hv.
  change (sub_index_of Undefined pm25_breakpoints) with (@nil Q).
  change (sub_index_of Undefined pm10_breakpoints) with (@nil Q).
  change (sub_index_of Undefined no2_breakpoints) with (@nil Q).
  set (A := sub_index_of pm25 pm25_breakpoints).
  set (B := sub_index_of pm10 pm10_breakpoints).
  set (C := sub_index_of no2 no2_breakpoints).
  split; [|split]; split.
  - apply Math_round_mono. apply (Math_max_insert_ge [] (B ++ C)).
  - intro Hle. apply Math_round_compat.
    apply (Math_max_insert_le [] (B ++ C)). exact Hle.
  - apply Math_round_mono. apply (Math_max_insert_ge A C).
  - intro Hle. apply Math_round_compat.
    apply (Math_max_insert_le A C). exact Hle.
  - apply Math_round_mono. rewrite !app_assoc. apply (Math_max_insert_ge (A ++ B) []).
  - intro Hle. apply Math_round_compat. rewrite !app_assoc.
    apply (Math_max_insert_le (A ++ B) []). rewrite <- app_assoc. exact Hle.
Qed.

Lemma convertToIndianAQI_added_pollutant_witness :
  convertToIndianAQI (Num 35) (Num 40) Undefined Undefined Undefined Undefined
  = convertToIndianAQI (Num 35) Undefined Undefined Undefined Undefined Undefined.
Proof.
  assert (Hv : is_defined (Num 40) = true) by reflexivity.
  pose proof (convertToIndianAQI_added_pollutant (Num 40) (Num 35) Undefined Undefined
                Undefined Undefined Undefined Hv) as (_ & (_ & Hsame) & _).
  apply Hsame. vm_compute. discriminate.
Defined.

Lemma calculateSubIndex_below (c : Q) (table : list breakpoint) :
  (forall bp, In bp table -> c < cLow bp) -> calculateSubIndex (Num c) table = 500.
Proof.
  induction table as [|bp rest IH]; intro Hbelow; [reflexivity|].
  rewrite calculateSubIndex_cons.
  assert (E : Qle_bool (cLow bp) c = false).
  { apply Qle_bool_false. apply Hbelow. left. reflexivity. }
  rewrite E. cbn [andb].
  apply IH. intros bp' Hin. apply Hbelow. right. exact Hin.
Qed.

Lemma converter_tables_nonnegative (table : list breakpoint) (bp : breakpoint) :
  In table converter_tables -> In bp table -> 0 <= cLow bp.
Proof.
  intros [E | [E | [E | []]]] Hin; subst table; cbn [In pm25_breakpoints
    pm10_breakpoints no2_breakpoints] in Hin;
    repeat (destruct Hin as [Hin | Hin]; [subst bp; unfold Qle; simpl; lia|]);
    destruct Hin.
Qed.

Lemma Math_round_500 (x : Q) : x == 500 -> Math_round x = 500%Z.
Proof.
  intro E. rewrite (Math_round_compat x 500 E).
  change 500 with (inject_Z 500). apply Math_round_integer.
Qed.

Lemma Math_max_500 (xs : list Q) :
  In 500 xs -> (forall x, In x xs -> x <= 500) -> Math_max xs 1 == 500.
Proof.
  intros Hin Hall. apply Qle_antisym.
  - apply Math_max_le; [exact Hall | unfold Qle; simpl; lia].
  - apply Math_max_ge_elem. exact Hin.
Qed.

(** X4.  A value that lies in no segment falls through to 500: a
    concentration below the lower bound of every segment of a table, and
    a value that is not a number.  So a negative PM2.5, PM10 or NO2
    reading makes [convertToIndianAQI] return 500. *)
Theorem calculateSubIndex_out_of_table (c : Q) (v : jsval) (table : list breakpoint)
    (pm25 pm10 no2 so2 co o3 : jsval) :
  ((forall bp, In bp table -> c < cLow bp) -> calculateSubIndex (Num c) table = 500)
  /\ (ToNumber v = None -> calculateSubIndex v table = 500)
  /\ (c < 0 ->
      convertToIndianAQI (Num c) pm10 no2 so2 co o3 = 500%Z
      /\ convertToIndianAQI pm25 (Num c) no2 so2 co o3 = 500%Z
      /\ convertToIndianAQI pm25 pm10 (Num c) so2 co o3 = 500%Z).
Proof.
  split; [apply calculateSubIndex_below|].
  split; [apply calculateSubIndex_NaN|].
  intro Hneg.
  assert (Hsub : forall t, In t converter_tables -> calculateSubIndex (Num c) t = 500).
  { intros t Ht. apply calculateSubIndex_below. intros bp Hbp.
    eapply Qlt_le_trans; [exact Hneg | apply (converter_tables_nonnegative t bp Ht Hbp)]. }
  unfold convertToIndianAQI.
  split; [|split]; apply Math_round_500; apply Math_max_500;
    try (intros x Hx; eapply aqiValues_le_500; exact Hx);
    rewrite aqiValues_parts, (sub_index_of_defined (Num c)) by reflexivity;
    rewrite Hsub by (cbn; auto).
  - left. reflexivity.
  - apply in_or_app. right. left. reflexivity.
  - apply in_or_app. right. apply in_or_app. right. left. reflexivity.
Qed.

Lemma well_formed_low_le (table : list breakpoint) (bp : breakpoint) :
  well_formed table -> In bp table -> range_low table <= cLow bp.
Proof.
  induction table as [|e rest IH]; intros Hwf Hin; [destruct Hin|].
  destruct Hwf as (Hc & _ & _ & Hnext & Hrest).
  destruct Hin as [E | Hin]; [subst e; apply Qle_refl|].
  destruct rest as [|next rest']; [destruct Hin|].
  destruct Hnext as [Hjoin _].
  specialize (IH Hrest Hin). cbn [range_low] in *. lra.
Qed.

(** X5.  In a well-formed table (the three tables of the converter are),
    a concentration in a segment, above its lower and up to its upper
    bound, gets a sub-index within the index range of that segment; a
    bound shared by two segments belongs to the lower one. *)
Theorem calculateSubIndex_in_segment (table : list breakpoint) (bp : breakpoint) (c : Q) :
  well_formed table -> In bp table ->
  cLow bp < c -> c <= cHigh bp ->
  iLow bp <= calculateSubIndex (Num c) table
  /\ calculateSubIndex (Num c) table <= iHigh bp
  /\ (c == cHigh bp -> calculateSubIndex (Num c) table == iHigh bp).
Proof.
  induction table as [|e rest IH]; intros Hwf Hin Hlow Hhigh; [destruct Hin|].
  pose proof Hwf as (Hc & Hi & _ & Hnext & Hrest).
  rewrite calculateSubIndex_cons.
  destruct Hin as [E | Hin].
  - subst e.
    assert (E1 : Qle_bool (cLow bp) c = true) by (apply Qle_bool_iff; lra).
    assert (E2 : Qle_bool c (cHigh bp) = true) by (apply Qle_bool_iff; exact Hhigh).
    rewrite E1, E2. cbn [andb].
    assert (L : 0 <= (iHigh bp - iLow bp) / (cHigh bp - cLow bp) * (c - cLow bp))
      by (apply segment_lower; lra).
    assert (U : (iHigh bp - iLow bp) / (cHigh bp - cLow bp) * (c - cLow bp)
                <= iHigh bp - iLow bp)
      by (apply segment_upper; lra).
    split; [lra|]. split; [lra|].
    intro Eq. rewrite Eq. field. lra.
  - destruct rest as [|next rest']; [destruct Hin|].
    destruct Hnext as [Hjoin _].
    pose proof (well_formed_low_le (next :: rest') bp Hrest Hin) as Hle.
    cbn [range_low] in Hle.
    assert (E2 : Qle_bool c (cHigh e) = false) by (apply Qle_bool_false; lra).
    rewrite E2, andb_false_r.
    apply IH; assumption.
Qed.

Lemma calculateSubIndex_in_segment_witness :
  51 <= calculateSubIndex (Num 60) pm25_breakpoints
  /\ calculateSubIndex (Num 60) pm25_breakpoints <= 100
  /\ calculateSubIndex (Num 60) pm25_breakpoints == 100.
Proof.
  assert (Hwf : well_formed pm25_breakpoints)
    by (apply converter_tables_well_formed; left; reflexivity).
  assert (Hin : In (mkBp 30 60 51 100) pm25_breakpoints)
    by (right; left; reflexivity).
  assert (Hlow : cLow (mkBp 30 60 51 100) < 60) by (unfold Qlt; simpl; lia).
  assert (Hhigh : 60 <= cHigh (mkBp 30 60 51 100)) by (unfold Qle; simpl; lia).
  destruct (calculateSubIndex_in_segment pm25_breakpoints (mkBp 30 60 51 100) 60
              Hwf Hin Hlow Hhigh) as (A & B & C).
  refine (conj A (conj B (C _))). reflexivity.
Defined.

(** ** The conversion of the US index *)

Lemma Math_round_ge (x : Q) (z : Z) : inject_Z z <= x -> (z <= Math_round x)%Z.
Proof.
  intro H. rewrite <- (Math_round_integer z). apply Math_round_mono. exact H.
Qed.

Lemma Math_round_le (x : Q) (z : Z) : x <= inject_Z z -> (Math_round x <= z)%Z.
Proof.
  intro H. rewrite <- (Math_round_integer z). apply Math_round_mono. exact H.
Qed.

(** X6.  [convertUSAQIToIndian] never returns more than 500, returns the
    US index itself up to 100, never returns less than the US index
    when that is at most 500, and returns exactly 500 above. *)
Theorem convertUSAQIToIndian_bounds (usAQI : Z) :
  (convertUSAQIToIndian usAQI <= 500)%Z
  /\ ((usAQI <= 100)%Z -> convertUSAQIToIndian usAQI = usAQI)
  /\ ((usAQI <= 500)%Z -> (usAQI <= convertUSAQIToIndian usAQI)%Z)
  /\ ((500 <= usAQI)%Z -> convertUSAQIToIndian usAQI = 500%Z).
Proof.
  unfold convertUSAQIToIndian.
  assert (Hcase : (usAQI <= 50 \/ 50 < usAQI <= 100 \/ 100 < usAQI <= 150
                   \/ 150 < usAQI <= 200 \/ 200 < usAQI <= 300 \/ 300 < usAQI)%Z)
    by lia.
  assert (Hq : forall a b : Z, (a <= b)%Z -> inject_Z a <= inject_Z b)
    by (intros a b Hab; rewrite <- Zle_Qle; exact Hab).
  destruct Hcase as [Hc | [Hc | [Hc | [Hc | [Hc | Hc]]]]]; settle_leb.
  - repeat split; intros; lia.
  - repeat split; intros; lia.
  - assert (L : (usAQI <= Math_round (inject_Z usAQI * 1.33))%Z).
    { apply Math_round_ge. pose proof (Hq 100%Z usAQI ltac:(lia)) as H1.
      change (inject_Z 100) with 100 in H1. lra. }
    assert (U : (Math_round (inject_Z usAQI * 1.33) <= 200)%Z).
    { apply Math_round_le. pose proof (Hq usAQI 150%Z ltac:(lia)) as H1.
      change (inject_Z 150) with 150 in H1. change (inject_Z 200) with 200. lra. }
    repeat split; intros; lia.
  - assert (L : (usAQI <= Math_round (inject_Z usAQI * 1.5))%Z).
    { apply Math_round_ge. pose proof (Hq 150%Z usAQI ltac:(lia)) as H1.
      change (inject_Z 150) with 150 in H1. lra. }
    assert (U : (Math_round (inject_Z usAQI * 1.5) <= 300)%Z).
    { apply Math_round_le. pose proof (Hq usAQI 200%Z ltac:(lia)) as H1.
      change (inject_Z 200) with 200 in H1. change (inject_Z 300) with 300. lra. }
    repeat split; intros; lia.
  - assert (L : (usAQI <= Math_round (inject_Z usAQI * 1.33))%Z).
    { apply Math_round_ge. pose proof (Hq 200%Z usAQI ltac:(lia)) as H1.
      change (inject_Z 200) with 200 in H1. lra. }
    assert (U : (Math_round (inject_Z usAQI * 1.33) <= 399)%Z).
    { apply Math_round_le. pose proof (Hq usAQI 300%Z ltac:(lia)) as H1.
      change (inject_Z 300) with 300 in H1. change (inject_Z 399) with 399. lra. }
    repeat split; intros; lia.
  - repeat split; intros; lia.
Qed.

(** ** Readings of the aggregation service *)









(** ** Forecast series *)

Lemma confidence_range (hours i : Z) :
  (1 <= i <= hours)%Z ->
  0.55 <= 0.75 - (inject_Z i / inject_Z hours) * 0.2
  /\ 0.75 - (inject_Z i / inject_Z hours) * 0.2 < 0.75.
Proof.
  intros [Hi Hh].
  assert (Hpos : 0 < inject_Z hours).
  { change 0 with (inject_Z 0). rewrite <- Zlt_Qlt. lia. }
  assert (Hipos : 0 < inject_Z i).
  { change 0 with (inject_Z 0). rewrite <- Zlt_Qlt. lia. }
  assert (Hle : inject_Z i <= inject_Z hours) by (rewrite <- Zle_Qle; exact Hh).
  assert (U : inject_Z i / inject_Z hours <= 1).
  { apply Qle_shift_div_r; [exact Hpos | lra]. }
  assert (L : 0 < inject_Z i / inject_Z hours).
  { apply Qlt_shift_div_l; [exact Hpos | lra]. }
  split; lra.
Qed.

(** X8.  The synthetic forecast has one point per hour of the horizon
    and none for a horizon of 0 or less.  Point number [k] (from 0) is
    [k + 1] hours ahead, dated [k + 1] hours after now, has a predicted
    index between 10 and 450 with the category [getAQICategory] gives
    it, a confidence from 0.55 up to but not including 0.75, and no
    pollutant breakdown; the series is marked as not real. *)
Theorem getMockForecastData_series `{MathLib}
    (rnd : random_source) (now : timestamp) (lat lng : Q) (hours : Z) :
  let f := getMockForecastData rnd now lat lng hours in
  f_isRealData f = false
  /\ model f = "Mock_LSTM"
  /\ f_source f = "mock_data"
  /\ List.length (forecast f) = Z.to_nat hours
  /\ ((hours <= 0)%Z -> forecast f = [])
  /\ forall k p, nth_error (forecast f) k = Some p ->
       hoursAhead p = (Z.of_nat k + 1)%Z
       /\ fp_timestamp p = (now + (Z.of_nat k + 1) * 60 * 60 * 1000)%Z
       /\ (10 <= predictedAqi p <= 450)%Z
       /\ fp_category p = getAQICategory (predictedAqi p)
       /\ 0.55 <= confidence p
       /\ confidence p < 0.75
       /\ fp_pollutants p = None.
Proof.
  unfold getMockForecastData.
  cbn [forecast f_isRealData model f_source].
  match goal with
  | |- context [map ?g (loop_indices hours)] => set (mk := g)
  end.
  assert (Hmk : forall i : Z,
             hoursAhead (mk i) = i
             /\ fp_timestamp (mk i) = (now + i * 60 * 60 * 1000)%Z
             /\ (10 <= predictedAqi (mk i) <= 450)%Z
             /\ fp_category (mk i) = getAQICategory (predictedAqi (mk i))
             /\ confidence (mk i) = 0.75 - (inject_Z i / inject_Z hours) * 0.2
             /\ fp_pollutants (mk i) = None).
  { intro i. unfold mk.
    cbn [hoursAhead fp_timestamp predictedAqi fp_category confidence fp_pollutants].
    repeat (split; [reflexivity|]).
    split; [lia|]. repeat split; reflexivity. }
  clearbody mk.
  assert (Hlen : List.length (map mk (loop_indices hours)) = Z.to_nat hours)
    by (rewrite length_map; apply loop_indices_length).
  split; [reflexivity|]. split; [reflexivity|]. split; [reflexivity|].
  split; [exact Hlen|].
  split.
  { intro Hneg. apply length_zero_iff_nil. rewrite Hlen. lia. }
  intros k p Ep.
  assert (Hk : (k < Z.to_nat hours)%nat).
  { rewrite <- Hlen. apply nth_error_Some. congruence. }
  rewrite nth_error_map in Ep.
  destruct (nth_error (loop_indices hours) k) as [i|] eqn:E;
    cbn [option_map] in Ep; [|discriminate].
  injection Ep as <-.
  pose proof (loop_indices_nth hours k i E) as Ei.
  destruct (Hmk i) as (M1 & M2 & M3 & M4 & M5 & M6).
  destruct (confidence_range hours i) as [C1 C2]; [lia|].
  rewrite M1, M2, M5, Ei in *.
  split; [reflexivity|]. split; [reflexivity|]. split; [exact M3|].
  split; [exact M4|]. split; [exact C1|]. split; [exact C2 | exact M6].
Qed.

Lemma forecast_of_item_index (item : OwmEntry) (index : nat) (p : ForecastPoint) :
  forecast_of_item item index = Some p ->
  (1 <= predictedAqi p <= 500)%Z
  /\ fp_category p = getAQICategory (predictedAqi p)
  /\ iso_of_seconds (dt item) = Some (fp_timestamp p).
Proof.
  unfold forecast_of_item. destruct (components item) as [c|]; [|discriminate].
  destruct (iso_of_seconds (dt item)) as [timestamp|]; [|discriminate].
  intro E.
  pose proof (Some_eq_via predictedAqi _ _ E) as H1.
  pose proof (Some_eq_via fp_category _ _ E) as H2.
  pose proof (Some_eq_via fp_timestamp _ _ E) as H3.
  cbn [predictedAqi fp_category fp_timestamp] in H1, H2, H3.
  rewrite <- H1, <- H2, <- H3.
  split; [apply convertToIndianAQI_range|]. split; reflexivity.
Qed.

Lemma map_items_member (items : list OwmEntry) (index : nat)
    (points : list ForecastPoint) (p : ForecastPoint) :
  map_items items index = Some points -> In p points ->
  exists item i, In item items /\ forecast_of_item item i = Some p.
Proof.
  revert index points. induction items as [|item rest IH]; intros index points;
    cbn [map_items].
  - intro E. injection E as <-. intros [].
  - destruct (forecast_of_item item index) as [p0|] eqn:E0; [|discriminate].
    destruct (map_items rest (S index)) as [ps|] eqn:E1; [|discriminate].
    intro E. injection E as <-. intros [Ep | Hin].
    + subst p0. exists item, index. split; [left; reflexivity | exact E0].
    + destruct (IH (S index) ps E1 Hin) as (it & i & Hit & Ei).
      exists it, i. split; [right; exact Hit | exact Ei].
Qed.

Lemma getMockForecastData_member `{MathLib}
    (rnd : random_source) (now : timestamp) (lat lng : Q) (hours : Z) (p : ForecastPoint) :
  In p (forecast (getMockForecastData rnd now lat lng hours)) ->
  (1 <= predictedAqi p <= 500)%Z
  /\ fp_category p = getAQICategory (predictedAqi p).
Proof.
  unfold getMockForecastData. cbn [forecast].
  match goal with
  | |- context [map ?g (loop_indices hours)] => set (mk := g)
  end.
  assert (Hmk : forall i : Z,
             (1 <= predictedAqi (mk i) <= 500)%Z
             /\ fp_category (mk i) = getAQICategory (predictedAqi (mk i))).
  { intro i. unfold mk. cbn [predictedAqi fp_category]. split; [lia | reflexivity]. }
  clearbody mk.
  intro Hp. apply in_map_iff in Hp. destruct Hp as (i & Ei & _).
  rewrite <- Ei. apply Hmk.
Qed.

Lemma fetchForecastData_calls `{MathLib}
    (cfg : Config) (w : World) (rnd : random_source) (now : timestamp)
    (lat lng : Q) (hours : Z) :
  snd (fetchForecastData cfg w rnd now lat lng hours)
  = if negb (useRealData cfg) || key_falsy (openWeatherApiKey cfg)
    then []
    else [GetAirPollutionForecast lat lng (key_param (openWeatherApiKey cfg))].
Proof.
  unfold fetchForecastData.
  destruct (negb (useRealData cfg) || key_falsy (openWeatherApiKey cfg));
    [reflexivity|].
  destruct (owm_air_pollution_forecast w lat lng _) as [[[|e rest]|]|];
    try reflexivity.
  destruct (map_items _ 0%nat); reflexivity.
Qed.

(** X9.  Whatever the provider answers, [fetchForecastData] returns a
    forecast: either the synthetic series, marked not real, or the
    provider's, marked real with model 'OpenWeatherMap'.  Every point
    has a predicted index between 1 and 500 with the category
    [getAQICategory] gives it.  It makes no request when the real-data
    flag is unset or the key is missing, and exactly one otherwise. *)
Theorem fetchForecastData_forecast `{MathLib}
    (cfg : Config) (w : World) (rnd : random_source) (now : timestamp)
    (lat lng : Q) (hours : Z) :
  let out := fetchForecastData cfg w rnd now lat lng hours in
  (fst out = getMockForecastData rnd now lat lng hours
   \/ (f_isRealData (fst out) = true /\ model (fst out) = "OpenWeatherMap"
       /\ f_source (fst out) = "real_api"))
  /\ (forall p, In p (forecast (fst out)) ->
        (1 <= predictedAqi p <= 500)%Z
        /\ fp_category p = getAQICategory (predictedAqi p))
  /\ (negb (useRealData cfg) || key_falsy (openWeatherApiKey cfg) = true ->
      snd out = [] /\ fst out = getMockForecastData rnd now lat lng hours)
  /\ (negb (useRealData cfg) || key_falsy (openWeatherApiKey cfg) = false ->
      snd out = [GetAirPollutionForecast lat lng (key_param (openWeatherApiKey cfg))]).
Proof.
  intro out.
  pose proof (fetchForecastData_calls cfg w rnd now lat lng hours) as Hcalls.
  fold out in Hcalls.
  pose proof (getMockForecastData_member rnd now lat lng hours) as Hmock.
  assert (Hcases : fst out = getMockForecastData rnd now lat lng hours
                   \/ (f_isRealData (fst out) = true
                       /\ model (fst out) = "OpenWeatherMap"
                       /\ f_source (fst out) = "real_api"
                       /\ exists items, map_items items 0 = Some (forecast (fst out)))).
  { subst out. unfold fetchForecastData.
    destruct (negb (useRealData cfg) || key_falsy (openWeatherApiKey cfg));
      [left; reflexivity|].
    destruct (owm_air_pollution_forecast w lat lng _) as [[[|e rest]|]|];
      try (left; reflexivity).
    destruct (map_items _ 0%nat) as [points|] eqn:Em; [|left; reflexivity].
    right. cbn [fst f_isRealData model f_source forecast].
    repeat (split; [reflexivity|]). eexists. exact Em. }
  split.
  { destruct Hcases as [E | (R1 & R2 & R3 & _)]; [left; exact E | right; auto]. }
  split.
  { intros p Hp. destruct Hcases as [E | (_ & _ & _ & items & Em)].
    - rewrite E in Hp. apply Hmock. exact Hp.
    - destruct (map_items_member items 0 _ p Em Hp) as (item & i & _ & Ei).
      destruct (forecast_of_item_index item i p Ei) as (A & B & _).
      split; assumption. }
  split.
  - intro Hoff. rewrite Hoff in Hcalls. split; [exact Hcalls|].
    subst out. unfold fetchForecastData. rewrite Hoff. reflexivity.
  - intro Hon. rewrite Hon in Hcalls. exact Hcalls.
Qed.

(** X10.  The two entry points treat the placeholder key differently:
    with the real-data flag set and the OpenWeatherMap key left at
    'placeholder_openweather_key', [fetchRealTimeAQI] makes no request
    and returns the 'Mock-Development' reading, while
    [fetchForecastData] sends one forecast request with the placeholder
    as key. *)
Theorem placeholder_key_asymmetry `{MathLib}
    (cfg : Config) (w : World) (rnd : random_source) (now : timestamp)
    (lat lng radius : Q) (hours : Z) :
  useRealData cfg = true ->
  openWeatherApiKey cfg = Some "placeholder_openweather_key" ->
  snd (fetchRealTimeAQI cfg w rnd now lat lng radius) = []
  /\ source (fst (fetchRealTimeAQI cfg w rnd now lat lng radius)) = "Mock-Development"
  /\ snd (fetchForecastData cfg w rnd now lat lng hours)
     = [GetAirPollutionForecast lat lng "placeholder_openweather_key"].
Proof.
  intros Hflag Hkey.
  split; [|split].
  - unfold fetchRealTimeAQI. rewrite Hflag, Hkey. reflexivity.
  - unfold fetchRealTimeAQI. rewrite Hflag, Hkey. reflexivity.
  - rewrite fetchForecastData_calls, Hflag, Hkey. reflexivity.
Qed.

Lemma placeholder_key_asymmetry_witness :
  let cfg := {| openWeatherApiKey := Some "placeholder_openweather_key";
                iqAirApiKey := None; useRealData := true |} in
  snd (@fetchRealTimeAQI rational_math cfg world_down half_noise
         1700000000000%Z 19.0760 72.8777 10) = []
  /\ snd (@fetchForecastData rational_math cfg world_down half_noise
            1700000000000%Z 19.0760 72.8777 24)
     = [GetAirPollutionForecast 19.0760 72.8777 "placeholder_openweather_key"].
Proof.
  pose proof (@placeholder_key_asymmetry rational_math
                {| openWeatherApiKey := Some "placeholder_openweather_key";
                   iqAirApiKey := None; useRealData := true |}
                world_down half_noise 1700000000000%Z 19.0760 72.8777 10 24
                eq_refl eq_refl) as (A & _ & C).
  exact (conj A C).
Defined.

(** ** The two category functions outside the scale *)

(** X11.  [getAQICategory] and [categorizeAQI] give the same label
    exactly for the non-negative integers: a negative value is 'Good'
    for the first and falls through every bucket to 'Severe' for the
    second. *)
Theorem category_functions_agree_iff (aqi : Z) :
  (ci_label (categorizeAQI aqi) = getAQICategory aqi <-> (0 <= aqi)%Z)
  /\ ((aqi < 0)%Z ->
      getAQICategory aqi = "Good" /\ ci_category (categorizeAQI aqi) = "SEVERE").
Proof.
  assert (Hneg : (aqi < 0)%Z ->
                 getAQICategory aqi = "Good"
                 /\ ci_category (categorizeAQI aqi) = "SEVERE"
                 /\ ci_label (categorizeAQI aqi) = "Severe").
  { intro H. unfold getAQICategory, categorizeAQI, AQI_CATEGORIES.
    cbn [categorizeAQI_from cat_min cat_max cat_label cat_color].
    settle_leb. cbn. repeat split; reflexivity. }
  split.
  - split.
    + intro E. destruct (Z_lt_le_dec aqi 0) as [Hlt | Hle]; [|exact Hle].
      destruct (Hneg Hlt) as (G & _ & L). rewrite G, L in E. discriminate.
    + intro Hpos.
      unfold getAQICategory, categorizeAQI, AQI_CATEGORIES.
      cbn [categorizeAQI_from cat_min cat_max cat_label cat_color].
      assert (Hcase : (aqi <= 50 \/ 51 <= aqi <= 100 \/ 101 <= aqi <= 200
                       \/ 201 <= aqi <= 300 \/ 301 <= aqi <= 400
                       \/ 401 <= aqi <= 500 \/ 500 < aqi)%Z) by lia.
      destruct Hcase as [Hc | [Hc | [Hc | [Hc | [Hc | [Hc | Hc]]]]]];
        settle_leb; reflexivity.
  - intro H. destruct (Hneg H) as (G & S & _). split; assumption.
Qed.

(** ** The handler of [GET /api/aqi] *)

(** X12.  A stored reading counts as fresh exactly when it is at most
    3 600 000 ms older than the current instant, the bound included; a
    fresh reading is reported with an age of at most 60 minutes, and a
    reading dated in the future is fresh, with an age of at most 0. *)
Theorem isDataFresh_window (now ts : timestamp) :
  (isDataFresh now ts = true <-> (now - ts <= 3600000)%Z)
  /\ (isDataFresh now ts = true -> (getDataAge now ts <= 60)%Z)
  /\ ((now <= ts)%Z -> isDataFresh now ts = true /\ (getDataAge now ts <= 0)%Z).
Proof.
  assert (Hiff : isDataFresh now ts = true <-> (now - ts <= 3600000)%Z).
  { rewrite isDataFresh_iff. lia. }
  assert (Ex : inject_Z (now - ts) / (1000 * 60) == inject_Z (now - ts) * (1 # 60000))
    by (field; discriminate).
  split; [exact Hiff|]. split.
  - intro Hf. apply Hiff in Hf. unfold getDataAge. apply Math_round_le.
    rewrite Ex. rewrite Zle_Qle in Hf.
    change (inject_Z 3600000) with 3600000 in Hf. change (inject_Z 60) with 60. lra.
  - intro Hfut. split; [apply Hiff; lia|].
    unfold getDataAge. apply Math_round_le. rewrite Ex.
    assert (Hle : (now - ts <= 0)%Z) by lia.
    rewrite Zle_Qle in Hle. change (inject_Z 0) with 0 in *. lra.
Qed.

Lemma location_upsert_locations (db : Database) (locationData : Location) :
  let db' := snd (location_upsert db locationData) in
  (List.length (locations db') <= S (List.length (locations db)))%nat
  /\ (forall row, In row (locations db) ->
        exists row', In row' (locations db') /\ row_id row' = row_id row)
  /\ (next_id db <= next_id db')%nat.
Proof.
  unfold location_upsert.
  destruct (find _ (locations db)) as [row0|]; cbn [snd locations next_id].
  - split; [rewrite length_map; lia|]. split; [|lia].
    intros row Hin.
    exists (if Nat.eqb (row_id row) (row_id row0)
            then {| row_id := row_id row0;
                    row_name := loc_name locationData;
                    row_latitude := row_latitude row0;
                    row_longitude := row_longitude row0;
                    row_state := loc_state locationData;
                    row_country := row_country row0;
                    row_stationType := loc_stationType locationData;
                    row_isActive := row_isActive row0 |}
            else row).
    split.
    + apply in_map_iff. exists row. split; [reflexivity | exact Hin].
    + destruct (Nat.eqb_spec (row_id row) (row_id row0)) as [E | E];
        [cbn [row_id]; congruence | reflexivity].
  - split; [rewrite length_app; cbn; lia|]. split; [|lia].
    intros row Hin. exists row. split; [apply in_or_app; left; exact Hin | reflexivity].
Qed.

Lemma saved_growth (db : Database) (r : Reading) :
  let db' := snd (saved db r) in
  (forall l, In l (aqi_logs db) -> In l (aqi_logs db'))
  /\ List.length (aqi_logs db') = S (List.length (aqi_logs db))
  /\ (List.length (locations db') <= S (List.length (locations db)))%nat
  /\ (forall row, In row (locations db) ->
        exists row', In row' (locations db') /\ row_id row' = row_id row).
Proof.
  destruct (saved_log db r) as (Elogs & Elocs & _).
  destruct (location_upsert_locations db (location r)) as (L1 & L2 & _).
  cbv zeta. rewrite Elogs, Elocs.
  split; [intros l Hl; apply in_or_app; left; exact Hl|].
  split; [rewrite length_app; cbn; lia|].
  split; [exact L1 | exact L2].
Qed.

Lemma categorizeAQI_value (aqi : Z) : ci_value (categorizeAQI aqi) = aqi.
Proof.
  unfold categorizeAQI. induction AQI_CATEGORIES as [|[key category] rest IH];
    cbn [categorizeAQI_from]; [reflexivity|].
  destruct ((cat_min category <=? aqi)%Z && (aqi <=? cat_max category)%Z);
    [reflexivity | exact IH].
Qed.

(** The two ways the handler ends after validation *)
Lemma serve_aqi_cases `{MathLib} `{SqlLib} (cpcbApiKey : option string) (db : Database) (writes : WriteOutcome)
    (rnd : random_source) (now : timestamp) (latitude longitude searchRadius : Q) :
  let out := serve_aqi cpcbApiKey db writes rnd now latitude longitude searchRadius in
  let freshData :=
    AQIService.fetchRealTimeAQI cpcbApiKey rnd now latitude longitude searchRadius in
  (exists cachedData,
     getLatestAQI db latitude longitude searchRadius = Some cachedData
     /\ isDataFresh now (log_timestamp (cd_log cachedData)) = true
     /\ data (fst (fst out)) = Some (formatCachedAQIResponse cachedData)
     /\ meta_source (fst (fst out)) = Some "cache"
     /\ meta_isRealData (fst (fst out)) = None
     /\ meta_dataAge (fst (fst out))
        = Some (getDataAge now (log_timestamp (cd_log cachedData)))
     /\ snd (fst out) = db
     /\ snd out = [EvGetLatestAQI latitude longitude searchRadius])
  \/ (meta_source (fst (fst out)) = Some "external_api"
      /\ meta_isRealData (fst (fst out)) = Some (isRealData freshData || false)
      /\ snd (fst out) = snd (saveAQIData writes db freshData)
      /\ snd out = [EvGetLatestAQI latitude longitude searchRadius;
                    EvFetchRealTimeAQI latitude longitude searchRadius;
                    EvSaveAQIData freshData]
      /\ exists body,
           data (fst (fst out)) = Some body
           /\ b_location body = location freshData
           /\ ba_value (b_aqi body) = aqi_value (aqi freshData)
           /\ ba_category (b_aqi body)
              = ci_category (categorizeAQI (aqi_value (aqi freshData)))
           /\ ba_label (b_aqi body) = ci_label (categorizeAQI (aqi_value (aqi freshData)))
           /\ ba_color (b_aqi body) = ci_color (categorizeAQI (aqi_value (aqi freshData)))
           /\ ba_lastUpdated (b_aqi body) = aqi_lastUpdated (aqi freshData)
           /\ b_pollutants body = pollutants freshData
           /\ b_source body = source freshData).
Proof.
  unfold serve_aqi.
  destruct (getLatestAQI db latitude longitude searchRadius) as [c|] eqn:Eget.
  - destruct (isDataFresh now (log_timestamp (cd_log c))) eqn:Ef.
    + left. exists c. cbn [fst snd data meta_source meta_isRealData meta_dataAge].
      split; [reflexivity|]. split; [exact Ef|].
      repeat (split; [reflexivity|]). reflexivity.
    + right. cbv zeta.
      destruct (saveAQIData writes db _) as [log db'].
      cbn [fst snd data meta_source meta_isRealData app].
      repeat (split; [reflexivity|]).
      eexists. split; [reflexivity|].
      cbn [b_location b_aqi b_pollutants b_source ba_value ba_category ba_label
           ba_color ba_lastUpdated].
      split; [reflexivity|]. split; [apply categorizeAQI_value|].
      repeat (split; [reflexivity|]). reflexivity.
  - right. cbv zeta.
    destruct (saveAQIData writes db _) as [log db'].
    cbn [fst snd data meta_source meta_isRealData app].
    repeat (split; [reflexivity|]).
    eexists. split; [reflexivity|].
    cbn [b_location b_aqi b_pollutants b_source ba_value ba_category ba_label
         ba_color ba_lastUpdated].
    split; [reflexivity|]. split; [apply categorizeAQI_value|].
    repeat (split; [reflexivity|]). reflexivity.
Qed.

Lemma categories_scale_helper (aqi : Z) :
  (0 <= aqi)%Z ->
  ci_category (categorizeAQI aqi) = bucket_key (scale aqi)
  /\ ci_label (categorizeAQI aqi) = bucket_label (scale aqi).
Proof.
  intro Hpos.
  unfold categorizeAQI, scale, AQI_CATEGORIES.
  cbn [categorizeAQI_from cat_min cat_max cat_label cat_color].
  assert (Hcase : (aqi <= 50 \/ 51 <= aqi <= 100 \/ 101 <= aqi <= 200
                   \/ 201 <= aqi <= 300 \/ 301 <= aqi <= 400 \/ 401 <= aqi <= 500
                   \/ 500 < aqi)%Z) by lia.
  destruct Hcase as [Hc | [Hc | [Hc | [Hc | [Hc | [Hc | Hc]]]]]];
    settle_leb; cbn; split; reflexivity.
Qed.

(** A request is rejected without side effect or served *)
Lemma get_aqi_cases `{MathLib} `{SqlLib} (cpcbApiKey : option string) (db : Database) (writes : WriteOutcome)
    (rnd : random_source) (now : timestamp) (query : Query) :
  (exists msg, get_aqi cpcbApiKey db writes rnd now query = (bad_request msg, db, []))
  \/ (exists latitude longitude searchRadius,
        get_aqi cpcbApiKey db writes rnd now query
        = serve_aqi cpcbApiKey db writes rnd now latitude longitude searchRadius).
Proof.
  unfold get_aqi.
  destruct (key_falsy (q_lat query) || key_falsy (q_lng query));
    [left; eexists; reflexivity|].
  destruct (accepted (parseFloat (key_param (q_lat query))) _) as [latitude|];
    [|left; eexists; reflexivity].
  destruct (accepted (parseFloat (key_param (q_lng query))) _) as [longitude|];
    [|left; eexists; reflexivity].
  destruct (accepted _ (fun v => Qle_bool v 0 || Qlt_bool 100 v)) as [searchRadius|];
    [|left; eexists; reflexivity].
  right. exists latitude, longitude, searchRadius. reflexivity.
Qed.

Lemma AQIService_reading `{MathLib} (cpcbApiKey : option string)
    (rnd : random_source) (now : timestamp) (lat lng radius : Q) :
  let r := AQIService.fetchRealTimeAQI cpcbApiKey rnd now lat lng radius in
  isRealData r = false
  /\ source r = "Mock-CPCB"
  /\ loc_stationType (location r) = "Mock-CPCB"
  /\ loc_latitude (location r) = lat
  /\ loc_longitude (location r) = lng
  /\ (1 <= aqi_value (aqi r) <= 500)%Z
  /\ aqi_lastUpdated (aqi r) = now
  /\ aqi_category (aqi r) = getAQICategory (aqi_value (aqi r)).
Proof.
  unfold AQIService.fetchRealTimeAQI.
  destruct (key_is cpcbApiKey "placeholder_cpcb_key");
    unfold AQIService.getMockAQIData;
    cbn [isRealData source location loc_stationType loc_latitude loc_longitude
         aqi aqi_value aqi_lastUpdated aqi_category];
    repeat (split; [reflexivity|]); (split; [lia|]); split; reflexivity.
Qed.

(** The response and the calls do not depend on what becomes of the
    save. *)
Lemma serve_aqi_any_write `{MathLib} `{SqlLib} (cpcbApiKey : option string) (db : Database)
    (writes : WriteOutcome) (rnd : random_source) (now : timestamp)
    (latitude longitude searchRadius : Q) :
  fst (fst (serve_aqi cpcbApiKey db writes rnd now latitude longitude searchRadius))
  = fst (fst (serve_aqi cpcbApiKey db WritesSucceed rnd now latitude longitude searchRadius))
  /\ snd (serve_aqi cpcbApiKey db writes rnd now latitude longitude searchRadius)
     = snd (serve_aqi cpcbApiKey db WritesSucceed rnd now latitude longitude searchRadius).
Proof.
  unfold serve_aqi.
  destruct (match getLatestAQI db latitude longitude searchRadius with
            | Some c => if isDataFresh now (log_timestamp (cd_log c)) then Some c else None
            | None => None
            end) as [c|]; [split; reflexivity|].
  cbv zeta.
  destruct (saveAQIData writes db _) as [log1 db1].
  destruct (saveAQIData WritesSucceed db _) as [log2 db2].
  split; reflexivity.
Qed.

Lemma get_aqi_any_write `{MathLib} `{SqlLib} (cpcbApiKey : option string) (db : Database)
    (writes : WriteOutcome) (rnd : random_source) (now : timestamp) (query : Query) :
  fst (fst (get_aqi cpcbApiKey db writes rnd now query))
  = fst (fst (get_aqi cpcbApiKey db WritesSucceed rnd now query))
  /\ snd (get_aqi cpcbApiKey db writes rnd now query)
     = snd (get_aqi cpcbApiKey db WritesSucceed rnd now query).
Proof.
  unfold get_aqi.
  destruct (key_falsy (q_lat query) || key_falsy (q_lng query));
    [split; reflexivity|].
  destruct (accepted (parseFloat (key_param (q_lat query))) _) as [latitude|];
    [|split; reflexivity].
  destruct (accepted (parseFloat (key_param (q_lng query))) _) as [longitude|];
    [|split; reflexivity].
  destruct (accepted _ (fun v => Qle_bool v 0 || Qlt_bool 100 v)) as [searchRadius|];
    [|split; reflexivity].
  apply serve_aqi_any_write.
Qed.

(** What a save does to the two tables, for each outcome *)
Lemma saveAQIData_growth (writes : WriteOutcome) (db : Database) (r : Reading) :
  let db' := snd (saveAQIData writes db r) in
  (forall l, In l (aqi_logs db) -> In l (aqi_logs db'))
  /\ (forall row, In row (locations db) ->
        exists row', In row' (locations db') /\ row_id row' = row_id row)
  /\ (List.length (locations db') <= S (List.length (locations db)))%nat
  /\ (writes = WritesSucceed ->
      List.length (aqi_logs db') = S (List.length (aqi_logs db)))
  /\ (writes <> WritesSucceed -> aqi_logs db' = aqi_logs db)
  /\ (writes = UpsertFails -> db' = db).
Proof.
  cbv zeta. rewrite saveAQIData_outcomes.
  destruct (saved_growth db r) as (G1 & G2 & G3 & G4).
  destruct (location_upsert_locations db (location r)) as (L1 & L2 & _).
  pose proof (location_upsert_logs db (location r)) as Hlogs.
  destruct writes; cbn [snd].
  - split; [exact G1|]. split; [exact G4|]. split; [exact G3|].
    split; [intros _; exact G2|]. split; [congruence | discriminate].
  - split; [auto|]. split; [intros row Hin; exists row; auto|]. split; [lia|].
    split; [discriminate|]. split; reflexivity.
  - rewrite Hlogs. split; [auto|]. split; [exact L2|]. split; [exact L1|].
    split; [discriminate|]. split; [reflexivity | discriminate].
Qed.

(** X13.  The handler never removes anything from the tables.  Every
    stored log is still stored afterwards and every location keeps its
    id; a request answered from the tables or rejected leaves them as
    they were.  A request answered from the service adds at most one
    location, and exactly one log when the database executes both
    statements of the save; when it refuses one, no log is added (and
    nothing at all when it refuses the first), the error is swallowed,
    and the response and the calls are the same as after a save that
    succeeds. *)
Theorem get_aqi_only_appends `{MathLib} `{SqlLib} (cpcbApiKey : option string)
    (db : Database) (writes : WriteOutcome) (rnd : random_source) (now : timestamp)
    (query : Query) :
  let out := get_aqi cpcbApiKey db writes rnd now query in
  let response := fst (fst out) in
  let db' := snd (fst out) in
  (forall l, In l (aqi_logs db) -> In l (aqi_logs db'))
  /\ (forall row, In row (locations db) ->
        exists row', In row' (locations db') /\ row_id row' = row_id row)
  /\ (meta_source response <> Some "external_api" -> db' = db)
  /\ (meta_source response = Some "external_api" ->
      (List.length (locations db') <= S (List.length (locations db)))%nat
      /\ (writes = WritesSucceed ->
          List.length (aqi_logs db') = S (List.length (aqi_logs db)))
      /\ (writes <> WritesSucceed -> aqi_logs db' = aqi_logs db)
      /\ (writes = UpsertFails -> db' = db))
  /\ response = fst (fst (get_aqi cpcbApiKey db WritesSucceed rnd now query))
  /\ snd out = snd (get_aqi cpcbApiKey db WritesSucceed rnd now query).
Proof.
  intros out response db'.
  assert (Hsame : db' = db ->
            (forall l, In l (aqi_logs db) -> In l (aqi_logs db'))
            /\ (forall row, In row (locations db) ->
                  exists row', In row' (locations db') /\ row_id row' = row_id row)).
  { intro E. rewrite E. split; [auto|]. intros row Hin. exists row. auto. }
  destruct (get_aqi_any_write cpcbApiKey db writes rnd now query) as [Hresp Hcalls].
  fold out in Hresp, Hcalls. fold response in Hresp.
  destruct (get_aqi_cases cpcbApiKey db writes rnd now query)
    as [(msg & E) | (la & lo & ra & E)].
  - assert (Edb : db' = db) by (unfold db', out; rewrite E; reflexivity).
    assert (Esrc : meta_source response = None)
      by (unfold response, out; rewrite E; reflexivity).
    destruct (Hsame Edb) as [A B].
    split; [exact A|]. split; [exact B|]. split; [intros _; exact Edb|].
    split; [rewrite Esrc; discriminate|].
    split; [exact Hresp | exact Hcalls].
  - destruct (serve_aqi_cases cpcbApiKey db writes rnd now la lo ra)
      as [(c & _ & _ & _ & Esrc & _ & _ & Edb & _) | (Esrc & _ & Edb & _)];
      rewrite <- E in Esrc, Edb; fold out in Esrc, Edb;
      fold response in Esrc; fold db' in Edb.
    + destruct (Hsame Edb) as [A B].
      split; [exact A|]. split; [exact B|]. split; [intros _; exact Edb|].
      split; [rewrite Esrc; discriminate|].
      split; [exact Hresp | exact Hcalls].
    + destruct (saveAQIData_growth writes db
                  (AQIService.fetchRealTimeAQI cpcbApiKey rnd now la lo ra))
        as (G1 & G2 & G3 & G4 & G5 & G6).
      rewrite <- Edb in G1, G2, G3, G4, G5, G6.
      split; [exact G1|]. split; [exact G2|].
      split; [intro Hne; congruence|].
      split; [intros _; repeat split; assumption|].
      split; [exact Hresp | exact Hcalls].
Qed.

(** X14.  What [GET /api/aqi] answers when it does not answer from the
    tables comes from a service that only generates readings: the
    response is flagged as not real, its source is 'Mock-CPCB', it is
    dated at the current instant, and its index is between 1 and 500
    with the key and label of the bucket of the scale. *)
Theorem get_aqi_fresh_is_synthetic `{MathLib} `{SqlLib} (cpcbApiKey : option string)
    (db : Database) (writes : WriteOutcome) (rnd : random_source) (now : timestamp) (query : Query) :
  let response := fst (fst (get_aqi cpcbApiKey db writes rnd now query)) in
  meta_source response = Some "external_api" ->
  meta_isRealData response = Some false
  /\ exists body,
       data response = Some body
       /\ b_source body = "Mock-CPCB"
       /\ loc_stationType (b_location body) = "Mock-CPCB"
       /\ (1 <= ba_value (b_aqi body) <= 500)%Z
       /\ ba_category (b_aqi body) = bucket_key (scale (ba_value (b_aqi body)))
       /\ ba_label (b_aqi body) = bucket_label (scale (ba_value (b_aqi body)))
       /\ ba_lastUpdated (b_aqi body) = now
       /\ b_lastUpdated body = Some now.
Proof.
  intros response Hsrc.
  destruct (get_aqi_cases cpcbApiKey db writes rnd now query)
    as [(msg & E) | (la & lo & ra & E)].
  - unfold response in Hsrc. rewrite E in Hsrc. discriminate Hsrc.
  - unfold response in *. rewrite E in *. clear E.
    destruct (AQIService_reading cpcbApiKey rnd now la lo ra)
      as (R1 & R2 & R3 & _ & _ & R6 & R7 & _).
    revert Hsrc. unfold serve_aqi.
    destruct (match getLatestAQI db la lo ra with
              | Some c => if isDataFresh now (log_timestamp (cd_log c))
                          then Some c else None
              | None => None
              end) as [c|].
    + cbn [fst meta_source]. discriminate.
    + cbv zeta. destruct (saveAQIData writes db _) as [log db'].
      cbn [fst meta_source meta_isRealData data]. intros _.
      rewrite R1. split; [reflexivity|].
      eexists. split; [reflexivity|].
      cbn [b_source b_location b_aqi ba_value ba_category ba_label ba_lastUpdated
           b_lastUpdated].
      rewrite R2, R3, R7, categorizeAQI_value.
      destruct (categories_scale_helper
                  (aqi_value (aqi (AQIService.fetchRealTimeAQI cpcbApiKey rnd now la lo ra))))
        as (K & L); [lia|].
      rewrite K, L.
      repeat (split; [reflexivity || lia|]). reflexivity.
Qed.

Lemma get_aqi_fresh_is_synthetic_witness :
  let response :=
    fst (fst (@get_aqi rational_math flat_sql None empty_database WritesSucceed half_noise
                1700000000000%Z
                {| q_lat := Some "19.0760"; q_lng := Some "72.8777"; q_radius := None |})) in
  meta_source response = Some "external_api"
  /\ meta_isRealData response = Some false.
Proof.
  assert (Hsrc : meta_source
                   (fst (fst (@get_aqi rational_math flat_sql None empty_database WritesSucceed
                                half_noise 1700000000000%Z
                                {| q_lat := Some "19.0760"; q_lng := Some "72.8777";
                                   q_radius := None |})))
                 = Some "external_api") by (vm_compute; reflexivity).
  split; [exact Hsrc|].
  exact (proj1 (@get_aqi_fresh_is_synthetic rational_math flat_sql None empty_database
                  WritesSucceed half_noise 1700000000000%Z
                  {| q_lat := Some "19.0760"; q_lng := Some "72.8777"; q_radius := None |}
                  Hsrc)).
Defined.

(** ** The tables *)

Lemma same_coordinates_sym (r1 r2 : LocationRow) :
  same_coordinates (row_latitude r1) (row_longitude r1) r2
  = same_coordinates (row_latitude r2) (row_longitude r2) r1.
Proof.
  unfold same_coordinates.
  assert (S : forall a b, Qeq_bool a b = Qeq_bool b a).
  { intros a b. destruct (Qeq_bool a b) eqn:E1, (Qeq_bool b a) eqn:E2; try reflexivity.
    - apply Qeq_bool_iff in E1. symmetry in E1. apply Qeq_bool_iff in E1. congruence.
    - apply Qeq_bool_iff in E2. symmetry in E2. apply Qeq_bool_iff in E2. congruence. }
  rewrite (S (row_latitude r2)), (S (row_longitude r2)). reflexivity.
Qed.

Lemma NoDup_map_eq {A B : Type} (f : A -> B) (l : list A) (x y : A) :
  NoDup (map f l) -> In x l -> In y l -> f x = f y -> x = y.
Proof.
  induction l as [|a rest IH]; intros Hnd Hx Hy E; [destruct Hx|].
  cbn [map] in Hnd. inversion Hnd as [|b bs Hnotin Hrest]; subst.
  destruct Hx as [Hx | Hx], Hy as [Hy | Hy].
  - congruence.
  - subst a. exfalso. apply Hnotin. rewrite E. apply in_map. exact Hy.
  - subst a. exfalso. apply Hnotin. rewrite <- E. apply in_map. exact Hx.
  - apply IH; assumption.
Qed.

Lemma NoDup_app_iff_snoc {A : Type} (l : list A) (x : A) :
  NoDup l -> ~ In x l -> NoDup (l ++ [x]).
Proof.
  intros Hnd Hx. induction l as [|a rest IH]; cbn [app].
  - constructor; [intros [] | constructor].
  - inversion Hnd as [|b bs Hnotin Hrest]; subst. constructor.
    + intro Hin. apply in_app_or in Hin. destruct Hin as [Hin | [E | []]].
      * exact (Hnotin Hin).
      * subst a. apply Hx. left. reflexivity.
    + apply IH; [exact Hrest|]. intro Hin. apply Hx. right. exact Hin.
Qed.

(** [location_upsert] keeps the guarantees of the schema. *)
Lemma location_upsert_consistent (db : Database) (locationData : Location) :
  db_consistent db ->
  db_consistent (snd (location_upsert db locationData))
  /\ In (fst (location_upsert db locationData))
        (locations (snd (location_upsert db locationData)))
  /\ (next_id db <= next_id (snd (location_upsert db locationData)))%nat.
Proof.
  intros (Hids & Hlids & Hlt & Hllt & Hkey & Hfk).
  unfold location_upsert.
  destruct (find _ (locations db)) as [row0|] eqn:Efind; cbn [fst snd].
  - apply find_some in Efind. destruct Efind as [Hin0 Hmatch].
    set (updated := {| row_id := row_id row0;
                       row_name := loc_name locationData;
                       row_latitude := row_latitude row0;
                       row_longitude := row_longitude row0;
                       row_state := loc_state locationData;
                       row_country := row_country row0;
                       row_stationType := loc_stationType locationData;
                       row_isActive := row_isActive row0 |}).
    set (f := fun r => if Nat.eqb (row_id r) (row_id row0) then updated else r).
    assert (Hf : forall r, In r (locations db) ->
                 row_id (f r) = row_id r
                 /\ row_latitude (f r) = row_latitude r
                 /\ row_longitude (f r) = row_longitude r).
    { intros r Hr. unfold f.
      destruct (Nat.eqb_spec (row_id r) (row_id row0)) as [E | E];
        [|repeat split; reflexivity].
      assert (r = row0) by (apply (NoDup_map_eq row_id (locations db)); assumption).
      subst r. repeat split; reflexivity. }
    assert (Hmapid : map row_id (map f (locations db)) = map row_id (locations db)).
    { rewrite map_map. apply map_ext_in. intros r Hr. apply (Hf r Hr). }
    split; [|split].
    + unfold db_consistent. cbn [locations aqi_logs next_id].
      rewrite Hmapid.
      split; [exact Hids|]. split; [exact Hlids|].
      split.
      { intros row Hrow. apply in_map_iff in Hrow. destruct Hrow as (r & Er & Hr).
        subst row. destruct (Hf r Hr) as (Eid & _). rewrite Eid. apply Hlt. exact Hr. }
      split; [exact Hllt|].
      split.
      { intros r1' r2' H1 H2 Hsame.
        apply in_map_iff in H1. destruct H1 as (r1 & E1 & H1).
        apply in_map_iff in H2. destruct H2 as (r2 & E2 & H2).
        subst r1' r2'.
        destruct (Hf r1 H1) as (_ & A1 & B1). destruct (Hf r2 H2) as (_ & A2 & B2).
        unfold same_coordinates in Hsame. rewrite A1, B1, A2, B2 in Hsame.
        assert (r1 = r2) by (apply Hkey; assumption).
        congruence. }
      intros l Hl. destruct (Hfk l Hl) as (row & Hrow & Eid).
      exists (f row). split; [apply in_map; exact Hrow|].
      destruct (Hf row Hrow) as (E & _). congruence.
    + apply in_map_iff. exists row0. split; [|exact Hin0].
      unfold f. rewrite Nat.eqb_refl. reflexivity.
    + cbn [next_id]. lia.
  - set (created := {| row_id := next_id db;
                       row_name := loc_name locationData;
                       row_latitude := loc_latitude locationData;
                       row_longitude := loc_longitude locationData;
                       row_state := loc_state locationData;
                       row_country := "India";
                       row_stationType := loc_stationType locationData;
                       row_isActive := true |}).
    assert (Hnone : forall r, In r (locations db) ->
                    same_coordinates (loc_latitude locationData)
                                     (loc_longitude locationData) r = false)
      by (intros r Hr; apply (find_none _ _ Efind r Hr)).
    split; [|split].
    + unfold db_consistent. cbn [locations aqi_logs next_id].
      split.
      { rewrite map_app. cbn [map]. apply NoDup_app_iff_snoc.
        - exact Hids.
        - intro Hin. apply in_map_iff in Hin. destruct Hin as (r & Er & Hr).
          specialize (Hlt r Hr). cbn [row_id created] in Er. lia. }
      split; [exact Hlids|].
      split.
      { intros row Hrow. apply in_app_or in Hrow. destruct Hrow as [Hrow | [E | []]].
        - specialize (Hlt row Hrow). lia.
        - subst row. cbn. lia. }
      split; [intros l Hl; specialize (Hllt l Hl); lia|].
      split.
      { intros r1 r2 H1 H2 Hsame.
        apply in_app_or in H1. apply in_app_or in H2.
        destruct H1 as [H1 | [E1 | []]], H2 as [H2 | [E2 | []]].
        - apply Hkey; assumption.
        - subst r2. rewrite same_coordinates_sym in Hsame.
          cbn [created row_latitude row_longitude] in Hsame.
          rewrite (Hnone r1 H1) in Hsame. discriminate.
        - subst r1. cbn [created row_latitude row_longitude] in Hsame.
          rewrite (Hnone r2 H2) in Hsame. discriminate.
        - congruence. }
      intros l Hl. destruct (Hfk l Hl) as (row & Hrow & Eid).
      exists row. split; [apply in_or_app; left; exact Hrow | exact Eid].
    + apply in_or_app. right. left. reflexivity.
    + cbn [next_id]. lia.
Qed.

Lemma empty_database_consistent : db_consistent empty_database.
Proof.
  unfold db_consistent, empty_database. cbn [locations aqi_logs next_id map].
  split; [constructor|]. split; [constructor|].
  split; [intros row []|]. split; [intros l []|].
  split; [intros r1 r2 []|]. intros l [].
Qed.

Lemma saved_consistent (db : Database) (r : Reading) :
  db_consistent db -> db_consistent (snd (saved db r)).
Proof.
  intro Hdb.
  destruct (location_upsert_consistent db (location r) Hdb) as (Hdb1 & Hin & Hnext).
  unfold saved, aQILog_create.
  destruct (location_upsert db (location r)) as [row db1]. cbn [fst snd] in *.
  destruct Hdb1 as (Hids & Hlids & Hlt & Hllt & Hkey & Hfk).
  unfold db_consistent. cbn [locations aqi_logs next_id].
  split; [exact Hids|].
  split.
  { rewrite map_app. cbn [map log_id]. apply NoDup_app_iff_snoc; [exact Hlids|].
    intro Hl. apply in_map_iff in Hl. destruct Hl as (l & El & Hl).
    specialize (Hllt l Hl). lia. }
  split; [intros row' Hrow; specialize (Hlt row' Hrow); lia|].
  split.
  { intros l Hl. apply in_app_or in Hl. destruct Hl as [Hl | [E | []]].
    - specialize (Hllt l Hl). lia.
    - subst l. cbn [log_id]. lia. }
  split; [exact Hkey|].
  intros l Hl. apply in_app_or in Hl. destruct Hl as [Hl | [E | []]].
  - apply Hfk. exact Hl.
  - subst l. cbn [log_locationId]. exists row. split; [exact Hin | reflexivity].
Qed.

Lemma saveAQIData_consistent (writes : WriteOutcome) (db : Database) (r : Reading) :
  db_consistent db -> db_consistent (snd (saveAQIData writes db r)).
Proof.
  intro Hdb. rewrite saveAQIData_outcomes. destruct writes; cbn [snd].
  - apply saved_consistent. exact Hdb.
  - exact Hdb.
  - apply (location_upsert_consistent db (location r) Hdb).
Qed.

(** X15.  The guarantees of the schema (distinct ids below the counter,
    coordinates a unique key of the locations, every log attached to a
    stored location) hold of the empty tables and are kept by
    [saveAQIData] and by the handler of [GET /api/aqi], whatever the
    request and the reading, and whether the database executes the
    statements of the save or refuses one. *)
Theorem tables_stay_consistent `{MathLib} `{SqlLib} (cpcbApiKey : option string)
    (db : Database) (writes : WriteOutcome) (r : Reading) (rnd : random_source)
    (now : timestamp) (query : Query) :
  db_consistent db ->
  db_consistent empty_database
  /\ db_consistent (snd (saveAQIData writes db r))
  /\ db_consistent (snd (fst (get_aqi cpcbApiKey db writes rnd now query))).
Proof.
  intro Hdb.
  split; [exact empty_database_consistent|].
  split; [apply saveAQIData_consistent; exact Hdb|].
  destruct (get_aqi_cases cpcbApiKey db writes rnd now query)
    as [(msg & E) | (la & lo & ra & E)]; rewrite E.
  - exact Hdb.
  - destruct (serve_aqi_cases cpcbApiKey db writes rnd now la lo ra)
      as [(c & _ & _ & _ & _ & _ & _ & Edb & _) | (_ & _ & Edb & _)];
      rewrite Edb; [exact Hdb | apply saveAQIData_consistent; exact Hdb].
Qed.

Lemma tables_stay_consistent_witness :
  db_consistent (snd (saveAQIData WritesSucceed empty_database mumbai_reading)).
Proof.
  pose proof empty_database_consistent as Hdb.
  exact (proj1 (proj2 (@tables_stay_consistent rational_math flat_sql None
                         empty_database WritesSucceed mumbai_reading half_noise
                         1700000000000%Z
                         {| q_lat := None; q_lng := None; q_radius := None |} Hdb))).
Defined.

(** ** The lookup of [getLatestAQI] *)

Lemma with_distances_spec `{SqlLib} (lat lng : Q) (rows : list LocationRow)
    (ds : list (LocationRow * Q)) :
  with_distances lat lng rows = Some ds ->
  forall row d, In (row, d) ds <-> In row rows /\ sql_distance lat lng row = Some d.
Proof.
  revert ds. induction rows as [|r rest IH]; intros ds; cbn [with_distances].
  - intro E. injection E as <-. intros row d. split; [intros [] | intros [[] _]].
  - destruct (sql_distance lat lng r) as [d0|] eqn:Ed; [|discriminate].
    destruct (with_distances lat lng rest) as [ds0|]; [|discriminate].
    intro E. injection E as <-. intros row d.
    specialize (IH ds0 eq_refl row d). split.
    + intros [E | Hin].
      * injection E as <- <-. split; [left; reflexivity | exact Ed].
      * apply IH in Hin. destruct Hin as [Hin Hd]. split; [right; exact Hin | exact Hd].
    + intros [[E | Hin] Hd].
      * subst r. left. congruence.
      * right. apply IH. split; assumption.
Qed.

Lemma with_distances_defined `{SqlLib} (lat lng : Q) (rows : list LocationRow) :
  (forall row, In row rows -> sql_distance lat lng row <> None) ->
  exists ds, with_distances lat lng rows = Some ds.
Proof.
  induction rows as [|r rest IH]; intro Hall; cbn [with_distances].
  - exists []. reflexivity.
  - destruct (sql_distance lat lng r) as [d0|] eqn:Ed.
    + destruct IH as (ds & Eds); [intros row Hr; apply Hall; right; exact Hr|].
      rewrite Eds. eexists. reflexivity.
    + exfalso. apply (Hall r); [left; reflexivity | exact Ed].
Qed.

Lemma nearest_row_spec (rows : list (LocationRow * Q)) (x : LocationRow * Q) :
  nearest_row rows = Some x -> In x rows /\ forall y, In y rows -> snd x <= snd y.
Proof.
  revert x. induction rows as [|a rest IH]; intros x; cbn [nearest_row]; [discriminate|].
  destruct (nearest_row rest) as [y|] eqn:Ey.
  - destruct (IH y eq_refl) as [Hy Hmin].
    destruct (Qle_bool (snd a) (snd y)) eqn:E; intro Ex; injection Ex as <-.
    + apply Qle_bool_iff in E. split; [left; reflexivity|].
      intros z [Ez | Hz]; [subst z; apply Qle_refl|].
      eapply Qle_trans; [exact E | apply Hmin; exact Hz].
    + apply Qle_bool_false in E. split; [right; exact Hy|].
      intros z [Ez | Hz]; [subst z; apply Qlt_le_weak; exact E | apply Hmin; exact Hz].
  - intro Ex. injection Ex as <-. destruct rest as [|b rest'].
    + split; [left; reflexivity|]. intros z [Ez | []]. subst z. apply Qle_refl.
    + cbn [nearest_row] in Ey. destruct (nearest_row rest') as [w|];
        [destruct (Qle_bool (snd b) (snd w))|]; discriminate.
Qed.

Lemma nearest_row_none (rows : list (LocationRow * Q)) :
  nearest_row rows = None -> rows = [].
Proof.
  destruct rows as [|a rest]; [reflexivity|]. cbn [nearest_row].
  destruct (nearest_row rest) as [y|]; [destruct (Qle_bool (snd a) (snd y))|];
    discriminate.
Qed.

Lemma latest_log_spec (logs : list AQILog) (x : AQILog) :
  latest_log logs = Some x ->
  In x logs /\ forall y, In y logs -> (log_timestamp y <= log_timestamp x)%Z.
Proof.
  revert x. induction logs as [|a rest IH]; intros x; cbn [latest_log]; [discriminate|].
  destruct (latest_log rest) as [y|] eqn:Ey.
  - destruct (IH y eq_refl) as [Hy Hmax].
    destruct (Z.leb_spec (log_timestamp y) (log_timestamp a)) as [E | E];
      intro Ex; injection Ex as <-.
    + split; [left; reflexivity|].
      intros z [Ez | Hz]; [subst z; lia | specialize (Hmax z Hz); lia].
    + split; [right; exact Hy|].
      intros z [Ez | Hz]; [subst z; lia | apply Hmax; exact Hz].
  - intro Ex. injection Ex as <-. destruct rest as [|b rest'].
    + split; [left; reflexivity|]. intros z [Ez | []]. subst z. lia.
    + cbn [latest_log] in Ey. destruct (latest_log rest') as [w|];
        [destruct (log_timestamp w <=? log_timestamp b)%Z|]; discriminate.
Qed.

(** X16.  Whatever [getLatestAQI] returns is sound: the location is a
    stored, active one within the radius, no active location within the
    radius is nearer, and the log is a stored log of that location that
    no other log of the location is newer than. *)
Theorem getLatestAQI_sound `{SqlLib} (db : Database) (lat lng radius : Q)
    (c : CachedData) :
  getLatestAQI db lat lng radius = Some c ->
  In (cd_location c) (locations db)
  /\ row_isActive (cd_location c) = true
  /\ (exists d,
        sql_distance lat lng (cd_location c) = Some d
        /\ d <= radius
        /\ forall row d', In row (locations db) -> row_isActive row = true ->
             sql_distance lat lng row = Some d' -> d' <= radius -> d <= d')
  /\ In (cd_log c) (aqi_logs db)
  /\ log_locationId (cd_log c) = row_id (cd_location c)
  /\ forall l, In l (aqi_logs db) -> log_locationId l = row_id (cd_location c) ->
       (log_timestamp l <= log_timestamp (cd_log c))%Z.
Proof.
  unfold getLatestAQI, query_nearest_location.
  destruct (with_distances lat lng (locations db)) as [ds|] eqn:Eds; [|discriminate].
  pose proof (with_distances_spec lat lng (locations db) ds Eds) as Hds.
  destruct (nearest_row _) as [[row d]|] eqn:Enear; cbn [option_map fst]; [|discriminate].
  destruct (nearest_row_spec _ _ Enear) as [Hin Hmin]. cbn [snd] in Hmin.
  apply filter_In in Hin. destruct Hin as [Hin Hok]. cbn [fst snd] in Hok.
  apply andb_true_iff in Hok. destruct Hok as [Hrad Hact].
  apply Qle_bool_iff in Hrad. apply Hds in Hin. destruct Hin as [Hrow Hd].
  destruct (latest_log _) as [log|] eqn:Elog; [|discriminate].
  destruct (latest_log_spec _ _ Elog) as [Hlog Hmax].
  apply filter_In in Hlog. destruct Hlog as [Hlog Hid]. apply Nat.eqb_eq in Hid.
  intro E. injection E as <-. cbn [cd_log cd_location].
  split; [exact Hrow|]. split; [exact Hact|].
  split.
  { exists d. split; [exact Hd|]. split; [exact Hrad|].
    intros row' d' Hrow' Hact' Hd' Hrad'.
    apply (Hmin (row', d')). apply filter_In. split.
    - apply Hds. split; assumption.
    - cbn [fst snd]. apply andb_true_iff. split; [apply Qle_bool_iff|]; assumption. }
  split; [exact Hlog|]. split; [exact Hid|].
  intros l Hl Hlid. apply Hmax. apply filter_In. split; [exact Hl|].
  apply Nat.eqb_eq. exact Hlid.
Qed.

Lemma getLatestAQI_sound_witness :
  exists c,
    @getLatestAQI flat_sql
      (snd (saveAQIData WritesSucceed empty_database mumbai_reading))
      19.0760 72.8777 10 = Some c
    /\ row_isActive (cd_location c) = true
    /\ log_locationId (cd_log c) = row_id (cd_location c).
Proof.
  destruct (@getLatestAQI flat_sql
              (snd (saveAQIData WritesSucceed empty_database mumbai_reading))
              19.0760 72.8777 10) as [c|] eqn:E; [|vm_compute in E; discriminate E].
  exists c. split; [reflexivity|].
  destruct (@getLatestAQI_sound flat_sql _ _ _ _ c E) as (_ & A & _ & _ & B & _).
  exact (conj A B).
Defined.

Lemma latest_log_unique (logs : list AQILog) (x : AQILog) :
  In x logs ->
  (forall y, In y logs -> y = x \/ (log_timestamp y < log_timestamp x)%Z) ->
  latest_log logs = Some x.
Proof.
  induction logs as [|a rest IH]; intros Hin Hstrict; [destruct Hin|].
  cbn [latest_log].
  assert (Ha : a = x \/ (log_timestamp a < log_timestamp x)%Z)
    by (apply Hstrict; left; reflexivity).
  assert (Hrest : forall y, In y rest -> y = x \/ (log_timestamp y < log_timestamp x)%Z)
    by (intros y Hy; apply Hstrict; right; exact Hy).
  destruct (latest_log rest) as [y|] eqn:Ey.
  - destruct (latest_log_spec rest y Ey) as [Hy _].
    destruct Hin as [E | Hin].
    + subst a. destruct (Hrest y Hy) as [Eyx | Hlt].
      * subst y. rewrite Z.leb_refl. reflexivity.
      * destruct (Z.leb_spec (log_timestamp y) (log_timestamp x)); [reflexivity | lia].
    + pose proof (IH Hin Hrest) as Ex.
      assert (Eyx : y = x) by congruence. subst y.
      destruct Ha as [E | Hlt].
      * subst a. rewrite Z.leb_refl. reflexivity.
      * destruct (Z.leb_spec (log_timestamp x) (log_timestamp a)); [lia | reflexivity].
  - destruct rest as [|b rest'].
    + destruct Hin as [E | []]. congruence.
    + cbn [latest_log] in Ey. destruct (latest_log rest') as [w|];
        [destruct (log_timestamp w <=? log_timestamp b)%Z|]; discriminate.
Qed.

(** The query resolves to an active location within the radius that is
    strictly nearer than every other active location, when the distance
    expression evaluates on every stored location. *)
Lemma query_nearest_location_resolves `{SqlLib} (db : Database) (lat lng radius d0 : Q)
    (row0 : LocationRow) :
  (forall row, In row (locations db) -> sql_distance lat lng row <> None) ->
  In row0 (locations db) ->
  row_isActive row0 = true ->
  sql_distance lat lng row0 = Some d0 ->
  d0 <= radius ->
  (forall row d, In row (locations db) -> row_isActive row = true ->
     sql_distance lat lng row = Some d -> row = row0 \/ d0 < d) ->
  query_nearest_location db lat lng radius = Some (Some row0).
Proof.
  intros Hdef Hin0 Hact0 Hd0 Hrad0 Hnear.
  unfold query_nearest_location.
  destruct (with_distances_defined lat lng (locations db) Hdef) as (ds & Eds).
  rewrite Eds.
  pose proof (with_distances_spec lat lng (locations db) ds Eds) as Hds.
  set (matching := filter (fun rd : LocationRow * Q =>
                             Qle_bool (snd rd) radius && row_isActive (fst rd)) ds).
  assert (Hm0 : In (row0, d0) matching).
  { apply filter_In. split; [apply Hds; split; assumption|].
    cbn [fst snd]. apply andb_true_iff. split; [apply Qle_bool_iff|]; assumption. }
  destruct (nearest_row matching) as [[r d]|] eqn:Enear.
  - destruct (nearest_row_spec _ _ Enear) as [Hin Hmin]. cbn [snd] in Hmin.
    apply filter_In in Hin. destruct Hin as [Hin Hok]. cbn [fst snd] in Hok.
    apply andb_true_iff in Hok. destruct Hok as [_ Hact].
    apply Hds in Hin. destruct Hin as [Hr Hd].
    destruct (Hnear r d Hr Hact Hd) as [E | Hlt].
    + subst r. reflexivity.
    + specialize (Hmin (row0, d0) Hm0). cbn [snd] in Hmin. lra.
  - apply nearest_row_none in Enear. rewrite Enear in Hm0. destruct Hm0.
Qed.

(** X17.  The lookup is complete for a location that stands out: when
    the distance can be computed for every stored location, an active
    location within the radius that is strictly nearer than every other
    active location is the one the query resolves to; and if one of its
    logs is strictly newer than its other logs, [getLatestAQI] returns
    that log with that location. *)
Theorem getLatestAQI_complete `{SqlLib} (db : Database) (lat lng radius d0 : Q)
    (row0 : LocationRow) (log0 : AQILog) :
  (forall row, In row (locations db) -> sql_distance lat lng row <> None) ->
  In row0 (locations db) ->
  row_isActive row0 = true ->
  sql_distance lat lng row0 = Some d0 ->
  d0 <= radius ->
  (forall row d, In row (locations db) -> row_isActive row = true ->
     sql_distance lat lng row = Some d -> row = row0 \/ d0 < d) ->
  query_nearest_location db lat lng radius = Some (Some row0)
  /\ (In log0 (aqi_logs db) -> log_locationId log0 = row_id row0 ->
      (forall l, In l (aqi_logs db) -> log_locationId l = row_id row0 ->
         l = log0 \/ (log_timestamp l < log_timestamp log0)%Z) ->
      getLatestAQI db lat lng radius
      = Some {| cd_log := log0; cd_location := row0 |}).
Proof.
  intros Hdef Hin0 Hact0 Hd0 Hrad0 Hnear.
  pose proof (query_nearest_location_resolves db lat lng radius d0 row0
                Hdef Hin0 Hact0 Hd0 Hrad0 Hnear) as Hq.
  split; [exact Hq|].
  intros Hlog Hid Hnew. unfold getLatestAQI. rewrite Hq.
  rewrite (latest_log_unique _ log0); [reflexivity | |].
  - apply filter_In. split; [exact Hlog | apply Nat.eqb_eq; exact Hid].
  - intros l Hl. apply filter_In in Hl. destruct Hl as [Hl Hlid].
    apply Nat.eqb_eq in Hlid. apply Hnew; assumption.
Qed.

(** On tables with Pune and Mumbai, both within 150 km of the request
    for Mumbai, the lookup resolves to Mumbai, at distance 0 against
    about 120 km, and returns the newer of its two logs. *)
Lemma getLatestAQI_complete_witness :
  let lat := Double.literal 19.0760 in
  let lng := Double.literal 72.8777 in
  locations two_city_tables = [pune_row; mumbai_row]
  /\ aqi_logs two_city_tables = [pune_log; mumbai_log; mumbai_later_log]
  /\ @sql_distance series_sql lat lng pune_row = Some pune_distance
  /\ 120 < pune_distance /\ pune_distance <= 150
  /\ row_isActive pune_row = true
  /\ log_locationId mumbai_log = row_id mumbai_row
  /\ (log_timestamp mumbai_log < log_timestamp mumbai_later_log)%Z
  /\ @query_nearest_location series_sql two_city_tables lat lng 150
     = Some (Some mumbai_row)
  /\ @getLatestAQI series_sql two_city_tables lat lng 150
     = Some {| cd_log := mumbai_later_log; cd_location := mumbai_row |}.
Proof.
  cbv zeta.
  assert (Erows : locations two_city_tables = [pune_row; mumbai_row]) by reflexivity.
  assert (Elogs : aqi_logs two_city_tables = [pune_log; mumbai_log; mumbai_later_log])
    by reflexivity.
  assert (Ed : @sql_distance series_sql (Double.literal 19.0760) (Double.literal 72.8777)
                 pune_row = Some pune_distance)
    by (vm_compute; reflexivity).
  assert (Ed0 : @sql_distance series_sql (Double.literal 19.0760) (Double.literal 72.8777)
                  mumbai_row = Some 0)
    by (vm_compute; reflexivity).
  assert (Hd : 120 < pune_distance /\ pune_distance <= 150)
    by (split; [vm_compute; reflexivity | vm_compute; discriminate]).
  assert (Hts : (log_timestamp mumbai_log < log_timestamp mumbai_later_log)%Z)
    by reflexivity.
  assert (Hdef : forall row, In row (locations two_city_tables) ->
                 @sql_distance series_sql (Double.literal 19.0760) (Double.literal 72.8777)
                   row <> None).
  { rewrite Erows. intros row [E | [E | []]]; subst row;
      [rewrite Ed | rewrite Ed0]; discriminate. }
  assert (Hin : In mumbai_row (locations two_city_tables))
    by (rewrite Erows; right; left; reflexivity).
  assert (Hle : 0 <= 150) by (vm_compute; discriminate).
  assert (Hnear : forall row d, In row (locations two_city_tables) ->
                  row_isActive row = true ->
                  @sql_distance series_sql (Double.literal 19.0760)
                    (Double.literal 72.8777) row = Some d ->
                  row = mumbai_row \/ 0 < d).
  { rewrite Erows. intros row d [E | [E | []]] _ Hrow; subst row;
      [right | left; reflexivity].
    rewrite Ed in Hrow. injection Hrow as <-. destruct Hd as [Hd _]. lra. }
  destruct (@getLatestAQI_complete series_sql two_city_tables
              (Double.literal 19.0760) (Double.literal 72.8777) 150 0
              mumbai_row mumbai_later_log
              Hdef Hin eq_refl Ed0 Hle Hnear) as [Hq Hget].
  split; [exact Erows|]. split; [exact Elogs|]. split; [exact Ed|].
  split; [apply Hd|]. split; [apply Hd|]. split; [reflexivity|].
  split; [reflexivity|]. split; [exact Hts|]. split; [exact Hq|].
  apply Hget.
  - rewrite Elogs. right. right. left. reflexivity.
  - reflexivity.
  - rewrite Elogs. intros l [E | [E | [E | []]]] Hl; subst l.
    + discriminate Hl.
    + right. exact Hts.
    + left. reflexivity.
Defined.

(** ** The round trip through the tables *)

Lemma Double_nearest_compat (x y : Q) : x == y -> Double.nearest x = Double.nearest y.
Proof.
  intro E. unfold Double.nearest. rewrite (Qred_complete x y E). reflexivity.
Qed.

(** The difference of two equal doubles is 0. *)
Lemma sql_sub_same (a b : Q) : a == b -> sql_sub a b = Some 0.
Proof.
  intro E. unfold sql_sub, Double.nearest. cbv zeta.
  assert (Ez : Qeq_bool (Qred (a - b)) 0 = true).
  { apply Qeq_bool_iff. rewrite Qred_correct, E. ring. }
  rewrite Ez. reflexivity.
Qed.

(** An error on one row is an error of the statement. *)
Lemma with_distances_error `{SqlLib} (lat lng : Q) (rows : list LocationRow)
    (row : LocationRow) :
  In row rows -> sql_distance lat lng row = None -> with_distances lat lng rows = None.
Proof.
  induction rows as [|r rest IH]; intros Hin Hd; [destruct Hin|].
  cbn [with_distances]. destruct Hin as [E | Hin].
  - subst r. rewrite Hd. reflexivity.
  - rewrite (IH Hin Hd). destruct (sql_distance lat lng r); reflexivity.
Qed.

(** At latitude 12 the distance of a point to itself cannot be
    computed: with the doubles of [cos] and [sin] at [radians(12)], the
    sum of the two squares rounds to the double after 1, on which
    [acos] raises its error. *)
Lemma sql_distance_rounding_error `{SqlLib} (lng : Q) (row : LocationRow) :
  (forall x y, x == y -> sql_radians x = sql_radians y) ->
  sql_cos (sql_radians 12) = cos_radians_12 ->
  sql_sin (sql_radians 12) = sin_radians_12 ->
  sql_cos 0 = 1 ->
  row_latitude row == 12 ->
  row_longitude row == lng ->
  sql_distance 12 lng row = None.
Proof.
  intros Hrad Hcos Hsin Hcos0 Hlat Hlng. unfold sql_distance.
  rewrite (Hrad (row_latitude row) 12 Hlat), (Hrad (row_longitude row) lng Hlng).
  rewrite Hcos, Hsin, (sql_sub_same (sql_radians lng) (sql_radians lng) (Qeq_refl _)).
  cbv beta iota delta [and_then]. rewrite Hcos0.
  vm_compute. reflexivity.
Qed.

(** C5 (what the code does).  A reading saved for a location at
    latitude 12 is never served again: on every later request for the
    same coordinates, however soon, the distance query raises an error
    on the stored location, [getLatestAQI] returns [null], and the
    handler calls the service and saves once more.  The SQL functions
    are any that return, at [radians(12)] and at 0, the doubles the C
    library returns. *)
Theorem stored_reading_refetched `{MathLib} `{SqlLib} (cpcbApiKey : option string)
    (db : Database) (r : Reading) (writes : WriteOutcome) (rnd : random_source)
    (now : timestamp) (radius : Q) :
  (forall x y, x == y -> sql_radians x = sql_radians y) ->
  sql_cos (sql_radians 12) = cos_radians_12 ->
  sql_sin (sql_radians 12) = sin_radians_12 ->
  sql_cos 0 = 1 ->
  loc_latitude (location r) == 12 ->
  let lng := loc_longitude (location r) in
  let db1 := snd (saveAQIData WritesSucceed db r) in
  let out := serve_aqi cpcbApiKey db1 writes rnd now 12 lng radius in
  (exists log row,
     fst (saveAQIData WritesSucceed db r) = Some log
     /\ In log (aqi_logs db1)
     /\ In row (locations db1)
     /\ log_locationId log = row_id row
     /\ log_timestamp log = aqi_lastUpdated (aqi r)
     /\ row_latitude row == 12
     /\ row_longitude row == lng)
  /\ getLatestAQI db1 12 lng radius = None
  /\ meta_source (fst (fst out)) = Some "external_api"
  /\ snd out
     = [EvGetLatestAQI 12 lng radius;
        EvFetchRealTimeAQI 12 lng radius;
        EvSaveAQIData (AQIService.fetchRealTimeAQI cpcbApiKey rnd now 12 lng radius)].
Proof.
  intros Hrad Hcos Hsin Hcos0 Hlat lng db1 out.
  pose proof (saveAQIData_outcomes WritesSucceed db r) as Esave. cbv beta iota in Esave.
  destruct (saved_log db r) as (Elogs & Elocs & Eid & _ & Ets & _).
  destruct (location_upsert_row db (location r)) as (_ & _ & _ & Rlat & Rlng).
  pose proof (location_upsert_stored db (location r)) as Hstored.
  set (row := fst (location_upsert db (location r))) in *.
  set (log := fst (saved db r)) in *.
  assert (Edb1 : db1 = snd (saved db r)) by (unfold db1; rewrite Esave; reflexivity).
  assert (Hrow : In row (locations db1)) by (rewrite Edb1, Elocs; exact Hstored).
  assert (Hdist : sql_distance 12 lng row = None).
  { apply sql_distance_rounding_error; try assumption.
    rewrite Rlat. exact Hlat. }
  assert (Hget : getLatestAQI db1 12 lng radius = None).
  { unfold getLatestAQI, query_nearest_location.
    rewrite (with_distances_error 12 lng (locations db1) row Hrow Hdist). reflexivity. }
  split.
  { exists log, row. split; [rewrite Esave; reflexivity|].
    split; [rewrite Edb1, Elogs; apply in_or_app; right; left; reflexivity|].
    split; [exact Hrow|]. split; [exact Eid|]. split; [exact Ets|].
    split; [rewrite Rlat; exact Hlat | exact Rlng]. }
  split; [exact Hget|].
  destruct (serve_aqi_cases cpcbApiKey db1 writes rnd now 12 lng radius)
    as [(c & Ec & _) | (Esrc & _ & _ & Eev & _)].
  - rewrite Hget in Ec. discriminate Ec.
  - split; [exact Esrc | exact Eev].
Qed.

Lemma series_sql_radians (x y : Q) :
  x == y -> @sql_radians series_sql x = @sql_radians series_sql y.
Proof.
  intro E. cbn [sql_radians series_sql]. unfold Double.literal at 1 3.
  rewrite (Double_nearest_compat (x * Double.literal 0.017453292519943295)
             (y * Double.literal 0.017453292519943295)); [reflexivity|].
  rewrite E. reflexivity.
Qed.

Lemma stored_reading_refetched_witness :
  let r := reading_at 1700000000000%Z 12 77.5946 in
  let db1 := snd (saveAQIData WritesSucceed empty_database r) in
  let out :=
    @serve_aqi rational_math series_sql None db1 WritesSucceed half_noise
      (1700000000000 + 5 * 60 * 1000)%Z 12 (loc_longitude (location r)) 10 in
  isDataFresh (1700000000000 + 5 * 60 * 1000)%Z (aqi_lastUpdated (aqi r)) = true
  /\ @getLatestAQI series_sql db1 12 (loc_longitude (location r)) 10 = None
  /\ meta_source (fst (fst out)) = Some "external_api".
Proof.
  cbv zeta. split; [vm_compute; reflexivity|].
  assert (Hcos : @sql_cos series_sql (@sql_radians series_sql 12) = cos_radians_12)
    by (vm_compute; reflexivity).
  assert (Hsin : @sql_sin series_sql (@sql_radians series_sql 12) = sin_radians_12)
    by (vm_compute; reflexivity).
  assert (Hcos0 : @sql_cos series_sql 0 = 1) by (vm_compute; reflexivity).
  assert (Hlat : loc_latitude (location (reading_at 1700000000000%Z 12 77.5946)) == 12)
    by (vm_compute; reflexivity).
  destruct (@stored_reading_refetched rational_math series_sql None empty_database
              (reading_at 1700000000000%Z 12 77.5946) WritesSucceed half_noise
              (1700000000000 + 5 * 60 * 1000)%Z 10
              series_sql_radians Hcos Hsin Hcos0 Hlat) as (_ & Hget & Hsrc & _).
  exact (conj Hget Hsrc).
Defined.

(** The same request sent twice, five minutes apart, on empty tables:
    for lat=12 the second answer comes from the service again and a
    second log is stored; for Mumbai it comes from the tables. *)
Lemma repeated_request :
  let twice (lat lng : string) :=
    let query := {| q_lat := Some lat; q_lng := Some lng; q_radius := None |} in
    let first :=
      @get_aqi rational_math series_sql None empty_database WritesSucceed half_noise
        1700000000000%Z query in
    let second :=
      @get_aqi rational_math series_sql None (snd (fst first)) WritesSucceed half_noise
        1700000300000%Z query in
    (meta_source (fst (fst first)), meta_source (fst (fst second)),
     List.length (aqi_logs (snd (fst second)))) in
  twice "12" "77.5946" = (Some "external_api", Some "external_api", 2%nat)
  /\ twice "19.0760" "72.8777" = (Some "external_api", Some "cache", 1%nat).
Proof.
  cbv zeta. split; vm_compute; reflexivity.
Qed.

(** X25.  Where the distance query works, the round trip holds.  Let a
    reading be saved, and let the distance expression evaluate on every
    stored location and put the location of the reading, active and
    within the radius, strictly nearer to its own coordinates than every
    other active location; let the reading be newer than the earlier
    logs of its location.  Then a request for these coordinates is
    answered from the tables, with the values of the reading and without
    a call to the service or a write, as long as the reading is at most
    60 minutes old; once it is older the service is called and a new
    reading is saved, and the old log is still stored. *)
Theorem saved_reading_served_while_fresh `{MathLib} `{SqlLib} (cpcbApiKey : option string)
    (db : Database) (r : Reading) (writes : WriteOutcome) (rnd : random_source)
    (now : timestamp) (radius d0 : Q) :
  let lat := loc_latitude (location r) in
  let lng := loc_longitude (location r) in
  let db1 := snd (saveAQIData WritesSucceed db r) in
  let row := fst (location_upsert db (location r)) in
  (forall row', In row' (locations db1) -> sql_distance lat lng row' <> None) ->
  row_isActive row = true ->
  sql_distance lat lng row = Some d0 ->
  d0 <= radius ->
  (forall row' d, In row' (locations db1) -> row_isActive row' = true ->
     sql_distance lat lng row' = Some d -> row' = row \/ d0 < d) ->
  (forall l, In l (aqi_logs db) -> log_locationId l = row_id row ->
             (log_timestamp l < aqi_lastUpdated (aqi r))%Z) ->
  let out := serve_aqi cpcbApiKey db1 writes rnd now lat lng radius in
  let response := fst (fst out) in
  let db2 := snd (fst out) in
  let events := snd out in
  exists log,
    fst (saveAQIData WritesSucceed db r) = Some log
    /\ In log (aqi_logs db1)
    /\ ((now - aqi_lastUpdated (aqi r) <= 60 * 60 * 1000)%Z ->
        status response = 200%Z
        /\ meta_source response = Some "cache"
        /\ events = [EvGetLatestAQI lat lng radius]
        /\ db2 = db1
        /\ exists body,
             data response = Some body
             /\ ba_value (b_aqi body) = aqi_value (aqi r)
             /\ ba_lastUpdated (b_aqi body) = aqi_lastUpdated (aqi r)
             /\ b_source body = source r
             /\ loc_name (b_location body) = loc_name (location r)
             /\ loc_state (b_location body) = loc_state (location r)
             /\ loc_stationType (b_location body) = loc_stationType (location r)
             /\ loc_latitude (b_location body) == lat
             /\ loc_longitude (b_location body) == lng
             /\ pm25 (b_pollutants body) = to_column (pm25 (pollutants r))
             /\ pm10 (b_pollutants body) = to_column (pm10 (pollutants r))
             /\ no2 (b_pollutants body) = to_column (no2 (pollutants r))
             /\ so2 (b_pollutants body) = to_column (so2 (pollutants r))
             /\ co (b_pollutants body) = to_column (co (pollutants r))
             /\ o3 (b_pollutants body) = to_column (o3 (pollutants r)))
    /\ ((60 * 60 * 1000 < now - aqi_lastUpdated (aqi r))%Z ->
        let freshData := AQIService.fetchRealTimeAQI cpcbApiKey rnd now lat lng radius in
        status response = 200%Z
        /\ meta_source response = Some "external_api"
        /\ events = [EvGetLatestAQI lat lng radius;
                     EvFetchRealTimeAQI lat lng radius;
                     EvSaveAQIData freshData]
        /\ db2 = snd (saveAQIData writes db1 freshData)
        /\ In log (aqi_logs db2)).
Proof.
  intros lat lng db1 row Hdef Hact Hd0 Hrad Hnear Hnew out response db2 events.
  pose proof (saveAQIData_outcomes WritesSucceed db r) as Esave. cbv beta iota in Esave.
  assert (Edb1 : db1 = snd (saved db r)) by (unfold db1; rewrite Esave; reflexivity).
  destruct (saved_log db r)
    as (Elogs & Elocs & _ & Eaqi & Ets & Esrc & E25 & E10 & Eno2 & Eso2 & Eco & Eo3).
  rewrite <- Edb1 in Elogs, Elocs.
  set (log := fst (saved db r)) in *.
  destruct (location_upsert_row db (location r)) as (Rn & Rs & Rt & Rlat & Rlng).
  fold row in Rn, Rs, Rt, Rlat, Rlng.
  assert (Hrow : In row (locations db1))
    by (rewrite Elocs; apply location_upsert_stored).
  pose proof (query_nearest_location_resolves db1 lat lng radius d0 row
                Hdef Hrow Hact Hd0 Hrad Hnear) as Hq.
  assert (Hget : getLatestAQI db1 lat lng radius
                 = Some {| cd_log := log; cd_location := row |}).
  { rewrite Edb1 in Hq |- *.
    apply (getLatestAQI_after_save db r radius Hq Hnew). }
  assert (Hin1 : In log (aqi_logs db1))
    by (rewrite Elogs; apply in_or_app; right; left; reflexivity).
  exists log. split; [rewrite Esave; reflexivity|]. split; [exact Hin1|].
  subst out response db2 events. unfold serve_aqi. rewrite Hget.
  cbn [cd_log]. rewrite Ets.
  split.
  - intro Hfresh. apply isDataFresh_iff in Hfresh. rewrite Hfresh.
    cbn [fst snd status meta_source data].
    split; [reflexivity|]. split; [reflexivity|].
    split; [reflexivity|]. split; [reflexivity|].
    eexists. split; [reflexivity|].
    unfold formatCachedAQIResponse.
    cbn [cd_log cd_location b_aqi b_location b_pollutants b_source
         ba_value ba_lastUpdated loc_name loc_state loc_stationType
         loc_latitude loc_longitude pm25 pm10 no2 so2 co o3].
    repeat (split; [assumption|]). assumption.
  - intro Hstale.
    assert (Hf : isDataFresh now (aqi_lastUpdated (aqi r)) = false).
    { destruct (isDataFresh now (aqi_lastUpdated (aqi r))) eqn:E; [|reflexivity].
      apply isDataFresh_iff in E. lia. }
    rewrite Hf. cbv zeta.
    set (freshData := AQIService.fetchRealTimeAQI cpcbApiKey rnd now lat lng radius).
    destruct (saveAQIData_growth writes db1 freshData) as (Hkeep & _).
    specialize (Hkeep log Hin1).
    destruct (saveAQIData writes db1 freshData) as [log' db'].
    cbn [fst snd status meta_source app] in *.
    repeat (split; [reflexivity|]).
    exact Hkeep.
Qed.

(** With Pune stored already, a reading saved for Mumbai is served from
    the tables five minutes later: Mumbai is at distance 0 of its own
    coordinates and Pune at about 120 km, both within a radius of
    150 km. *)
Lemma saved_reading_served_while_fresh_witness :
  let r := reading_at 1700000000000%Z 19.0760 72.8777 in
  let out :=
    @serve_aqi rational_math series_sql None
      (snd (saveAQIData WritesSucceed pune_tables r)) WritesSucceed half_noise
      (1700000000000 + 5 * 60 * 1000)%Z
      (loc_latitude (location r)) (loc_longitude (location r)) 150 in
  locations (snd (saveAQIData WritesSucceed pune_tables r)) = [pune_row; mumbai_row]
  /\ meta_source (fst (fst out)) = Some "cache"
  /\ snd (fst out) = snd (saveAQIData WritesSucceed pune_tables r).
Proof.
  cbv zeta.
  set (r := reading_at 1700000000000%Z 19.0760 72.8777).
  assert (Erows : locations (snd (saveAQIData WritesSucceed pune_tables r))
                  = [pune_row; mumbai_row])
    by (vm_compute; reflexivity).
  assert (Erow : fst (location_upsert pune_tables (location r)) = mumbai_row)
    by (vm_compute; reflexivity).
  assert (Ed : @sql_distance series_sql (loc_latitude (location r))
                 (loc_longitude (location r)) pune_row = Some pune_distance)
    by (vm_compute; reflexivity).
  assert (Ed0 : @sql_distance series_sql (loc_latitude (location r))
                  (loc_longitude (location r)) mumbai_row = Some 0)
    by (vm_compute; reflexivity).
  assert (Hd : 0 < pune_distance) by (vm_compute; reflexivity).
  assert (Hdef : forall row', In row' (locations (snd (saveAQIData WritesSucceed
                                                         pune_tables r))) ->
                 @sql_distance series_sql (loc_latitude (location r))
                   (loc_longitude (location r)) row' <> None).
  { rewrite Erows. intros row' [E | [E | []]]; subst row';
      [rewrite Ed | rewrite Ed0]; discriminate. }
  assert (Hnear : forall row' d', In row' (locations (snd (saveAQIData WritesSucceed
                                                             pune_tables r))) ->
                  row_isActive row' = true ->
                  @sql_distance series_sql (loc_latitude (location r))
                    (loc_longitude (location r)) row' = Some d' ->
                  row' = fst (location_upsert pune_tables (location r)) \/ 0 < d').
  { rewrite Erows, Erow. intros row' d' [E | [E | []]] _ Hd'; subst row';
      [right | left; reflexivity].
    rewrite Ed in Hd'. injection Hd' as <-. exact Hd. }
  assert (Hnew : forall l, In l (aqi_logs pune_tables) ->
                 log_locationId l = row_id (fst (location_upsert pune_tables (location r))) ->
                 (log_timestamp l < aqi_lastUpdated (aqi r))%Z).
  { rewrite Erow. intros l [E | []] Hid. subst l. discriminate Hid. }
  assert (Hact : row_isActive (fst (location_upsert pune_tables (location r))) = true)
    by (rewrite Erow; reflexivity).
  assert (Ed0' : @sql_distance series_sql (loc_latitude (location r))
                   (loc_longitude (location r))
                   (fst (location_upsert pune_tables (location r))) = Some 0)
    by (rewrite Erow; exact Ed0).
  assert (Hle : 0 <= 150) by (vm_compute; discriminate).
  assert (Hfresh : ((1700000000000 + 5 * 60 * 1000) - aqi_lastUpdated (aqi r)
                    <= 60 * 60 * 1000)%Z)
    by (vm_compute; discriminate).
  destruct (@saved_reading_served_while_fresh rational_math series_sql None pune_tables r
              WritesSucceed half_noise (1700000000000 + 5 * 60 * 1000)%Z 150 0
              Hdef Hact Ed0' Hle Hnear Hnew)
    as (log & _ & _ & Hhit & _).
  destruct (Hhit Hfresh) as (_ & Hsrc & _ & Hdb & _).
  split; [exact Erows|]. exact (conj Hsrc Hdb).
Defined.

(** ** The nearest reference city *)



(** ** The most common category *)

Lemma count_of_increment (acc : counts_object) (category key : string) :
  count_of (increment acc category) key
  = (count_of acc key + if String.eqb category key then 1 else 0)%Z.
Proof.
  induction acc as [|[k n] rest IH]; cbn [increment count_of].
  - destruct (String.eqb category key); lia.
  - destruct (String.eqb_spec k category) as [Ekc | Ekc]; cbn [count_of].
    + subst k. destruct (String.eqb category key); lia.
    + destruct (String.eqb_spec k key) as [Ekk | Ekk].
      * subst k. destruct (String.eqb_spec category key); [congruence | lia].
      * exact IH.
Qed.

Lemma keys_increment (acc : counts_object) (category key : string) :
  In key (map fst (increment acc category))
  <-> In key (map fst acc) \/ key = category.
Proof.
  induction acc as [|[k n] rest IH]; cbn [increment map fst In].
  - split; [intros [E | []]; right; congruence | intros [[] | E]; left; congruence].
  - destruct (String.eqb_spec k category) as [Ekc | Ekc]; cbn [map fst In].
    + subst k. split; [intros [E | H]; auto | intros [[E | H] | E]; auto].
    + rewrite IH. split; [intros [E | [H | E]]; auto | intros [[E | H] | E]; auto].
Qed.

Lemma count_categories_spec (categories : list string) (key : string) :
  count_of (count_categories categories) key
  = Z.of_nat (count_occ string_dec categories key)
  /\ (In key (map fst (count_categories categories)) <-> In key categories).
Proof.
  unfold count_categories.
  assert (G : forall acc,
             count_of (fold_left increment categories acc) key
             = (count_of acc key + Z.of_nat (count_occ string_dec categories key))%Z
             /\ (In key (map fst (fold_left increment categories acc))
                 <-> In key (map fst acc) \/ In key categories)).
  { induction categories as [|c rest IH]; intro acc; cbn [fold_left count_occ].
    - split; [lia | split; [auto | intros [H | []]; exact H]].
    - destruct (IH (increment acc c)) as [IHc IHk].
      rewrite IHc, count_of_increment, IHk, keys_increment.
      split.
      + destruct (string_dec c key) as [E | E].
        * subst c. rewrite String.eqb_refl. lia.
        * destruct (String.eqb_spec c key); [congruence | lia].
      + cbn [In]. split; [intros [[H | E] | H]; auto | intros [H | [E | H]]; auto]. }
  destruct (G []) as [Gc Gk]. cbn [count_of map] in Gc, Gk.
  split; [rewrite Gc; lia|].
  rewrite Gk. split; [intros [[] | H]; exact H | auto].
Qed.

Lemma most_counted_loop (cnt : string -> Z) (keys : list string) (first : string) :
  let out := fold_left (fun a b => if (cnt b <? cnt a)%Z then a else b) keys first in
  In out (first :: keys)
  /\ forall k, In k (first :: keys) -> (cnt k <= cnt out)%Z.
Proof.
  revert first. induction keys as [|b rest IH]; intro first; cbn [fold_left].
  - split; [left; reflexivity|]. intros k [E | []]. subst k. lia.
  - destruct (Z.ltb_spec (cnt b) (cnt first)) as [E | E].
    + destruct (IH first) as [Hin Hmax]. cbv zeta in *. split.
      * destruct Hin as [H | H]; [left; exact H | right; right; exact H].
      * intros k [Ek | [Ek | Hk]].
        -- apply Hmax. left. exact Ek.
        -- subst k. specialize (Hmax first (or_introl eq_refl)). lia.
        -- apply Hmax. right. exact Hk.
    + destruct (IH b) as [Hin Hmax]. cbv zeta in *. split.
      * right. exact Hin.
      * intros k [Ek | [Ek | Hk]].
        -- subst k. specialize (Hmax b (or_introl eq_refl)). lia.
        -- apply Hmax. left. exact Ek.
        -- apply Hmax. right. exact Hk.
Qed.

(** X19.  On an empty list [getMostCommonCategory] of
    [databaseService.js] returns 'Unknown' while the one of
    [forecast.js] throws.  On a non-empty list of category labels both
    return the same label, one that occurs in the list and that no
    other label occurs more often than. *)
Theorem getMostCommonCategory_most_common (categories : list string) :
  Forall (fun c => In c category_labels) categories ->
  getMostCommonCategory_database [] = Some "Unknown"
  /\ getMostCommonCategory_forecast [] = None
  /\ (categories <> [] ->
      exists winner,
        getMostCommonCategory_database categories = Some winner
        /\ getMostCommonCategory_forecast categories = Some winner
        /\ In winner categories
        /\ forall c, (count_occ string_dec categories c
                      <= count_occ string_dec categories winner)%nat).
Proof.
  intros _. split; [reflexivity|]. split; [reflexivity|].
  intro Hne.
  assert (Edb : getMostCommonCategory_database categories
                = getMostCommonCategory_forecast categories)
    by (destruct categories; [congruence | reflexivity]).
  rewrite Edb. unfold getMostCommonCategory_forecast, most_counted.
  set (counts := count_categories categories).
  destruct (map fst counts) as [|first keys] eqn:Ekeys.
  - exfalso. destruct categories as [|c rest]; [congruence|].
    assert (Hin : In c (map fst counts))
      by (apply (count_categories_spec (c :: rest) c); left; reflexivity).
    rewrite Ekeys in Hin. destruct Hin.
  - destruct (most_counted_loop (count_of counts) keys first) as [Hin Hmax].
    cbv zeta in Hin, Hmax.
    set (winner := fold_left _ keys first) in *.
    exists winner. split; [reflexivity|]. split; [reflexivity|].
    rewrite <- Ekeys in Hin, Hmax.
    split; [apply (count_categories_spec categories winner); exact Hin|].
    intro c.
    destruct (in_dec string_dec c categories) as [Hc | Hc].
    + assert (Hk : In c (map fst counts))
        by (apply (count_categories_spec categories c); exact Hc).
      specialize (Hmax c Hk).
      destruct (count_categories_spec categories c) as [Ec _].
      destruct (count_categories_spec categories winner) as [Ew _].
      fold counts in Ec, Ew. lia.
    + rewrite (proj1 (count_occ_not_In string_dec categories c) Hc). lia.
Qed.

Lemma getMostCommonCategory_most_common_witness :
  exists winner,
    getMostCommonCategory_forecast ["Poor"; "Good"; "Poor"] = Some winner
    /\ In winner ["Poor"; "Good"; "Poor"].
Proof.
  assert (Hl : Forall (fun c => In c category_labels) ["Poor"; "Good"; "Poor"]).
  { repeat (apply Forall_cons; [cbn; tauto|]). apply Forall_nil. }
  assert (Hne : ["Poor"; "Good"; "Poor"] <> @nil string) by discriminate.
  destruct (getMostCommonCategory_most_common ["Poor"; "Good"; "Poor"] Hl)
    as (_ & _ & H).
  destruct (H Hne) as (winner & _ & Ef & Hin & _).
  exists winner. split; [exact Ef | exact Hin].
Defined.

(** ** The forecast summary *)

Lemma fold_left_max_spec (rest : list Z) (v : Z) :
  let m := fold_left Z.max rest v in
  In m (v :: rest) /\ forall x, In x (v :: rest) -> (x <= m)%Z.
Proof.
  revert v. induction rest as [|a l IH]; intro v; cbn [fold_left].
  - split; [left; reflexivity|]. intros x [E | []]. subst x. lia.
  - destruct (IH (Z.max v a)) as [Hin Hmax]. cbv zeta in *. split.
    + destruct Hin as [E | Hin]; [|right; right; exact Hin].
      rewrite <- E. destruct (Z.max_spec v a) as [[_ Em] | [_ Em]]; rewrite Em;
        [right; left | left]; reflexivity.
    + intros x [E | [E | Hx]].
      * subst x. specialize (Hmax (Z.max v a) (or_introl eq_refl)). lia.
      * subst x. specialize (Hmax (Z.max v a) (or_introl eq_refl)). lia.
      * apply Hmax. right. exact Hx.
Qed.

Lemma fold_left_min_spec (rest : list Z) (v : Z) :
  let m := fold_left Z.min rest v in
  In m (v :: rest) /\ forall x, In x (v :: rest) -> (m <= x)%Z.
Proof.
  revert v. induction rest as [|a l IH]; intro v; cbn [fold_left].
  - split; [left; reflexivity|]. intros x [E | []]. subst x. lia.
  - destruct (IH (Z.min v a)) as [Hin Hmin]. cbv zeta in *. split.
    + destruct Hin as [E | Hin]; [|right; right; exact Hin].
      rewrite <- E. destruct (Z.min_spec v a) as [[_ Em] | [_ Em]]; rewrite Em;
        [left | right; left]; reflexivity.
    + intros x [E | [E | Hx]].
      * subst x. specialize (Hmin (Z.min v a) (or_introl eq_refl)). lia.
      * subst x. specialize (Hmin (Z.min v a) (or_introl eq_refl)). lia.
      * apply Hmin. right. exact Hx.
Qed.

Lemma sum_values_bounds (values : list Z) (lo hi : Z) :
  (forall x, In x values -> (lo <= x <= hi)%Z) ->
  (Z.of_nat (List.length values) * lo <= sum_values values
   <= Z.of_nat (List.length values) * hi)%Z.
Proof.
  unfold sum_values.
  assert (G : forall acc,
             (forall x, In x values -> (lo <= x <= hi)%Z) ->
             (acc + Z.of_nat (List.length values) * lo
              <= fold_left Z.add values acc
              <= acc + Z.of_nat (List.length values) * hi)%Z).
  { induction values as [|v rest IH]; intros acc Hall; cbn [fold_left List.length].
    - lia.
    - assert (Hv : (lo <= v <= hi)%Z) by (apply Hall; left; reflexivity).
      specialize (IH (acc + v)%Z (fun x Hx => Hall x (or_intror Hx))).
      lia. }
  intro Hall. specialize (G 0%Z Hall). lia.
Qed.

Lemma average_between (values : list Z) (lo hi : Z) :
  values <> [] ->
  (forall x, In x values -> (lo <= x <= hi)%Z) ->
  (lo <= Math_round (inject_Z (sum_values values)
                     / inject_Z (Z.of_nat (List.length values))) <= hi)%Z.
Proof.
  intros Hne Hall.
  pose proof (sum_values_bounds values lo hi Hall) as [Hlo Hhi].
  set (n := Z.of_nat (List.length values)) in *.
  assert (Hn : (0 < n)%Z) by (unfold n; destruct values; [congruence | cbn; lia]).
  assert (Hnq : 0 < inject_Z n).
  { change 0 with (inject_Z 0). rewrite <- Zlt_Qlt. exact Hn. }
  split.
  - apply Math_round_ge. apply Qle_shift_div_l; [exact Hnq|].
    rewrite <- inject_Z_mult, <- Zle_Qle. lia.
  - apply Math_round_le. apply Qle_shift_div_r; [exact Hnq|].
    rewrite <- inject_Z_mult, <- Zle_Qle. lia.
Qed.

(** X20.  The summary of a non-empty forecast reports, as least and
    greatest index, values that points of the forecast have and that
    bound the index of every point, and an average index that lies
    between the two. *)
Theorem calculateForecastSummary_bounds (getHours : timestamp -> Z)
    (forecasts : list ForecastPoint) :
  forecasts <> [] ->
  exists summary,
    calculateForecastSummary getHours forecasts = Some summary
    /\ (minAqi summary <= avgAqi summary <= maxAqi summary)%Z
    /\ (exists p, In p forecasts /\ predictedAqi p = minAqi summary)
    /\ (exists p, In p forecasts /\ predictedAqi p = maxAqi summary)
    /\ forall p, In p forecasts ->
         (minAqi summary <= predictedAqi p <= maxAqi summary)%Z.
Proof.
  intro Hne. destruct forecasts as [|p0 rest]; [congruence|].
  eexists. split; [reflexivity|].
  cbn [avgAqi maxAqi minAqi].
  set (values := map predictedAqi (p0 :: rest)).
  assert (Ev : values = predictedAqi p0 :: map predictedAqi rest) by reflexivity.
  destruct (fold_left_max_spec (map predictedAqi rest) (predictedAqi p0))
    as [Hmaxin Hmax].
  destruct (fold_left_min_spec (map predictedAqi rest) (predictedAqi p0))
    as [Hminin Hmin].
  cbv zeta in Hmaxin, Hmax, Hminin, Hmin.
  assert (Emax : max_of values = fold_left Z.max (map predictedAqi rest) (predictedAqi p0))
    by (rewrite Ev; reflexivity).
  assert (Emin : min_of values = fold_left Z.min (map predictedAqi rest) (predictedAqi p0))
    by (rewrite Ev; reflexivity).
  rewrite <- Emax in Hmaxin, Hmax. rewrite <- Emin in Hminin, Hmin.
  rewrite <- Ev in Hmaxin, Hmax, Hminin, Hmin.
  assert (Hall : forall x, In x values -> (min_of values <= x <= max_of values)%Z).
  { intros x Hx. split; [apply Hmin | apply Hmax]; exact Hx. }
  split.
  { apply average_between; [rewrite Ev; discriminate | exact Hall]. }
  split.
  { apply in_map_iff in Hminin. destruct Hminin as (p & Ep & Hp). exists p. auto. }
  split.
  { apply in_map_iff in Hmaxin. destruct Hmaxin as (p & Ep & Hp). exists p. auto. }
  intros p Hp. apply Hall. apply in_map. exact Hp.
Qed.

Lemma calculateForecastSummary_bounds_witness :
  exists summary,
    calculateForecastSummary (fun _ => 0%Z)
      (forecast (@getMockForecastData rational_math half_noise 1700000000000%Z
                   19.0760 72.8777 3)) = Some summary
    /\ (minAqi summary <= avgAqi summary <= maxAqi summary)%Z.
Proof.
  assert (Hne : forecast (@getMockForecastData rational_math half_noise
                            1700000000000%Z 19.0760 72.8777 3) <> [])
    by (vm_compute; discriminate).
  destruct (calculateForecastSummary_bounds (fun _ => 0%Z) _ Hne)
    as (summary & E & B & _).
  exists summary. split; [exact E | exact B].
Defined.

(** X21.  For a forecast of one, two or three points the first quarter
    is empty, its average is not a number, and the summary reports the
    trend 'stable' with a trend change that is not a number, whatever
    the predicted values are. *)
Theorem calculateForecastSummary_short_is_stable (getHours : timestamp -> Z)
    (forecasts : list ForecastPoint) :
  (1 <= List.length forecasts < 4)%nat ->
  exists summary,
    calculateForecastSummary getHours forecasts = Some summary
    /\ trend summary = "stable"
    /\ trendChange summary = None.
Proof.
  intro Hlen.
  destruct forecasts as [|p1 [|p2 [|p3 [|p4 rest]]]]; cbn [List.length] in Hlen;
    try lia; (eexists; split; [reflexivity|]); split; reflexivity.
Qed.

Lemma calculateForecastSummary_short_is_stable_witness :
  exists summary,
    calculateForecastSummary (fun _ => 0%Z)
      [mkForecastPoint 0%Z 1%Z 50%Z 0.7 "Good" None;
       mkForecastPoint 0%Z 2%Z 450%Z 0.6 "Severe" None] = Some summary
    /\ trend summary = "stable".
Proof.
  destruct (calculateForecastSummary_short_is_stable (fun _ => 0%Z)
              [mkForecastPoint 0%Z 1%Z 50%Z 0.7 "Good" None;
               mkForecastPoint 0%Z 2%Z 450%Z 0.6 "Severe" None])
    as (summary & E & T & _); [cbn; lia|].
  exists summary. split; [exact E | exact T].
Defined.

Lemma distinct_In (values : list Z) (x : Z) : In x (distinct values) <-> In x values.
Proof.
  induction values as [|v rest IH]; cbn [distinct In]; [reflexivity|].
  rewrite filter_In, IH. split.
  - intros [E | [H _]]; auto.
  - intros [E | H]; [left; exact E|].
    destruct (Z.eq_dec x v) as [Exv | Exv]; [left; congruence|].
    right. split; [exact H|]. apply negb_true_iff, Z.eqb_neq. exact Exv.
Qed.

Lemma distinct_NoDup (values : list Z) : NoDup (distinct values).
Proof.
  induction values as [|v rest IH]; cbn [distinct]; constructor.
  - intro Hin. apply filter_In in Hin. destruct Hin as [_ Hne].
    apply negb_true_iff, Z.eqb_neq in Hne. congruence.
  - apply NoDup_filter. exact IH.
Qed.

Lemma insert_by_text_In (v : Z) (sorted : list Z) (x : Z) :
  In x (insert_by_text v sorted) <-> x = v \/ In x sorted.
Proof.
  induction sorted as [|a rest IH]; cbn [insert_by_text In].
  - split; [intros [E | []]; left; congruence | intros [E | []]; left; congruence].
  - destruct (String.leb (number_text v) (number_text a)); cbn [In].
    + split; [intros [E | H]; [left; congruence | right; exact H]
             | intros [E | H]; [left; congruence | right; exact H]].
    + rewrite IH. split; [intros [E | [E | H]]; auto | intros [E | [E | H]]; auto].
Qed.

Lemma insert_by_text_NoDup (v : Z) (sorted : list Z) :
  NoDup sorted -> ~ In v sorted -> NoDup (insert_by_text v sorted).
Proof.
  induction sorted as [|a rest IH]; intros Hnd Hv; cbn [insert_by_text].
  - constructor; [intros [] | constructor].
  - destruct (String.leb (number_text v) (number_text a)).
    + constructor; assumption.
    + inversion Hnd as [|b bs Hnotin Hrest]; subst. constructor.
      * intro Hin. apply insert_by_text_In in Hin. destruct Hin as [E | Hin].
        -- apply Hv. left. exact E.
        -- exact (Hnotin Hin).
      * apply IH; [exact Hrest|]. intro Hin. apply Hv. right. exact Hin.
Qed.

Lemma insert_by_text_Sorted (v : Z) (sorted : list Z) :
  Sorted text_le sorted -> Sorted text_le (insert_by_text v sorted).
Proof.
  induction sorted as [|a rest IH]; intro Hs; cbn [insert_by_text].
  - constructor; constructor.
  - destruct (String.leb (number_text v) (number_text a)) eqn:E.
    + constructor; [exact Hs | constructor; exact E].
    + inversion Hs as [|b bs Hrest Hhd]; subst.
      assert (Hav : text_le a v).
      { unfold text_le. destruct (String.leb_total (number_text a) (number_text v))
          as [H | H]; [exact H | congruence]. }
      constructor; [apply IH; exact Hrest|].
      destruct rest as [|c rest']; cbn [insert_by_text].
      * constructor. exact Hav.
      * destruct (String.leb (number_text v) (number_text c)).
        -- constructor. exact Hav.
        -- inversion Hhd; subst. constructor. assumption.
Qed.

Lemma sort_by_text_spec (values : list Z) :
  (forall x, In x (sort_by_text values) <-> In x values)
  /\ (NoDup values -> NoDup (sort_by_text values))
  /\ Sorted text_le (sort_by_text values).
Proof.
  induction values as [|v rest (IHin & IHnd & IHs)]; cbn [sort_by_text fold_right].
  - split; [reflexivity|]. split; [auto | constructor].
  - fold (sort_by_text rest). split; [|split].
    + intro x. rewrite insert_by_text_In, IHin. cbn [In].
      split; [intros [E | H]; auto | intros [E | H]; auto].
    + intro Hnd. inversion Hnd as [|b bs Hnotin Hrest]; subst.
      apply insert_by_text_NoDup; [apply IHnd; exact Hrest|].
      rewrite IHin. exact Hnotin.
    + apply insert_by_text_Sorted. exact IHs.
Qed.

(** X22.  The peak hours of the summary are exactly the hours of the
    points whose predicted index is above 150, each once, in the order
    of their decimal texts rather than of their values: '10' comes
    before '9'. *)
Theorem calculateForecastSummary_peak_hours (getHours : timestamp -> Z)
    (forecasts : list ForecastPoint) (summary : Summary) :
  calculateForecastSummary getHours forecasts = Some summary ->
  (forall h, In h (peakPollutionHours summary) <->
             exists p, In p forecasts /\ (150 < predictedAqi p)%Z
                       /\ getHours (fp_timestamp p) = h)
  /\ NoDup (peakPollutionHours summary)
  /\ Sorted text_le (peakPollutionHours summary)
  /\ text_le 10 9.
Proof.
  destruct forecasts as [|p0 rest]; [discriminate|].
  intro E.
  pose proof (Some_eq_via peakPollutionHours _ _ E) as Hp.
  cbn [peakPollutionHours] in Hp. rewrite <- Hp.
  set (peakHours := map (fun f => getHours (fp_timestamp f))
                        (filter (fun f => (150 <? predictedAqi f)%Z) (p0 :: rest))).
  destruct (sort_by_text_spec (distinct peakHours)) as (Hin & Hnd & Hs).
  split.
  { intro h. rewrite Hin, distinct_In. unfold peakHours. rewrite in_map_iff. split.
    - intros (p & Eh & Hpf). apply filter_In in Hpf. destruct Hpf as [Hpin Hgt].
      apply Z.ltb_lt in Hgt. exists p. auto.
    - intros (p & Hpin & Hgt & Eh). exists p. split; [exact Eh|].
      apply filter_In. split; [exact Hpin | apply Z.ltb_lt; exact Hgt]. }
  split; [apply Hnd, distinct_NoDup|].
  split; [exact Hs | reflexivity].
Qed.

Lemma calculateForecastSummary_peak_hours_witness :
  exists summary,
    calculateForecastSummary (fun t => (t / 3600000) mod 24)%Z
      [mkForecastPoint 32400000%Z 1%Z 180%Z 0.7 "Moderate" None;
       mkForecastPoint 36000000%Z 2%Z 190%Z 0.6 "Moderate" None] = Some summary
    /\ NoDup (peakPollutionHours summary)
    /\ peakPollutionHours summary = [10%Z; 9%Z].
Proof.
  eexists. split; [reflexivity|].
  split; [|vm_compute; reflexivity].
  exact (proj1 (proj2 (calculateForecastSummary_peak_hours
                         (fun t => (t / 3600000) mod 24)%Z
                         [mkForecastPoint 32400000%Z 1%Z 180%Z 0.7 "Moderate" None;
                          mkForecastPoint 36000000%Z 2%Z 190%Z 0.6 "Moderate" None]
                         _ eq_refl))).
Defined.

(** ** Concentration bands and categories *)

Lemma calculateSubIndex_segment (table : list breakpoint) (bp : breakpoint) (c : Q) :
  well_formed table -> In bp table ->
  cLow bp < c -> c <= cHigh bp ->
  iLow bp <= calculateSubIndex (Num c) table <= iHigh bp.
Proof.
  induction table as [|e rest IH]; intros Hwf Hin Hlow Hhigh; [destruct Hin|].
  pose proof Hwf as (Hc & Hi & _ & Hnext & Hrest).
  rewrite calculateSubIndex_cons.
  destruct Hin as [E | Hin].
  - subst e.
    assert (E1 : Qle_bool (cLow bp) c = true) by (apply Qle_bool_iff; lra).
    assert (E2 : Qle_bool c (cHigh bp) = true) by (apply Qle_bool_iff; exact Hhigh).
    rewrite E1, E2. cbn [andb].
    assert (L : 0 <= (iHigh bp - iLow bp) / (cHigh bp - cLow bp) * (c - cLow bp))
      by (apply segment_lower; lra).
    assert (U : (iHigh bp - iLow bp) / (cHigh bp - cLow bp) * (c - cLow bp)
                <= iHigh bp - iLow bp)
      by (apply segment_upper; lra).
    split; lra.
  - destruct rest as [|next rest']; [destruct Hin|].
    destruct Hnext as [Hjoin _].
    pose proof (well_formed_low_le (next :: rest') bp Hrest Hin) as Hle.
    cbn [range_low] in Hle.
    assert (E2 : Qle_bool c (cHigh e) = false) by (apply Qle_bool_false; lra).
    rewrite E2, andb_false_r.
    apply IH; assumption.
Qed.

(** The index bands of the three tables are the six buckets. *)
Lemma converter_bands (table : list breakpoint) (bp : breakpoint) :
  In table converter_tables -> In bp table ->
  exists lo hi : Z,
    iLow bp = inject_Z lo /\ iHigh bp = inject_Z hi
    /\ (0 <= lo <= hi)%Z
    /\ forall r, (Z.max 1 lo <= r <= hi)%Z -> scale r = scale hi.
Proof.
  assert (B : forall lo hi : Z,
             In (lo, hi) [(0, 50); (51, 100); (101, 200); (201, 300);
                          (301, 400); (401, 500)]%Z ->
             (0 <= lo <= hi)%Z
             /\ forall r, (Z.max 1 lo <= r <= hi)%Z -> scale r = scale hi).
  { intros lo hi Hin. cbn [In] in Hin.
    repeat (destruct Hin as [Hin | Hin];
            [injection Hin as <- <-; split; [lia|];
             intros r Hr; unfold scale; settle_leb; reflexivity|]).
    destruct Hin. }
  intros Htable Hbp.
  assert (Hb : In (Qnum (iLow bp), Qnum (iHigh bp))
                  [(0, 50); (51, 100); (101, 200); (201, 300); (301, 400); (401, 500)]%Z
               /\ Qden (iLow bp) = 1%positive /\ Qden (iHigh bp) = 1%positive).
  { destruct Htable as [E | [E | [E | []]]]; subst table;
      cbn [In pm25_breakpoints pm10_breakpoints no2_breakpoints] in Hbp;
      repeat (destruct Hbp as [Hbp | Hbp]; [subst bp; cbn; tauto|]);
      destruct Hbp. }
  destruct Hb as (Hin & D1 & D2).
  exists (Qnum (iLow bp)), (Qnum (iHigh bp)).
  destruct (B _ _ Hin) as [Hle Hscale].
  split; [destruct (iLow bp) as [n d]; cbn in *; subst d; reflexivity|].
  split; [destruct (iHigh bp) as [n d]; cbn in *; subst d; reflexivity|].
  split; assumption.
Qed.

(** X23.  When PM2.5, PM10 or NO2 is the only pollutant reported and its
    concentration lies in a segment of its table (above the lower and up
    to the upper bound), the index lies in the index range of that
    segment, raised to 1 at the bottom, and therefore in the bucket of
    the scale that this range is. *)
Theorem sole_pollutant_band (bp : breakpoint) (c : Q) (so2 co o3 : jsval) :
  cLow bp < c -> c <= cHigh bp ->
  forall lo hi : Z, iLow bp = inject_Z lo -> iHigh bp = inject_Z hi ->
  (In bp pm25_breakpoints ->
     (Z.max 1 lo <= convertToIndianAQI (Num c) Undefined Undefined so2 co o3 <= hi)%Z
     /\ scale (convertToIndianAQI (Num c) Undefined Undefined so2 co o3) = scale hi)
  /\ (In bp pm10_breakpoints ->
      (Z.max 1 lo <= convertToIndianAQI Undefined (Num c) Undefined so2 co o3 <= hi)%Z
      /\ scale (convertToIndianAQI Undefined (Num c) Undefined so2 co o3) = scale hi)
  /\ (In bp no2_breakpoints ->
      (Z.max 1 lo <= convertToIndianAQI Undefined Undefined (Num c) so2 co o3 <= hi)%Z
      /\ scale (convertToIndianAQI Undefined Undefined (Num c) so2 co o3) = scale hi).
Proof.
  intros Hlow Hhigh lo hi Elo Ehi.
  assert (G : forall table, In table converter_tables -> In bp table ->
              (Z.max 1 lo <= Math_round (Math_max [calculateSubIndex (Num c) table] 1)
               <= hi)%Z
              /\ scale (Math_round (Math_max [calculateSubIndex (Num c) table] 1))
                 = scale hi).
  { intros table Htable Hbp.
    destruct (calculateSubIndex_segment table bp c
                (converter_tables_well_formed table Htable) Hbp Hlow Hhigh) as [L U].
    destruct (converter_bands table bp Htable Hbp)
      as (lo' & hi' & Elo' & Ehi' & Hle & Hscale).
    assert (lo' = lo) by (apply inject_Z_injective; rewrite <- Elo, <- Elo'; reflexivity).
    assert (hi' = hi) by (apply inject_Z_injective; rewrite <- Ehi, <- Ehi'; reflexivity).
    subst lo' hi'. rewrite Elo in L. rewrite Ehi in U.
    cbn [Math_max].
    assert (R : (Z.max 1 lo <= Math_round (Qmax (calculateSubIndex (Num c) table) 1)
                 <= hi)%Z).
    { split.
      - apply Z.max_lub.
        + apply Math_round_ge. apply Q.le_max_r.
        + apply Math_round_ge. eapply Qle_trans; [exact L | apply Q.le_max_l].
      - apply Math_round_le. apply Q.max_lub; [exact U|].
        assert (H1 : (1 <= hi)%Z).
        { assert (Hs := Hscale). 
          destruct (Z.eq_dec hi 0) as [E0 | E0]; [|lia].
          exfalso. subst hi.
          assert (Ein : In (iLow bp, iHigh bp) (map (fun b => (iLow b, iHigh b)) table))
            by (apply in_map_iff; exists bp; auto).
          destruct Htable as [E | [E | [E | []]]]; subst table;
            cbn [map In pm25_breakpoints pm10_breakpoints no2_breakpoints
                 iLow iHigh] in Ein;
            repeat (destruct Ein as [Ein | Ein];
                    [injection Ein as _ Eh; rewrite Ehi in Eh; discriminate Eh|]);
            destruct Ein. }
        change 1 with (inject_Z 1). rewrite <- Zle_Qle. exact H1. }
    split; [exact R | apply Hscale; exact R]. }
  unfold convertToIndianAQI. rewrite !aqiValues_parts.
  rewrite !(sub_index_of_defined (Num c)) by reflexivity.
  change (sub_index_of Undefined pm25_breakpoints) with (@nil Q).
  change (sub_index_of Undefined pm10_breakpoints) with (@nil Q).
  change (sub_index_of Undefined no2_breakpoints) with (@nil Q).
  cbn [app].
  split; [|split]; intro Hbp; apply G; try exact Hbp; cbn; auto.
Qed.

Lemma sole_pollutant_band_witness :
  (101 <= convertToIndianAQI (Num 75) Undefined Undefined Undefined Undefined Undefined
   <= 200)%Z
  /\ scale (convertToIndianAQI (Num 75) Undefined Undefined Undefined Undefined Undefined)
     = scale 200%Z.
Proof.
  assert (Hlow : cLow (mkBp 60 90 101 200) < 75) by (unfold Qlt; simpl; lia).
  assert (Hhigh : 75 <= cHigh (mkBp 60 90 101 200)) by (unfold Qle; simpl; lia).
  assert (Hin : In (mkBp 60 90 101 200) pm25_breakpoints)
    by (right; right; left; reflexivity).
  exact (proj1 (sole_pollutant_band (mkBp 60 90 101 200) 75 Undefined Undefined Undefined
                  Hlow Hhigh 101%Z 200%Z eq_refl eq_refl) Hin).
Defined.

(** ** The forecast handler after validation *)

Lemma confidence_sum_bounds (forecasts : list ForecastPoint) (lo hi : Q) :
  (forall p, In p forecasts -> lo <= confidence_or_default (confidence p) <= hi) ->
  inject_Z (Z.of_nat (List.length forecasts)) * lo
  <= fold_left (fun sum f => sum + confidence_or_default (confidence f)) forecasts 0
  <= inject_Z (Z.of_nat (List.length forecasts)) * hi.
Proof.
  assert (G : forall acc,
             (forall p, In p forecasts ->
                lo <= confidence_or_default (confidence p) <= hi) ->
             acc + inject_Z (Z.of_nat (List.length forecasts)) * lo
             <= fold_left (fun sum f => sum + confidence_or_default (confidence f))
                          forecasts acc
             <= acc + inject_Z (Z.of_nat (List.length forecasts)) * hi).
  { induction forecasts as [|p rest IH]; intros acc Hall; cbn [fold_left List.length].
    - change (inject_Z (Z.of_nat 0)) with 0. split; lra.
    - assert (Hp : lo <= confidence_or_default (confidence p) <= hi)
        by (apply Hall; left; reflexivity).
      specialize (IH (acc + confidence_or_default (confidence p))
                     (fun x Hx => Hall x (or_intror Hx))).
      rewrite Nat2Z.inj_succ. unfold Z.succ. rewrite inject_Z_plus.
      change (inject_Z 1) with 1. split; lra. }
  intro Hall. specialize (G 0 Hall). split; lra.
Qed.

Lemma confidence_or_default_positive (c : Q) : 0 < c -> confidence_or_default c = c.
Proof.
  intro Hc. unfold confidence_or_default.
  destruct (Qeq_bool c 0) eqn:E; [|reflexivity].
  apply Qeq_bool_eq in E. lra.
Qed.

Lemma fetchForecastData_confidence `{MathLib}
    (cfg : Config) (w : World) (rnd : random_source) (now : timestamp)
    (lat lng : Q) (h : Z) (p : ForecastPoint) :
  (1 <= h)%Z ->
  In p (forecast (fst (fetchForecastData cfg w rnd now lat lng h))) ->
  0.55 <= confidence p <= 0.85.
Proof.
  intros Hh Hp. apply In_nth_error in Hp. destruct Hp as [k Ek].
  destruct (fetchForecastData_cases cfg w rnd now lat lng h)
    as [Emock | (entries & ps & _ & _ & Em & Eps & _)]; cbv zeta in *.
  - rewrite Emock in Ek.
    destruct (getMockForecastData_points rnd now lat lng h) as [Hlen Hnth].
    destruct (Hnth k p Ek) as [Hk Hc].
    assert (Hlt : (k < Z.to_nat h)%nat).
    { rewrite <- Hlen. apply nth_error_Some. rewrite Ek. discriminate. }
    rewrite Hc, Hk.
    assert (Hpos : 0 < inject_Z h).
    { change 0 with (inject_Z 0). rewrite <- Zlt_Qlt. lia. }
    assert (H0 : 0 <= inject_Z (Z.of_nat k + 1) / inject_Z h).
    { apply Qle_shift_div_l; [exact Hpos|]. rewrite Qmult_0_l.
      change 0 with (inject_Z 0). rewrite <- Zle_Qle. lia. }
    assert (H1 : inject_Z (Z.of_nat k + 1) / inject_Z h <= 1).
    { apply Qle_shift_div_r; [exact Hpos|]. rewrite Qmult_1_l.
      rewrite <- Zle_Qle. lia. }
    split; lra.
  - rewrite Eps in Ek.
    destruct (map_items_points _ 0%nat ps Em) as [_ Hnth].
    destruct (Hnth k p Ek) as [_ Hc]. rewrite Hc. split; lra.
Qed.

Lemma fetchForecastData_points_range `{MathLib}
    (cfg : Config) (w : World) (rnd : random_source) (now : timestamp)
    (lat lng : Q) (h : Z) (p : ForecastPoint) :
  In p (forecast (fst (fetchForecastData cfg w rnd now lat lng h))) ->
  (1 <= predictedAqi p <= 500)%Z.
Proof.
  intro Hp.
  destruct (fetchForecastData_cases cfg w rnd now lat lng h)
    as [Emock | (entries & ps & _ & _ & Em & Eps & _)]; cbv zeta in *.
  - rewrite Emock in Hp. apply (getMockForecastData_member rnd now lat lng h p Hp).
  - rewrite Eps in Hp.
    destruct (map_items_member _ 0%nat ps p Em Hp) as (item & i & _ & Ei).
    apply (forecast_of_item_index item i p Ei).
Qed.

Lemma fetchForecastData_nonempty `{MathLib}
    (cfg : Config) (w : World) (rnd : random_source) (now : timestamp)
    (lat lng : Q) (h : Z) :
  (1 <= h)%Z ->
  forecast (fst (fetchForecastData cfg w rnd now lat lng h)) <> [].
Proof.
  intros Hh Hnil.
  assert (Hlen : List.length
                   (forecast (fst (fetchForecastData cfg w rnd now lat lng h))) = 0%nat)
    by (rewrite Hnil; reflexivity).
  destruct (fetchForecastData_cases cfg w rnd now lat lng h)
    as [Emock | (entries & ps & _ & Hne & Em & Eps & _)]; cbv zeta in *.
  - rewrite Emock in Hlen.
    destruct (getMockForecastData_points rnd now lat lng h) as [Hl _].
    rewrite Hl in Hlen. lia.
  - rewrite Eps in Hlen.
    destruct (map_items_points _ 0%nat ps Em) as [Hl _].
    assert (Hentries : (1 <= Z.of_nat (List.length entries))%Z)
      by (destruct entries; [congruence | simpl List.length; lia]).
    rewrite slice0_length in Hl by lia. lia.
Qed.

(** X24.  For a horizon of at least one hour the forecast handler never
    takes its 503 branch: [fetchForecastData] returns at least one point
    whatever the provider does, and the summary exists.  In it the least,
    average and greatest index lie between 1 and 500 in that order, and
    the average confidence is a percentage between 55 and 85. *)
Theorem forecast_after_validation_generated `{MathLib} (getHours : timestamp -> Z)
    (cfg : Config) (w : World) (rnd : random_source) (now : timestamp)
    (lat lng : Q) (h : Z) :
  (1 <= h)%Z ->
  exists data summary,
    forecast_after_validation getHours cfg w rnd now lat lng h
    = (Generated data (Some summary), snd (fetchForecastData cfg w rnd now lat lng h))
    /\ data = fst (fetchForecastData cfg w rnd now lat lng h)
    /\ (1 <= minAqi summary)%Z
    /\ (minAqi summary <= avgAqi summary <= maxAqi summary)%Z
    /\ (maxAqi summary <= 500)%Z
    /\ (55 <= avgConfidence summary <= 85)%Z.
Proof.
  intro Hh.
  pose proof (fetchForecastData_nonempty cfg w rnd now lat lng h Hh) as Hne.
  pose proof (fun p => fetchForecastData_points_range cfg w rnd now lat lng h p) as Hrange.
  pose proof (fun p => fetchForecastData_confidence cfg w rnd now lat lng h p Hh) as Hconf.
  unfold forecast_after_validation.
  destruct (fetchForecastData cfg w rnd now lat lng h) as [data calls].
  cbn [fst snd] in *.
  destruct (forecast data) as [|p0 rest] eqn:Ef; [congruence|].
  eexists. eexists. split; [reflexivity|]. split; [reflexivity|].
  cbn [avgAqi maxAqi minAqi avgConfidence].
  set (points := p0 :: rest) in *.
  set (values := map predictedAqi points).
  assert (Ev : values = predictedAqi p0 :: map predictedAqi rest) by reflexivity.
  destruct (fold_left_max_spec (map predictedAqi rest) (predictedAqi p0))
    as [Hmaxin Hmax].
  destruct (fold_left_min_spec (map predictedAqi rest) (predictedAqi p0))
    as [Hminin Hmin].
  cbv zeta in Hmaxin, Hmax, Hminin, Hmin.
  assert (Emax : max_of values = fold_left Z.max (map predictedAqi rest) (predictedAqi p0))
    by (rewrite Ev; reflexivity).
  assert (Emin : min_of values = fold_left Z.min (map predictedAqi rest) (predictedAqi p0))
    by (rewrite Ev; reflexivity).
  rewrite <- Emax in Hmaxin, Hmax. rewrite <- Emin in Hminin, Hmin.
  rewrite <- Ev in Hmaxin, Hmax, Hminin, Hmin.
  assert (Hvals : forall x, In x values -> (1 <= x <= 500)%Z).
  { intros x Hx. apply in_map_iff in Hx. destruct Hx as (p & <- & Hp).
    apply Hrange. exact Hp. }
  split; [apply Hvals; exact Hminin|].
  split.
  { apply average_between; [rewrite Ev; discriminate|].
    intros x Hx. split; [apply Hmin | apply Hmax]; exact Hx. }
  split; [apply Hvals; exact Hmaxin|].
  assert (Hsum : inject_Z (Z.of_nat (List.length points)) * 0.55
                 <= fold_left (fun sum f => sum + confidence_or_default (confidence f))
                              points 0
                 <= inject_Z (Z.of_nat (List.length points)) * 0.85).
  { apply confidence_sum_bounds. intros p Hp.
    destruct (Hconf p Hp) as [Hlo Hhi].
    rewrite confidence_or_default_positive by lra. split; assumption. }
  set (total := fold_left _ points 0) in *.
  set (n := inject_Z (Z.of_nat (List.length points))) in *.
  assert (Hn : 0 < n).
  { unfold n, points. cbn [List.length]. change 0 with (inject_Z 0).
    rewrite <- Zlt_Qlt. lia. }
  assert (Hq : 0.55 <= total / n <= 0.85).
  { split.
    - apply Qle_shift_div_l; [exact Hn|]. lra.
    - apply Qle_shift_div_r; [exact Hn|]. lra. }
  split.
  - apply Math_round_ge. change (inject_Z 55) with 55. lra.
  - apply Math_round_le. change (inject_Z 85) with 85. lra.
Qed.

Lemma forecast_after_validation_generated_witness :
  exists data summary,
    @forecast_after_validation rational_math (fun t => (t / 3600000) mod 24)%Z
      online_config world_short_forecast half_noise 1700000000000%Z 19.0760 72.8777 48
    = (Generated data (Some summary),
       snd (@fetchForecastData rational_math online_config world_short_forecast half_noise
              1700000000000%Z 19.0760 72.8777 48))
    /\ data = fst (@fetchForecastData rational_math online_config world_short_forecast half_noise
                     1700000000000%Z 19.0760 72.8777 48)
    /\ (1 <= minAqi summary)%Z
    /\ (minAqi summary <= avgAqi summary <= maxAqi summary)%Z
    /\ (maxAqi summary <= 500)%Z
    /\ (55 <= avgConfidence summary <= 85)%Z.
Proof.
  apply (@forecast_after_validation_generated rational_math). lia.
Defined.
(** ** Entries the provider adapters reject *)

Lemma Z_quot_within (n : Z) (d : positive) (bound : Z) :
  Qabs (n # d) <= inject_Z bound ->
  (- bound <= Z.quot n (Zpos d) <= bound)%Z.
Proof.
  unfold Qle, Qabs. cbn [Qnum Qden inject_Z]. intro Hle.
  rewrite Z.mul_1_r in Hle.
  assert (Hb : (0 <= bound)%Z) by nia.
  destruct (Z.le_gt_cases 0 n) as [Hn | Hn].
  - rewrite Z.abs_eq in Hle by exact Hn. split.
    + pose proof (Z.quot_pos n (Zpos d) Hn ltac:(lia)). lia.
    + apply Z.quot_le_upper_bound; lia.
  - rewrite Z.abs_neq in Hle by lia.
    replace n with (- (- n))%Z by lia. rewrite Z.quot_opp_l by lia. split.
    + assert (H1 : (Z.quot (- n) (Zpos d) <= bound)%Z)
        by (apply Z.quot_le_upper_bound; lia).
      lia.
    + pose proof (Z.quot_pos (- n) (Zpos d) ltac:(lia) ltac:(lia)). lia.
Qed.

Lemma iso_of_seconds_range (seconds : jsval) (t : timestamp) :
  iso_of_seconds seconds = Some t ->
  (-8640000000000000 <= t <= 8640000000000000)%Z.
Proof.
  unfold iso_of_seconds.
  destruct (ToNumber seconds) as [s|]; [|discriminate].
  destruct (Double.nearest (s * 1000)) as [ms|]; [|discriminate].
  destruct (Qlt_bool 8640000000000000 (Qabs ms)) eqn:E; [discriminate|].
  intro Et. injection Et as <-.
  unfold Qlt_bool in E. apply negb_false_iff, Qle_bool_iff in E.
  destruct ms as [n d]. cbn [Qnum Qden].
  apply (Z_quot_within n d 8640000000000000). exact E.
Qed.

Lemma forecast_of_item_none (item : OwmEntry) (index : nat) :
  forecast_of_item item index = None
  <-> components item = None \/ iso_of_seconds (dt item) = None.
Proof.
  unfold forecast_of_item.
  destruct (components item) as [c|]; [|split; [left; reflexivity | reflexivity]].
  destruct (iso_of_seconds (dt item)) as [t|].
  - split; [discriminate | intros [E | E]; discriminate E].
  - split; [right; reflexivity | reflexivity].
Qed.

Lemma map_items_none (items : list OwmEntry) (index : nat) (item : OwmEntry) :
  In item items ->
  components item = None \/ iso_of_seconds (dt item) = None ->
  map_items items index = None.
Proof.
  revert index. induction items as [|a rest IH]; intros index Hin Hbad; [destruct Hin|].
  cbn [map_items]. destruct Hin as [E | Hin].
  - subst a. rewrite (proj2 (forecast_of_item_none item index) Hbad). reflexivity.
  - destruct (forecast_of_item a index); [|reflexivity].
    rewrite (IH (S index) Hin Hbad). reflexivity.
Qed.

(** X26.  The OpenWeatherMap adapter returns [null] exactly when the
    provider fails, sends no list or an empty one, or sends a first entry
    without [components] or with a [dt] that gives no valid date.  A
    valid date lies within 8.64e15 ms of the epoch; a missing [dt] gives
    none, and a [dt] of [null] gives the epoch.  In the forecast, one
    such entry among those used makes the whole series the synthetic
    one, although the request was made. *)
Theorem owm_entry_rejected `{MathLib} (cfg : Config) (w : World) (rnd : random_source)
    (now : timestamp) (lat lng : Q) (hours : Z) :
  (fst (fetchFromOpenWeatherMap cfg w lat lng) = None <->
   match owm_air_pollution w lat lng (key_param (openWeatherApiKey cfg)) with
   | Some (Some (pollution :: _)) =>
       components pollution = None \/ iso_of_seconds (dt pollution) = None
   | _ => True
   end)
  /\ (forall seconds t, iso_of_seconds seconds = Some t ->
        (-8640000000000000 <= t <= 8640000000000000)%Z)
  /\ iso_of_seconds Undefined = None
  /\ iso_of_seconds Null = Some 0%Z
  /\ (forall entries item,
        negb (useRealData cfg) || key_falsy (openWeatherApiKey cfg) = false ->
        owm_air_pollution_forecast w lat lng (key_param (openWeatherApiKey cfg))
        = Some (Some entries) ->
        In item (slice0 entries (Z.min hours (Z.of_nat (List.length entries)))) ->
        components item = None \/ iso_of_seconds (dt item) = None ->
        fetchForecastData cfg w rnd now lat lng hours
        = (getMockForecastData rnd now lat lng hours,
           [GetAirPollutionForecast lat lng (key_param (openWeatherApiKey cfg))])).
Proof.
  split.
  { unfold fetchFromOpenWeatherMap.
    destruct (owm_air_pollution w lat lng _) as [[[|pollution rest]|]|]; cbn [fst];
      try (split; [intros _; exact I | reflexivity]).
    unfold formatOpenWeatherMapResponse.
    destruct (components pollution) as [c|]; [|split; [left; reflexivity | reflexivity]].
    destruct (iso_of_seconds (dt pollution)) as [t|].
    - split; [discriminate | intros [E | E]; discriminate E].
    - split; [right; reflexivity | reflexivity]. }
  split; [exact iso_of_seconds_range|].
  split; [reflexivity|].
  split; [vm_compute; reflexivity|].
  intros entries item Hon Hw Hin Hbad.
  unfold fetchForecastData. rewrite Hon, Hw.
  destruct entries as [|e rest]; [reflexivity|].
  rewrite (map_items_none _ 0%nat item Hin Hbad). reflexivity.
Qed.

